(** * opti2025: reversible optimisation profiles

    A shallow embedding of the three profile engines of the repository
    (cleanup.py, performance.py, max_performance.py) and the properties of
    their apply / restore entry points.

    Layout of the development:
    - [PyStr], [Pathlib], [Py]: the fragments of Python strings, of pathlib
      and of Python / JSON values that the engines use;
    - [FS]: the file system as a tree of directories;
    - [Sys]: the world an engine runs in (file system, operating system
      behind its capability adapters, log of the calls made) and the
      state-and-exception monad the engines are written in;
    - [Cleanup], [Performance], [MaxPerformance]: the engines;
    - [Sim]: a small concrete operating system, used to run the engines;
    - the properties.

    Reading conventions.
    - Lines 145 and 156 of cleanup.py carry escaped quotes around their
      f-strings; they are read as the plain f-string literals.
    - The operating system is reached only through the calls the source
      makes: winreg's OpenKey / CreateKey / QueryValueEx / DeleteValue /
      SetValueEx, subprocess.run, os.access, re.search.  Their behaviour is
      arbitrary (a field of [os_api]); every property below holds for all
      of them.
    - Strings are byte strings; names are compared by code point. *)

From stdpp Require Import gmap strings list fin_maps sorting.
From Stdlib Require Import ZArith Lia Ascii.

Set Warnings "-register-all".
Open Scope string_scope.
Open Scope list_scope.

(* ===================================================================== *)
(** * Python strings *)
(* ===================================================================== *)

Module PyStr.

(** [bool(s)] for a string: non-empty. *)
Definition truthy (s : string) : bool :=
  match s with EmptyString => false | String _ _ => true end.

(** [s.replace(c, "")] for a one-character [c]. *)
Fixpoint remove_char (c : ascii) (s : string) : string :=
  match s with
  | EmptyString => EmptyString
  | String a s' =>
      if Ascii.eqb a c then remove_char c s' else String a (remove_char c s')
  end.

(** [s.split(sep)] generalised to a set of one-character separators:
    the pieces between separators, empty pieces included. *)
Fixpoint split_go (is_sep : ascii → bool) (cur : string) (s : string)
  : list string :=
  match s with
  | EmptyString => [cur]
  | String a s' =>
      if is_sep a then cur :: split_go is_sep EmptyString s'
      else split_go is_sep (cur +:+ String a EmptyString) s'
  end.

Definition split (is_sep : ascii → bool) (s : string) : list string :=
  split_go is_sep EmptyString s.

(** [needle in s]. *)
Fixpoint contains (needle s : string) : bool :=
  String.prefix needle s
  || match s with
     | EmptyString => false
     | String _ s' => contains needle s'
     end.

(** [s.strip()] is only applied to the error output of a command, which
    is copied into the error list; its value is never inspected, so the
    model keeps the text as it is. *)
Definition strip (s : string) : string := s.

(** [s.upper()] and [s.lower()] on the ASCII letters. *)
Definition upper_char (a : ascii) : ascii :=
  let n := nat_of_ascii a in
  if (97 <=? n)%nat && (n <=? 122)%nat then ascii_of_nat (n - 32) else a.
Definition lower_char (a : ascii) : ascii :=
  let n := nat_of_ascii a in
  if (65 <=? n)%nat && (n <=? 90)%nat then ascii_of_nat (n + 32) else a.

Fixpoint map_chars (f : ascii → ascii) (s : string) : string :=
  match s with
  | EmptyString => EmptyString
  | String a s' => String (f a) (map_chars f s')
  end.

Definition upper (s : string) : string := map_chars upper_char s.
Definition lower (s : string) : string := map_chars lower_char s.

(** [s.splitlines()] on the line ends LF, CR LF and CR. *)
Definition is_lf (a : ascii) : bool := Ascii.eqb a "010"%char.
Definition is_cr (a : ascii) : bool := Ascii.eqb a "013"%char.

Fixpoint splitlines_go (cur : string) (s : string) : list string :=
  match s with
  | EmptyString => if truthy cur then [cur] else []
  | String a s' =>
      if is_lf a then cur :: splitlines_go EmptyString s'
      else if is_cr a then
        match s' with
        | String b s'' =>
            if is_lf b then cur :: splitlines_go EmptyString s''
            else cur :: splitlines_go EmptyString s'
        | EmptyString => [cur]
        end
      else splitlines_go (cur +:+ String a EmptyString) s'
  end.

Definition splitlines (s : string) : list string :=
  splitlines_go EmptyString s.

End PyStr.

(* ===================================================================== *)
(** * pathlib *)
(* ===================================================================== *)

Module Pathlib.

(** A pure path as pathlib keeps it: drive, root and the components
    after the anchor. *)
Record Path := mkPath {
  drive : string;
  root : string;
  tail : list string;
}.

#[global] Instance Path_eq_dec : EqDecision Path.
Proof. solve_decision. Defined.

Definition anchor (p : Path) : string := drive p +:+ root p.

(** [p.parts]: the anchor, when there is one, then the components. *)
Definition parts (p : Path) : list string :=
  if PyStr.truthy (anchor p) then anchor p :: tail p else tail p.

(** [p.name]. *)
Definition name (p : Path) : string := List.last (tail p) EmptyString.

(** The flavour is Windows exactly when [sys.platform == "win32"]. *)
Definition sep (win : bool) : string := if win then "\" else "/".

Definition is_sep (win : bool) (a : ascii) : bool :=
  Ascii.eqb a "/"%char || (win && Ascii.eqb a "\"%char).

(** Components of a relative piece: split at the separators, empty and
    "." pieces dropped. *)
Definition segments (win : bool) (s : string) : list string :=
  List.filter (λ x, PyStr.truthy x && negb (String.eqb x "."))
              (PyStr.split (is_sep win) s).

(** POSIX root of a string that starts with a slash: exactly two leading
    slashes are kept, any other number is one. *)
Definition posix_root (s : string) : string :=
  match s with
  | String _ (String b rest) =>
      if Ascii.eqb b "/"%char then
        match rest with
        | String c _ => if Ascii.eqb c "/"%char then "/" else "//"
        | EmptyString => "//"
        end
      else "/"
  | _ => "/"
  end.

(** [Path(s)].  UNC and device prefixes are not recognised: on Windows a
    leading separator is read as the root of the current drive. *)
Definition parse (win : bool) (s : string) : Path :=
  match s with
  | EmptyString => mkPath "" "" []
  | String a rest =>
      if is_sep win a then
        if win then mkPath "" "\" (segments win rest)
        else mkPath "" (posix_root s) (segments win rest)
      else if win then
        match rest with
        | String b rest2 =>
            if Ascii.eqb b ":"%char then
              let drv := String a (String b EmptyString) in
              match rest2 with
              | String c rest3 =>
                  if is_sep win c then mkPath drv "\" (segments win rest3)
                  else mkPath drv "" (segments win rest2)
              | EmptyString => mkPath drv "" []
              end
            else mkPath "" "" (segments win s)
        | EmptyString => mkPath "" "" (segments win s)
        end
      else mkPath "" "" (segments win s)
  end.

(** [str(p)]. *)
Definition str (win : bool) (p : Path) : string :=
  if PyStr.truthy (anchor p) then anchor p +:+ String.concat (sep win) (tail p)
  else match tail p with
       | [] => "."
       | _ => String.concat (sep win) (tail p)
       end.

(** [p / s] for an arbitrary string [s]: a rooted [s] replaces the
    components (and the drive when it names one), a different drive
    replaces everything, anything else is appended. *)
Definition joinpath (win : bool) (p : Path) (s : string) : Path :=
  let q := parse win s in
  if PyStr.truthy (root q) then
    if win then
      mkPath (if PyStr.truthy (drive q) then drive q else drive p)
             (root q) (tail q)
    else q
  else if PyStr.truthy (drive q) && negb (String.eqb (drive q) (drive p))
  then q
  else mkPath (drive p) (root p) (tail p ++ tail q).

(** [p / n] where [n] is one component: a literal of the source, a
    strftime stamp, or the name of a directory entry. *)
Definition child (p : Path) (n : string) : Path :=
  mkPath (drive p) (root p) (tail p ++ [n]).

End Pathlib.

(* ===================================================================== *)
(** * Python values, as far as JSON carries them *)
(* ===================================================================== *)

Module Py.

(** What [json.loads] can return and [json.dumps] can take; registry
    values are of this type too (strings and integers). *)
Inductive value :=
| VNone
| VBool (b : bool)
| VInt (n : Z)
| VFloat (m e : Z)
| VStr (s : string)
| VList (l : list value)
| VDict (kvs : list (string * value)).

(** [bool(v)]. *)
Definition truthy (v : value) : bool :=
  match v with
  | VNone => false
  | VBool b => b
  | VInt n => negb (n =? 0)%Z
  | VFloat m _ => negb (m =? 0)%Z
  | VStr s => PyStr.truthy s
  | VList l => match l with [] => false | _ => true end
  | VDict kvs => match kvs with [] => false | _ => true end
  end.

(** [isinstance(v, str)], [isinstance(v, int)] (a bool is an int in
    Python), [isinstance(v, dict)], [v is None], [v is True]. *)
Definition is_str (v : value) : bool :=
  match v with VStr _ => true | _ => false end.
Definition is_int (v : value) : bool :=
  match v with VInt _ | VBool _ => true | _ => false end.
Definition is_none (v : value) : bool :=
  match v with VNone => true | _ => false end.
Definition is_true (v : value) : bool :=
  match v with VBool true => true | _ => false end.

(** A dict keeps its keys in insertion order. [d.get(k)]: *)
Fixpoint dict_get (k : string) (kvs : list (string * value)) : value :=
  match kvs with
  | [] => VNone
  | (k', v) :: rest => if String.eqb k' k then v else dict_get k rest
  end.

(** [d[k] = v]: an existing key keeps its place. *)
Fixpoint dict_set {A} (k : string) (v : A) (kvs : list (string * A))
  : list (string * A) :=
  match kvs with
  | [] => [(k, v)]
  | (k', v') :: rest =>
      if String.eqb k' k then (k, v) :: rest
      else (k', v') :: dict_set k v rest
  end.

Definition of_option_str (o : option string) : value :=
  match o with Some s => VStr s | None => VNone end.

(** Exceptions, by the classes the source tells apart:
    FileNotFoundError, the rest of OSError (shutil.Error included), and
    everything that is not an OSError. *)
Inductive exn :=
| FileNotFoundError (msg : string)
| OSError (msg : string)
| OtherError (msg : string).

Definition is_OSError (e : exn) : bool :=
  match e with OtherError _ => false | _ => true end.
Definition is_FileNotFoundError (e : exn) : bool :=
  match e with FileNotFoundError _ => true | _ => false end.
(** [str(exc)]. *)
Definition exn_str (e : exn) : string :=
  match e with FileNotFoundError m | OSError m | OtherError m => m end.

Inductive outcome (A : Type) :=
| Ok (a : A)
| Raise (e : exn).
Arguments Ok {A} a.
Arguments Raise {A} e.

End Py.

(* ===================================================================== *)
(** * The file system *)
(* ===================================================================== *)

Module FS.
Import Py.

(** A file holds a JSON document (kept decoded: what [json.loads] gives
    back for what [json.dumps] wrote) or any other text. *)
Inductive content :=
| Text (s : string)
| JsonDoc (v : value).

(** The tree of directories.  A location is the list of the [parts] of a
    path, read from the top of the tree.  No links, no "..", no case
    folding. *)
Inductive node :=
| File (c : content)
| Dir (ents : gmap string node).

Definition is_dir_node (n : node) : bool :=
  match n with Dir _ => true | File _ => false end.

Fixpoint lookup (p : list string) (t : node) : option node :=
  match p with
  | [] => Some t
  | c :: p' =>
      match t with
      | Dir ents =>
          match ents !! c with
          | Some t' => lookup p' t'
          | None => None
          end
      | File _ => None
      end
  end.

(** [p.exists()], [p.is_dir()]. *)
Definition exists_ (p : list string) (t : node) : bool :=
  match lookup p t with Some _ => true | None => false end.

Definition is_dir (p : list string) (t : node) : bool :=
  match lookup p t with Some (Dir _) => true | _ => false end.

(** The names in a directory ([os.listdir], behind [p.iterdir()]). *)
Definition listdir (p : list string) (t : node) : outcome (list string) :=
  match lookup p t with
  | Some (Dir ents) => Ok ((map_to_list ents).*1)
  | Some (File _) => Raise (OSError "Not a directory")
  | None => Raise (FileNotFoundError "No such file or directory")
  end.

(** Put node [n] at [p]; the parent of [p] has to be a directory. *)
Fixpoint put (p : list string) (n : node) (t : node) : option node :=
  match p with
  | [] => Some n
  | c :: p' =>
      match t with
      | Dir ents =>
          match ents !! c, p' with
          | Some t', _ => (λ t'', Dir (<[c:=t'']> ents)) <$> put p' n t'
          | None, [] => Some (Dir (<[c:=n]> ents))
          | None, _ :: _ => None
          end
      | File _ => None
      end
  end.

(** Take the node at [p] out of the tree. *)
Fixpoint remove (p : list string) (t : node) : option node :=
  match p, t with
  | c :: p', Dir ents =>
      match ents !! c with
      | Some t' =>
          match p' with
          | [] => Some (Dir (delete c ents))
          | _ :: _ => (λ t'', Dir (<[c:=t'']> ents)) <$> remove p' t'
          end
      | None => None
      end
  | _, _ => None
  end.

(** [p.mkdir(parents=True, exist_ok=True)]: every missing directory on
    the way is created; a file on the way, or at [p], is an OSError. *)
Fixpoint mkdir_p (p : list string) (t : node) : outcome node :=
  match t with
  | File _ => Raise (OSError "File exists")
  | Dir ents =>
      match p with
      | [] => Ok t
      | c :: p' =>
          match mkdir_p p' (default (Dir ∅) (ents !! c)) with
          | Ok t' => Ok (Dir (<[c:=t']> ents))
          | Raise e => Raise e
          end
      end
  end.

(** The second half of [shutil.move]: entry [n], found at [src], goes to
    [real_dst].  A directory does not go into itself; a file replaces a
    file; nothing replaces a directory, and a directory replaces
    nothing. *)
Definition relocate (src real_dst : list string) (n : node) (t : node)
  : outcome node :=
  if is_dir_node n && bool_decide (src `prefix_of` real_dst) then
    Raise (OSError "Cannot move a directory into itself")
  else
    match lookup real_dst t, n with
    | Some (Dir _), _ => Raise (OSError "Is a directory")
    | Some (File _), Dir _ => Raise (OSError "File exists")
    | _, _ =>
        match remove src t with
        | Some t1 =>
            match put real_dst n t1 with
            | Some t2 => Ok t2
            | None => Raise (FileNotFoundError "No such file or directory")
            end
        | None => Raise (FileNotFoundError "No such file or directory")
        end
    end.

(** [shutil.move(src, dst)].  An existing directory [dst] receives the
    entry under its own name, unless that name is taken there.  The move
    is atomic: it relocates the entry or fails without effect. *)
Definition move (src dst : list string) (t : node) : outcome node :=
  match lookup src t with
  | None => Raise (FileNotFoundError "No such file or directory")
  | Some n =>
      if is_dir dst t then
        if bool_decide (src = dst) then Ok t
        else
          let real_dst := dst ++ [List.last src EmptyString] in
          if exists_ real_dst t then
            Raise (OSError "Destination path already exists")
          else relocate src real_dst n t
      else relocate src dst n t
  end.

(** [p.write_text(...)] and [p.read_text(...)]. *)
Definition write_text (p : list string) (c : content) (t : node)
  : outcome node :=
  match lookup p t with
  | Some (Dir _) => Raise (OSError "Is a directory")
  | _ =>
      match put p (File c) t with
      | Some t' => Ok t'
      | None => Raise (FileNotFoundError "No such file or directory")
      end
  end.

Definition read_text (p : list string) (t : node) : outcome content :=
  match lookup p t with
  | Some (File c) => Ok c
  | Some (Dir _) => Raise (OSError "Is a directory")
  | None => Raise (FileNotFoundError "No such file or directory")
  end.

(** [json.loads]: a text that is no JSON document raises
    JSONDecodeError, which is not an OSError. *)
Definition json_loads (c : content) : outcome value :=
  match c with
  | JsonDoc v => Ok v
  | Text _ => Raise (OtherError "JSONDecodeError")
  end.

End FS.

(* ===================================================================== *)
(** * The world of an engine call *)
(* ===================================================================== *)

Module Sys.
Import Py Pathlib.

(** What [subprocess.run(..., capture_output=True, text=True)] returns. *)
Record completed := mkCompleted {
  returncode : Z;
  stdout : string;
  stderr : string;
}.

Inductive key_access := KEY_READ_WRITE | KEY_SET_VALUE.
Inductive regtype := REG_SZ | REG_DWORD.
Inductive fs_op :=
| OpMkdir (p : list string)
| OpMove (src dst : list string).

(** One entry of the log per call that reaches the operating system or
    writes to the file system, with what it answered. *)
Inductive event :=
| EvMkdir (p : list string) (ok : bool)
| EvMove (src dst : list string) (ok : bool)
| EvWriteManifest (p : list string) (data : value) (ok : bool)
| EvOpenKey (key : string) (r : outcome unit)
| EvCreateKey (key : string) (r : outcome unit)
| EvQueryValue (key name : string) (r : outcome value)
| EvDeleteValue (key name : string) (r : outcome unit)
| EvSetValue (key name : string) (v : value) (r : outcome unit)
| EvRun (cmd : list string) (r : outcome completed).

(** Reading the log. *)
Definition is_manifest_write (e : event) : bool :=
  match e with EvWriteManifest _ _ _ => true | _ => false end.

Definition is_fs_event (e : event) : bool :=
  match e with
  | EvMkdir _ _ | EvMove _ _ _ | EvWriteManifest _ _ _ => true
  | _ => false
  end.

Definition is_move (e : event) : bool :=
  match e with EvMove _ _ _ => true | _ => false end.
Definition is_move_ok (e : event) : bool :=
  match e with EvMove _ _ ok => ok | _ => false end.
Definition is_move_refused (e : event) : bool :=
  match e with EvMove _ _ ok => negb ok | _ => false end.

(** The calls that change a registry value, a service, the power scheme. *)
Definition writes_value (key name : string) (e : event) : bool :=
  match e with
  | EvDeleteValue k n _ | EvSetValue k n _ _ =>
      String.eqb k key && String.eqb n name
  | _ => false
  end.

Definition changes_service (service_name : string) (e : event) : bool :=
  match e with
  | EvRun (exe :: verb :: n :: rest) _ =>
      String.eqb exe "sc.exe" && String.eqb n service_name
      && match rest with
         | [] => String.eqb verb "stop" || String.eqb verb "start"
         | [_] => String.eqb verb "config"
         | _ => false
         end
  | _ => false
  end.

Definition changes_power (e : event) : bool :=
  match e with
  | EvRun [exe; verb; _] _ =>
      String.eqb exe "powercfg" && String.eqb verb "/setactive"
  | _ => false
  end.

(** The service an [sc.exe] call is about. *)
Definition service_of (e : event) : option string :=
  match e with
  | EvRun (exe :: _ :: n :: _) _ =>
      if String.eqb exe "sc.exe" then Some n else None
  | _ => None
  end.

(** The capability adapters, over an operating-system state [W] about
    which nothing is assumed.  [os_access p] is
    [os.access(p, os.W_OK | os.R_OK)]; [fs_fault] lets the system refuse
    a mkdir or a move (permissions, locked files); [re_search pat s] is
    group 1 of [re.search(pat, s)]. *)
Record os_api (W : Type) := mkApi {
  os_access : list string → W → bool;
  fs_fault : fs_op → W → option exn;
  winreg_OpenKey : string → key_access → W → outcome unit * W;
  winreg_CreateKey : string → W → outcome unit * W;
  winreg_QueryValueEx : string → string → W → outcome value * W;
  winreg_DeleteValue : string → string → W → outcome unit * W;
  winreg_SetValueEx :
    string → string → regtype → value → W → outcome unit * W;
  subprocess_run : list string → W → outcome completed * W;
  re_search : string → string → option string;
}.
Arguments os_access {W}.
Arguments fs_fault {W}.
Arguments winreg_OpenKey {W}.
Arguments winreg_CreateKey {W}.
Arguments winreg_QueryValueEx {W}.
Arguments winreg_DeleteValue {W}.
Arguments winreg_SetValueEx {W}.
Arguments subprocess_run {W}.
Arguments re_search {W}.

(** The process-wide inputs of a call: platform, environment, home
    directory and the clock reading
    [datetime.now().strftime("%Y%m%d_%H%M%S")]. *)
Record config := mkConfig {
  win32 : bool;
  environ : gmap string string;
  home : Path;
  now : string;
}.

Record world (W : Type) := mkWorld {
  w_fs : FS.node;
  w_os : W;
  w_log : list event;
}.
Arguments mkWorld {W}.
Arguments w_fs {W}.
Arguments w_os {W}.
Arguments w_log {W}.

(** State and exceptions: a raise keeps the effects made so far. *)
Definition M (W A : Type) : Type := world W → outcome A * world W.

Definition ret {W A} (a : A) : M W A := λ w, (Ok a, w).
Definition raise {W A} (e : exn) : M W A := λ w, (Raise e, w).
Definition bind {W A B} (m : M W A) (k : A → M W B) : M W B :=
  λ w, match m w with
       | (Ok a, w') => k a w'
       | (Raise e, w') => (Raise e, w')
       end.

(** The outcome of [m] as a value: the body of a [try]. *)
Definition attempt {W A} (m : M W A) : M W (outcome A) :=
  λ w, match m w with
       | (Ok a, w') => (Ok (Ok a), w')
       | (Raise e, w') => (Ok (Raise e), w')
       end.

Definition emit {W} (ev : event) (w : world W) : world W :=
  mkWorld (w_fs w) (w_os w) (w_log w ++ [ev]).

(** A call to the operating system, logged with its answer. *)
Definition os_call {W A} (f : W → outcome A * W) (ev : outcome A → event)
  : M W A :=
  λ w, let '(r, os') := f (w_os w) in
       (r, mkWorld (w_fs w) os' (w_log w ++ [ev r])).

Definition is_ok {A} (r : outcome A) : bool :=
  match r with Ok _ => true | Raise _ => false end.

(** A change of the file system, which the system may refuse. *)
Definition fs_update {W} (api : os_api W) (op : fs_op)
    (f : FS.node → outcome FS.node) (ev : bool → event) : M W unit :=
  λ w, match fs_fault api op (w_os w) with
       | Some e => (Raise e, emit (ev false) w)
       | None =>
           match f (w_fs w) with
           | Ok t => (Ok tt, mkWorld t (w_os w) (w_log w ++ [ev true]))
           | Raise e => (Raise e, emit (ev false) w)
           end
       end.

Section Prims.
Context {W : Type} (api : os_api W).

Definition exists_ (p : Path) : M W bool :=
  λ w, (Ok (FS.exists_ (parts p) (w_fs w)), w).
Definition is_dir (p : Path) : M W bool :=
  λ w, (Ok (FS.is_dir (parts p) (w_fs w)), w).
Definition access (p : Path) : M W bool :=
  λ w, (Ok (os_access api (parts p) (w_os w)), w).
(** [list(p.iterdir())]: the entries, as paths. *)
Definition iterdir (p : Path) : M W (list Path) :=
  λ w, match FS.listdir (parts p) (w_fs w) with
       | Ok names => (Ok (child p <$> names), w)
       | Raise e => (Raise e, w)
       end.
Definition mkdir (p : Path) : M W unit :=
  fs_update api (OpMkdir (parts p)) (FS.mkdir_p (parts p))
            (EvMkdir (parts p)).
Definition shutil_move (src dst : Path) : M W unit :=
  fs_update api (OpMove (parts src) (parts dst))
            (FS.move (parts src) (parts dst))
            (EvMove (parts src) (parts dst)).
(** [p.write_text(json.dumps(data, indent=2))]. *)
Definition write_json (p : Path) (data : value) : M W unit :=
  λ w, match FS.write_text (parts p) (FS.JsonDoc data) (w_fs w) with
       | Ok t =>
           (Ok tt, mkWorld t (w_os w)
                           (w_log w ++ [EvWriteManifest (parts p) data true]))
       | Raise e =>
           (Raise e, emit (EvWriteManifest (parts p) data false) w)
       end.
(** [json.loads(p.read_text())]. *)
Definition read_json (p : Path) : M W value :=
  λ w, match FS.read_text (parts p) (w_fs w) with
       | Ok c => (FS.json_loads c, w)
       | Raise e => (Raise e, w)
       end.

Definition OpenKey (key : string) (a : key_access) : M W unit :=
  os_call (winreg_OpenKey api key a) (EvOpenKey key).
Definition CreateKey (key : string) : M W unit :=
  os_call (winreg_CreateKey api key) (EvCreateKey key).
Definition QueryValueEx (key name : string) : M W value :=
  os_call (winreg_QueryValueEx api key name) (EvQueryValue key name).
Definition DeleteValue (key name : string) : M W unit :=
  os_call (winreg_DeleteValue api key name) (EvDeleteValue key name).
Definition SetValueEx (key name : string) (ty : regtype) (v : value)
  : M W unit :=
  os_call (winreg_SetValueEx api key name ty v) (EvSetValue key name v).
Definition run (cmd : list string) : M W completed :=
  os_call (subprocess_run api cmd) (EvRun cmd).
End Prims.

(** [manifest.get(key)]: only a dict has it. *)
Definition manifest_get {W} (manifest : value) (key : string) : M W value :=
  match manifest with
  | VDict kvs => ret (dict_get key kvs)
  | _ => raise (OtherError "AttributeError")
  end.

(** The newest session under a profile's backup root, the way each of
    the three restore functions finds it:
    [sorted([p for p in root.iterdir() if p.is_dir()], reverse=True)[0]]
    after the guards on a missing root and on an empty list.  Paths of
    one directory compare by their names. *)
Definition sorted_reverse (names : list string) : list string :=
  merge_sort (λ a b, String.le b a) names.

Definition latest_session {W} (backups_root : Path) : M W (option Path) :=
  λ w, if FS.exists_ (parts backups_root) (w_fs w) then
         match FS.listdir (parts backups_root) (w_fs w) with
         | Ok names =>
             let dirs :=
               List.filter
                 (λ n, FS.is_dir (parts (child backups_root n)) (w_fs w))
                 names in
             match sorted_reverse dirs with
             | [] => (Ok None, w)
             | n :: _ => (Ok (Some (child backups_root n)), w)
             end
         | Raise e => (Raise e, w)
         end
       else (Ok None, w).

End Sys.

Notation "x <- m ;; k" := (Sys.bind m (λ x, k))
  (at level 100, m at next level, right associativity, only parsing).

(* ===================================================================== *)
(** * cleanup.py *)
(* ===================================================================== *)

Module Cleanup.
Import Py Pathlib Sys.

Record CleanupResult := mkResult {
  scanned : nat;
  moved : nat;
  failed : nat;
  skipped : nat;
  backup_dir : option Path;
  errors : list string;
}.

(** The counters and the error list of a call while it runs. *)
Record tally := mkTally {
  t_scanned : nat;
  t_moved : nat;
  t_failed : nat;
  t_skipped : nat;
  t_errors : list string;
}.

Definition tally0 : tally := mkTally 0 0 0 0 [].

Definition add_skipped (st : tally) : tally :=
  mkTally (t_scanned st) (t_moved st) (t_failed st) (S (t_skipped st))
          (t_errors st).
Definition add_error (msg : string) (st : tally) : tally :=
  mkTally (t_scanned st) (t_moved st) (t_failed st) (t_skipped st)
          (t_errors st ++ [msg]).
Definition add_scanned (st : tally) : tally :=
  mkTally (S (t_scanned st)) (t_moved st) (t_failed st) (t_skipped st)
          (t_errors st).
Definition add_moved (st : tally) : tally :=
  mkTally (t_scanned st) (S (t_moved st)) (t_failed st) (t_skipped st)
          (t_errors st).
Definition add_failed (st : tally) : tally :=
  mkTally (t_scanned st) (t_moved st) (S (t_failed st)) (t_skipped st)
          (t_errors st).

(** [a or b] on two optional strings. *)
Definition py_or (a b : option string) : option string :=
  match a with
  | Some s => if PyStr.truthy s then Some s else b
  | None => b
  end.

Definition opt_truthy (o : option string) : bool :=
  match o with Some s => PyStr.truthy s | None => false end.

Section Engine.
Context {W : Type} (api : os_api W) (cfg : config).

Definition _collect_temp_dirs : list Path :=
  let env_temp := py_or (environ cfg !! "TEMP") (environ cfg !! "TMP") in
  let temp_dirs :=
    match env_temp with
    | Some s => if PyStr.truthy s then [parse (win32 cfg) s] else []
    | None => []
    end in
  let windir := environ cfg !! "WINDIR" in
  match windir with
  | Some s =>
      if PyStr.truthy s
      then temp_dirs ++ [child (parse (win32 cfg) s) "Temp"]
      else temp_dirs
  | None => temp_dirs
  end.

Definition backups_root : Path :=
  child (child (home cfg) ".opti2025") "safe_backups".

Definition _build_backup_root : Path := child backups_root (now cfg).

Definition _backup_subdir_name (temp_dir : Path) : string :=
  let drv := PyStr.remove_char ":"%char (drive temp_dir) in
  let parts :=
    drv :: List.filter
             (λ part, negb (String.eqb part (drive temp_dir)
                            || String.eqb part (root temp_dir)))
             (parts temp_dir) in
  String.concat "_" (List.filter PyStr.truthy parts).

Definition _manifest_path (backup_root : Path) : Path :=
  child backup_root "manifest.json".

Definition manifest_value (mapping : list (string * string)) : value :=
  VDict ((λ kv, (kv.1, VStr kv.2)) <$> mapping).

Definition _write_manifest (backup_root : Path)
    (mapping : list (string * string)) : M W unit :=
  write_json (_manifest_path backup_root) (manifest_value mapping).

Definition _read_manifest (backup_root : Path) : M W value :=
  e <- exists_ (_manifest_path backup_root) ;;
  if e then read_json (_manifest_path backup_root) else ret (VDict []).

(** The inner loop of both entry points:
    [for entry in d.iterdir(): scanned += 1; try: shutil.move(...)]. *)
Fixpoint move_entries (destination : Path) (entries : list Path)
    (st : tally) : M W tally :=
  match entries with
  | [] => ret st
  | entry :: rest =>
      let st := add_scanned st in
      let target := child destination (name entry) in
      r <- attempt (shutil_move api entry target) ;;
      match r with
      | Ok _ => move_entries destination rest (add_moved st)
      | Raise exc =>
          if is_OSError exc then
            move_entries destination rest
              (add_error (str (win32 cfg) entry +:+ ": " +:+ exn_str exc)
                         (add_failed st))
          else raise exc
      end
  end.

(** The loop of [safe_cleanup] over the temp directories. *)
Fixpoint sweep (backup_root : Path) (temp_dirs : list Path)
    (mapping : list (string * string)) (st : tally)
  : M W (list (string * string) * tally) :=
  match temp_dirs with
  | [] => ret (mapping, st)
  | temp_dir :: rest =>
      e <- exists_ temp_dir ;;
      if negb e then sweep backup_root rest mapping (add_skipped st)
      else
        a <- access api temp_dir ;;
        if negb a then
          sweep backup_root rest mapping
            (add_error ("Accès refusé: " +:+ str (win32 cfg) temp_dir)
                       (add_skipped st))
        else
          let destination_name := _backup_subdir_name temp_dir in
          let destination_root :=
            joinpath (win32 cfg) backup_root destination_name in
          let mapping :=
            dict_set destination_name (str (win32 cfg) temp_dir) mapping in
          _ <- mkdir api destination_root ;;
          entries <- iterdir temp_dir ;;
          st <- move_entries destination_root entries st ;;
          sweep backup_root rest mapping st
  end.

Definition safe_cleanup : M W CleanupResult :=
  let temp_dirs := _collect_temp_dirs in
  let backup_root := _build_backup_root in
  ms <- sweep backup_root temp_dirs [] tally0 ;;
  let '(mapping, st) := ms in
  if Nat.eqb (t_moved st) 0 && Nat.eqb (t_failed st) 0 then
    ret (mkResult (t_scanned st) (t_moved st) (t_failed st) (t_skipped st)
                  None (t_errors st))
  else
    _ <- _write_manifest backup_root mapping ;;
    ret (mkResult (t_scanned st) (t_moved st) (t_failed st) (t_skipped st)
                  (Some backup_root) (t_errors st)).

(** The loop of [restore_latest_backup] over [manifest.items()]. *)
Fixpoint restore_entries (latest_backup : Path)
    (items : list (string * value)) (st : tally) : M W tally :=
  match items with
  | [] => ret st
  | (backup_name, destination_str) :: rest =>
      match destination_str with
      | VStr s =>
          let destination := parse (win32 cfg) s in
          let source_root := joinpath (win32 cfg) latest_backup backup_name in
          e <- exists_ source_root ;;
          if negb e then restore_entries latest_backup rest (add_skipped st)
          else
            de <- exists_ destination ;;
            r <- (if negb de then attempt (mkdir api destination)
                  else ret (Ok tt)) ;;
            match r with
            | Raise exc =>
                if is_OSError exc then
                  restore_entries latest_backup rest
                    (add_error ("Impossible de recréer "
                                +:+ str (win32 cfg) destination
                                +:+ ": " +:+ exn_str exc)
                               (add_skipped st))
                else raise exc
            | Ok _ =>
                entries <- iterdir source_root ;;
                st <- move_entries destination entries st ;;
                restore_entries latest_backup rest st
            end
      | _ => raise (OtherError "TypeError")
      end
  end.

Definition restore_latest_backup : M W CleanupResult :=
  latest <- latest_session backups_root ;;
  match latest with
  | None => ret (mkResult 0 0 0 1 None ["Aucune sauvegarde disponible."])
  | Some latest_backup =>
      manifest <- _read_manifest latest_backup ;;
      if negb (truthy manifest) then
        ret (mkResult 0 0 0 1 None ["Manifest de sauvegarde introuvable."])
      else
        match manifest with
        | VDict items =>
            st <- restore_entries latest_backup items tally0 ;;
            ret (mkResult (t_scanned st) (t_moved st) (t_failed st)
                          (t_skipped st) (Some latest_backup) (t_errors st))
        | _ => raise (OtherError "AttributeError")
        end
  end.

End Engine.
End Cleanup.

(* ===================================================================== *)
(** * performance.py *)
(* ===================================================================== *)

Module Performance.
Import Py Pathlib Sys.

Record PerformanceResult := mkResult {
  onedrive_disabled : bool;
  background_apps_disabled : bool;
  onedrive_process_stopped : bool;
  backup_dir : option Path;
  errors : list string;
}.

Definition RUN_KEY : string :=
  "Software\Microsoft\Windows\CurrentVersion\Run".
Definition BACKGROUND_KEY : string :=
  "Software\Microsoft\Windows\CurrentVersion\BackgroundAccessApplications".

Section Engine.
Context {W : Type} (api : os_api W) (cfg : config).

Definition _ensure_windows : bool * list string :=
  if win32 cfg then (true, [])
  else (false, ["Profil Performance disponible uniquement sur Windows."]).

Definition backups_root : Path :=
  child (child (home cfg) ".opti2025") "performance_backups".

Definition _backup_root : Path := child backups_root (now cfg).

Definition _manifest_path (backup_root : Path) : Path :=
  child backup_root "manifest.json".

Definition _write_manifest (backup_root : Path) (data : value) : M W unit :=
  write_json (_manifest_path backup_root) data.

Definition _read_manifest (backup_root : Path) : M W value :=
  e <- exists_ (_manifest_path backup_root) ;;
  if e then read_json (_manifest_path backup_root) else ret (VDict []).

(** The two nested [try] blocks, case by case on what each winreg call
    answers; a local assigned before a raise keeps its value. *)
Definition _disable_onedrive_run : M W (bool * value * list string) :=
  let failure (onedrive_value : value) (exc : exn) :=
    if is_OSError exc then
      ret (false, onedrive_value,
           ["Impossible de modifier l'entrée OneDrive: " +:+ exn_str exc])
    else raise exc in
  k <- attempt (OpenKey api RUN_KEY KEY_READ_WRITE) ;;
  match k with
  | Raise exc => failure VNone exc
  | Ok _ =>
      q <- attempt (QueryValueEx api RUN_KEY "OneDrive") ;;
      match q with
      | Raise exc =>
          if is_FileNotFoundError exc then ret (false, VNone, [])
          else failure VNone exc
      | Ok onedrive_value =>
          d <- attempt (DeleteValue api RUN_KEY "OneDrive") ;;
          match d with
          | Raise exc =>
              if is_FileNotFoundError exc then ret (false, VNone, [])
              else failure onedrive_value exc
          | Ok _ => ret (true, onedrive_value, [])
          end
      end
  end.

Definition _restore_onedrive_run (previous_value : value)
  : M W (list string) :=
  let failure (exc : exn) :=
    if is_OSError exc then
      ret ["Impossible de restaurer OneDrive: " +:+ exn_str exc]
    else raise exc in
  k <- attempt (OpenKey api RUN_KEY KEY_SET_VALUE) ;;
  match k with
  | Raise exc => failure exc
  | Ok _ =>
      if is_none previous_value then
        d <- attempt (DeleteValue api RUN_KEY "OneDrive") ;;
        match d with
        | Raise exc =>
            if is_FileNotFoundError exc then ret [] else failure exc
        | Ok _ => ret []
        end
      else
        s <- attempt (SetValueEx api RUN_KEY "OneDrive" REG_SZ
                                 previous_value) ;;
        match s with
        | Raise exc => failure exc
        | Ok _ => ret []
        end
  end.

Definition _disable_background_apps : M W (bool * value * list string) :=
  let failure (previous_value : value) (exc : exn) :=
    if is_OSError exc then
      ret (false, previous_value,
           ["Impossible de réduire les apps en arrière-plan: "
            +:+ exn_str exc])
    else raise exc in
  let set (previous_value : value) :=
    s <- attempt (SetValueEx api BACKGROUND_KEY "GlobalUserDisabled"
                             REG_DWORD (VInt 1)) ;;
    match s with
    | Raise exc => failure previous_value exc
    | Ok _ => ret (true, previous_value, [])
    end in
  k <- attempt (CreateKey api BACKGROUND_KEY) ;;
  match k with
  | Raise exc => failure VNone exc
  | Ok _ =>
      q <- attempt (QueryValueEx api BACKGROUND_KEY "GlobalUserDisabled") ;;
      match q with
      | Raise exc =>
          if is_FileNotFoundError exc then set VNone
          else failure VNone exc
      | Ok previous_value => set previous_value
      end
  end.

Definition _restore_background_apps (previous_value : value)
  : M W (list string) :=
  let failure (exc : exn) :=
    if is_OSError exc then
      ret ["Impossible de restaurer les apps en arrière-plan: "
           +:+ exn_str exc]
    else raise exc in
  k <- attempt (CreateKey api BACKGROUND_KEY) ;;
  match k with
  | Raise exc => failure exc
  | Ok _ =>
      if is_none previous_value then
        d <- attempt (DeleteValue api BACKGROUND_KEY "GlobalUserDisabled") ;;
        match d with
        | Raise exc =>
            if is_FileNotFoundError exc then ret [] else failure exc
        | Ok _ => ret []
        end
      else
        s <- attempt (SetValueEx api BACKGROUND_KEY "GlobalUserDisabled"
                                 REG_DWORD previous_value) ;;
        match s with
        | Raise exc => failure exc
        | Ok _ => ret []
        end
  end.

Definition TASKKILL : list string :=
  ["taskkill"; "/IM"; "OneDrive.exe"; "/F"].

Definition _stop_onedrive_process : M W (bool * list string) :=
  c <- attempt (run api TASKKILL) ;;
  match c with
  | Ok completed =>
      let stopped := (returncode completed =? 0)%Z in
      if negb stopped && PyStr.truthy (stderr completed)
      then ret (stopped, [PyStr.strip (stderr completed)])
      else ret (stopped, [])
  | Raise exc =>
      if is_OSError exc then
        ret (false, ["Impossible d'arrêter OneDrive: " +:+ exn_str exc])
      else raise exc
  end.

Definition apply_performance_profile : M W PerformanceResult :=
  let '(is_windows, errors) := _ensure_windows in
  if negb is_windows then ret (mkResult false false false None errors)
  else
    let backup_root := _backup_root in
    _ <- mkdir api backup_root ;;
    od <- _disable_onedrive_run ;;
    let '(onedrive_disabled, onedrive_value, onedrive_errors) := od in
    let errors := errors ++ onedrive_errors in
    bg <- _disable_background_apps ;;
    let '(background_disabled, background_previous, background_errors) :=
      bg in
    let errors := errors ++ background_errors in
    st <- _stop_onedrive_process ;;
    let '(onedrive_stopped, stop_errors) := st in
    let errors := errors ++ stop_errors in
    let manifest :=
      VDict [("onedrive_run_value", onedrive_value);
             ("background_previous", background_previous)] in
    _ <- _write_manifest backup_root manifest ;;
    ret (mkResult onedrive_disabled background_disabled onedrive_stopped
                  (Some backup_root) errors).

Definition restore_latest_performance : M W PerformanceResult :=
  let '(is_windows, errors) := _ensure_windows in
  if negb is_windows then ret (mkResult false false false None errors)
  else
    latest <- latest_session backups_root ;;
    match latest with
    | None =>
        ret (mkResult false false false None
                      ["Aucune sauvegarde disponible."])
    | Some latest_backup =>
        manifest <- _read_manifest latest_backup ;;
        if negb (truthy manifest) then
          ret (mkResult false false false (Some latest_backup)
                        ["Manifest introuvable."])
        else
          onedrive_value <- manifest_get manifest "onedrive_run_value" ;;
          let onedrive_value :=
            if negb (is_str onedrive_value) then VNone
            else onedrive_value in
          background_value <- manifest_get manifest "background_previous" ;;
          let background_value :=
            if negb (is_int background_value) then VNone
            else background_value in
          e1 <- _restore_onedrive_run onedrive_value ;;
          e2 <- _restore_background_apps background_value ;;
          ret (mkResult false false false (Some latest_backup) (e1 ++ e2))
    end.

End Engine.
End Performance.

(* ===================================================================== *)
(** * max_performance.py *)
(* ===================================================================== *)

Module MaxPerformance.
Import Py Pathlib Sys.

Record MaxPerformanceResult := mkResult {
  services_disabled : list string;
  indexing_disabled : bool;
  power_scheme_set : bool;
  onedrive_disabled : bool;
  onedrive_process_stopped : bool;
  backup_dir : option Path;
  errors : list string;
}.

Definition SERVICE_TARGETS : list (string * string) :=
  [("WSearch", "Indexation Windows (Search)");
   ("SysMain", "Optimisation de préchargement (SysMain)");
   ("DiagTrack", "Diagnostics et télémétrie (DiagTrack)")].

(** The patterns handed to [re.search], character for character as the
    raw string literals of the source hold them. *)
Definition START_TYPE_PATTERN : string :=
  "START_TYPE\\s*:\\s*\\d+\\s+(\\w+)".
Definition GUID_PATTERN : string := "GUID:\\s*([0-9a-fA-F-]+)".
Definition SCHEME_PATTERN : string := "([0-9a-fA-F-]{36})".

Definition _normalize_start_type (start_type : string) : string :=
  let mapping :=
    [("AUTO_START", "auto"); ("DEMAND_START", "demand");
     ("DISABLED", "disabled"); ("AUTO", "auto"); ("DEMAND", "demand")] in
  match List.find (λ kv, String.eqb kv.1 (PyStr.upper start_type)) mapping with
  | Some kv => kv.2
  | None => PyStr.lower start_type
  end.

(** The accumulators of the service loop of the apply. *)
Record svc_acc := mkAcc {
  service_states : list (string * value);
  acc_disabled : list string;
  acc_indexing : bool;
  acc_errors : list string;
}.

Section Engine.
Context {W : Type} (api : os_api W) (cfg : config).

Definition _ensure_windows : bool * list string :=
  if win32 cfg then (true, [])
  else (false,
        ["Profil Max Performance disponible uniquement sur Windows."]).

Definition backups_root : Path :=
  child (child (home cfg) ".opti2025") "max_backups".

Definition _backup_root : Path := child backups_root (now cfg).

Definition _manifest_path (backup_root : Path) : Path :=
  child backup_root "manifest.json".

Definition _write_manifest (backup_root : Path) (data : value) : M W unit :=
  write_json (_manifest_path backup_root) data.

Definition _read_manifest (backup_root : Path) : M W value :=
  e <- exists_ (_manifest_path backup_root) ;;
  if e then read_json (_manifest_path backup_root) else ret (VDict []).

Definition _run_command (command : list string) : M W completed :=
  run api command.

(** [for line in ...: if "START_TYPE" in line: match = re.search(...);
    if match: return match.group(1)]. *)
Fixpoint scan_start_type (lines : list string) : option string :=
  match lines with
  | [] => None
  | line :: rest =>
      if PyStr.contains "START_TYPE" line then
        match re_search api START_TYPE_PATTERN line with
        | Some g => Some g
        | None => scan_start_type rest
        end
      else scan_start_type rest
  end.

(** What [_query_service_start_type] returns for the answer [result]
    of the command. *)
Definition start_type_of (result : completed) : option string :=
  if negb (returncode result =? 0)%Z then None
  else scan_start_type (PyStr.splitlines (stdout result)).

Definition _query_service_start_type (service_name : string)
  : M W (option string) :=
  result <- _run_command ["sc.exe"; "qc"; service_name] ;;
  ret (start_type_of result).

Fixpoint scan_running (lines : list string) : option bool :=
  match lines with
  | [] => None
  | line :: rest =>
      if PyStr.contains "STATE" line
      then Some (PyStr.contains "RUNNING" line)
      else scan_running rest
  end.

Definition running_of (result : completed) : option bool :=
  if negb (returncode result =? 0)%Z then None
  else scan_running (PyStr.splitlines (stdout result)).

Definition _query_service_running (service_name : string)
  : M W (option bool) :=
  result <- _run_command ["sc.exe"; "query"; service_name] ;;
  ret (running_of result).

Definition _set_service_start_type (service_name start_type : string)
  : M W bool :=
  result <- _run_command
              ["sc.exe"; "config"; service_name; "start=" +:+ start_type] ;;
  ret (returncode result =? 0)%Z.

Definition _stop_service (service_name : string) : M W bool :=
  result <- _run_command ["sc.exe"; "stop"; service_name] ;;
  ret (returncode result =? 0)%Z.

Definition _start_service (service_name : string) : M W bool :=
  result <- _run_command ["sc.exe"; "start"; service_name] ;;
  ret (returncode result =? 0)%Z.

(** Both functions are the ones of performance.py, line for line. *)
Definition _disable_onedrive_run : M W (bool * value * list string) :=
  Performance._disable_onedrive_run api.
Definition _restore_onedrive_run (previous_value : value)
  : M W (list string) :=
  Performance._restore_onedrive_run api previous_value.

Definition _stop_onedrive_process : M W (bool * list string) :=
  result <- _run_command ["taskkill"; "/IM"; "OneDrive.exe"; "/F"] ;;
  if (returncode result =? 0)%Z then ret (true, [])
  else if PyStr.truthy (stderr result)
       then ret (false, [PyStr.strip (stderr result)])
       else ret (false, []).

Definition active_scheme_of (result : completed) : option string :=
  if negb (returncode result =? 0)%Z then None
  else re_search api GUID_PATTERN (stdout result).

Definition _get_active_power_scheme : M W (option string) :=
  result <- _run_command ["powercfg"; "/getactivescheme"] ;;
  ret (active_scheme_of result).

Fixpoint scan_high_performance (lines : list string) : option string :=
  match lines with
  | [] => None
  | line :: rest =>
      if PyStr.contains "High performance" line
         || PyStr.contains "Performances élevées" line
      then
        match re_search api SCHEME_PATTERN line with
        | Some g => Some g
        | None => scan_high_performance rest
        end
      else scan_high_performance rest
  end.

Definition high_performance_of (result : completed) : option string :=
  if negb (returncode result =? 0)%Z then None
  else scan_high_performance (PyStr.splitlines (stdout result)).

Definition _find_high_performance_scheme : M W (option string) :=
  result <- _run_command ["powercfg"; "/list"] ;;
  ret (high_performance_of result).

Definition _set_power_scheme (scheme_guid : string) : M W bool :=
  result <- _run_command ["powercfg"; "/setactive"; scheme_guid] ;;
  ret (returncode result =? 0)%Z.

Definition read_error (service_name : string) : string :=
  "Impossible de lire l'état du service " +:+ service_name +:+ ".".
Definition disable_error (service_name : string) : string :=
  "Impossible de désactiver le service " +:+ service_name +:+ ".".

(** The loop [for service_name in SERVICE_TARGETS] of the apply. *)
Fixpoint disable_services (names : list string) (acc : svc_acc)
  : M W svc_acc :=
  match names with
  | [] => ret acc
  | service_name :: rest =>
      start_type <- _query_service_start_type service_name ;;
      running <- _query_service_running service_name ;;
      match start_type, running with
      | Some st, Some rn =>
          let states :=
            dict_set service_name
              (VDict [("start_type", VStr st); ("was_running", VBool rn)])
              (service_states acc) in
          _ <- (if rn then _stop_service service_name else ret true) ;;
          ok <- _set_service_start_type service_name "disabled" ;;
          if ok then
            disable_services rest
              (mkAcc states (acc_disabled acc ++ [service_name])
                     (if String.eqb service_name "WSearch" then true
                      else acc_indexing acc)
                     (acc_errors acc))
          else
            disable_services rest
              (mkAcc states (acc_disabled acc) (acc_indexing acc)
                     (acc_errors acc ++ [disable_error service_name]))
      | _, _ =>
          disable_services rest
            (mkAcc (service_states acc) (acc_disabled acc)
                   (acc_indexing acc)
                   (acc_errors acc ++ [read_error service_name]))
      end
  end.

(** [if high_perf_scheme: ... else: ...]; an empty string is falsy. *)
Definition activate_high_performance (high_perf_scheme : option string)
    (errors : list string) : M W (bool * list string) :=
  let unavailable :=
    ret (false,
         errors
         ++ ["Mode Performances élevées indisponible sur ce système."]) in
  match high_perf_scheme with
  | Some guid =>
      if PyStr.truthy guid then
        power_scheme_set <- _set_power_scheme guid ;;
        if negb power_scheme_set then
          ret (power_scheme_set,
               errors
               ++ ["Impossible d'activer le mode Performances élevées."])
        else ret (power_scheme_set, errors)
      else unavailable
  | None => unavailable
  end.

Definition apply_max_performance_profile : M W MaxPerformanceResult :=
  let '(is_windows, errors) := _ensure_windows in
  if negb is_windows then
    ret (mkResult [] false false false false None errors)
  else
    let backup_root := _backup_root in
    _ <- mkdir api backup_root ;;
    acc <- disable_services (SERVICE_TARGETS.*1) (mkAcc [] [] false errors) ;;
    let errors := acc_errors acc in
    previous_scheme <- _get_active_power_scheme ;;
    high_perf_scheme <- _find_high_performance_scheme ;;
    ps <- activate_high_performance high_perf_scheme errors ;;
    let '(power_scheme_set, errors) := ps in
    od <- _disable_onedrive_run ;;
    let '(onedrive_disabled, onedrive_value, onedrive_errors) := od in
    let errors := errors ++ onedrive_errors in
    st <- _stop_onedrive_process ;;
    let '(onedrive_stopped, stop_errors) := st in
    let errors := errors ++ stop_errors in
    let manifest :=
      VDict [("services", VDict (service_states acc));
             ("power_scheme", of_option_str previous_scheme);
             ("onedrive_run_value", onedrive_value)] in
    _ <- _write_manifest backup_root manifest ;;
    ret (mkResult (acc_disabled acc) (acc_indexing acc) power_scheme_set
                  onedrive_disabled onedrive_stopped (Some backup_root)
                  errors).

Definition restore_error (service_name : string) : string :=
  "Impossible de restaurer le service " +:+ service_name +:+ ".".

(** The loop [for service_name, state in services_state.items()] of
    the restore. *)
Fixpoint restore_services (items : list (string * value))
    (restore_errors : list string) : M W (list string) :=
  match items with
  | [] => ret restore_errors
  | (service_name, state) :: rest =>
      match state with
      | VDict fields =>
          let start_type := dict_get "start_type" fields in
          let was_running := dict_get "was_running" fields in
          restore_errors <-
            match start_type with
            | VStr s =>
                ok <- _set_service_start_type service_name
                        (_normalize_start_type s) ;;
                if negb ok
                then ret (restore_errors ++ [restore_error service_name])
                else ret restore_errors
            | _ => ret restore_errors
            end ;;
          _ <- (if is_true was_running then _start_service service_name
                else ret true) ;;
          restore_services rest restore_errors
      | _ => restore_services rest restore_errors
      end
  end.

Definition restore_latest_max_performance : M W MaxPerformanceResult :=
  let '(is_windows, errors) := _ensure_windows in
  if negb is_windows then
    ret (mkResult [] false false false false None errors)
  else
    latest <- latest_session backups_root ;;
    match latest with
    | None =>
        ret (mkResult [] false false false false None
                      ["Aucune sauvegarde disponible."])
    | Some latest_backup =>
        manifest <- _read_manifest latest_backup ;;
        if negb (truthy manifest) then
          ret (mkResult [] false false false false (Some latest_backup)
                        ["Manifest introuvable."])
        else
          services_state <- manifest_get manifest "services" ;;
          restore_errors <-
            match services_state with
            | VDict items => restore_services items []
            | _ => ret []
            end ;;
          power_scheme <- manifest_get manifest "power_scheme" ;;
          restore_errors <-
            match power_scheme with
            | VStr g =>
                ok <- _set_power_scheme g ;;
                if negb ok then
                  ret (restore_errors
                       ++ ["Impossible de restaurer le plan d'alimentation."])
                else ret restore_errors
            | _ => ret restore_errors
            end ;;
          onedrive_value <-
            manifest_get manifest "onedrive_run_value" ;;
          let onedrive_value :=
            if negb (is_str onedrive_value) then VNone
            else onedrive_value in
          e <- _restore_onedrive_run onedrive_value ;;
          ret (mkResult [] false false false false (Some latest_backup)
                        (restore_errors ++ e))
    end.

End Engine.
End MaxPerformance.

(* ===================================================================== *)
(** * A concrete operating system *)
(* ===================================================================== *)

(** A small simulated machine behind the adapters: a registry, services, power
    schemes, one OneDrive process, and lists of what it refuses.  It is
    used to run the engines on explicit inputs. *)
Module Sim.
Import Py Pathlib Sys.

Record os := mkOs {
  registry : list (string * string * value);
  sealed_keys : list string;
  services : list (string * (string * bool));
  frozen_services : list string;
  power_active : string;
  power_schemes : list (string * string);
  onedrive_running : bool;
  no_access : list (list string);
  stuck : list (list string);
}.

Definition reg_get (key name : string) (o : os) : option value :=
  (λ e, e.2) <$>
    List.find (λ e, String.eqb e.1.1 key && String.eqb e.1.2 name)
              (registry o).

Definition reg_del (key name : string) (o : os) : os :=
  mkOs (List.filter
          (λ e, negb (String.eqb e.1.1 key && String.eqb e.1.2 name))
          (registry o))
       (sealed_keys o) (services o) (frozen_services o) (power_active o)
       (power_schemes o) (onedrive_running o) (no_access o) (stuck o).

Definition reg_put (key name : string) (v : value) (o : os) : os :=
  let o' := reg_del key name o in
  mkOs ((key, name, v) :: registry o')
       (sealed_keys o) (services o) (frozen_services o) (power_active o)
       (power_schemes o) (onedrive_running o) (no_access o) (stuck o).

Definition with_services (s : list (string * (string * bool))) (o : os)
  : os :=
  mkOs (registry o) (sealed_keys o) s (frozen_services o) (power_active o)
       (power_schemes o) (onedrive_running o) (no_access o) (stuck o).

Definition with_power (g : string) (o : os) : os :=
  mkOs (registry o) (sealed_keys o) (services o) (frozen_services o) g
       (power_schemes o) (onedrive_running o) (no_access o) (stuck o).

Definition with_onedrive (b : bool) (o : os) : os :=
  mkOs (registry o) (sealed_keys o) (services o) (frozen_services o)
       (power_active o) (power_schemes o) b (no_access o) (stuck o).

Definition mem_str (x : string) (l : list string) : bool :=
  List.existsb (String.eqb x) l.

Definition mem_path (p : list string) (l : list (list string)) : bool :=
  List.existsb (λ q, bool_decide (p = q)) l.

Definition denied {A} : outcome A := Raise (OSError "Access is denied").

Definition open_key (key : string) (o : os) : outcome unit * os :=
  if mem_str key (sealed_keys o) then (denied, o) else (Ok tt, o).

Definition query_value (key name : string) (o : os) : outcome value * os :=
  match reg_get key name o with
  | Some v => (Ok v, o)
  | None => (Raise (FileNotFoundError "The system cannot find the file"), o)
  end.

Definition delete_value (key name : string) (o : os) : outcome unit * os :=
  match reg_get key name o with
  | Some _ => (Ok tt, reg_del key name o)
  | None => (Raise (FileNotFoundError "The system cannot find the file"), o)
  end.

Definition set_value (key name : string) (ty : regtype) (v : value) (o : os)
  : outcome unit * os :=
  (Ok tt, reg_put key name v o).

Definition done (code : Z) (out err : string) : outcome completed :=
  Ok (mkCompleted code out err).

Definition svc_get (name : string) (o : os) : option (string * bool) :=
  (λ e, e.2) <$> List.find (λ e, String.eqb e.1 name) (services o).

Definition svc_set (name : string) (s : string * bool) (o : os) : os :=
  with_services (dict_set name s (services o)) o.

Definition scheme_line (e : string * string) : string :=
  "Power Scheme GUID: " +:+ e.1 +:+ "  (" +:+ e.2 +:+ ")".

(** [sc.exe], [powercfg] and [taskkill], as far as the engines call
    them. *)
Definition run_command (cmd : list string) (o : os)
  : outcome completed * os :=
  match cmd with
  | ["sc.exe"; "qc"; name] =>
      match svc_get name o with
      | Some (ty, _) => (done 0 ("START_TYPE : " +:+ ty) "", o)
      | None => (done 1060 "" "The specified service does not exist", o)
      end
  | ["sc.exe"; "query"; name] =>
      match svc_get name o with
      | Some (_, true) => (done 0 "STATE : 4 RUNNING" "", o)
      | Some (_, false) => (done 0 "STATE : 1 STOPPED" "", o)
      | None => (done 1060 "" "The specified service does not exist", o)
      end
  | ["sc.exe"; "stop"; name] =>
      match svc_get name o with
      | Some (ty, true) => (done 0 "" "", svc_set name (ty, false) o)
      | _ => (done 1062 "" "The service has not been started", o)
      end
  | ["sc.exe"; "start"; name] =>
      match svc_get name o with
      | Some (ty, false) => (done 0 "" "", svc_set name (ty, true) o)
      | _ => (done 1056 "" "An instance of the service is running", o)
      end
  | ["sc.exe"; "config"; name; arg] =>
      match svc_get name o with
      | Some (_, rn) =>
          if mem_str name (frozen_services o) then
            (done 5 "" "Access is denied", o)
          else
            (done 0 "" "",
             svc_set name
               (String.substring 6 (String.length arg) arg, rn) o)
      | None => (done 1060 "" "The specified service does not exist", o)
      end
  | ["powercfg"; "/getactivescheme"] =>
      (done 0 ("Power Scheme GUID: " +:+ power_active o) "", o)
  | ["powercfg"; "/list"] =>
      (done 0 (String.concat (String "010"%char EmptyString)
                             (scheme_line <$> power_schemes o)) "", o)
  | ["powercfg"; "/setactive"; guid] =>
      if List.existsb (λ e, String.eqb e.1 guid) (power_schemes o)
      then (done 0 "" "", with_power guid o)
      else (done 1 "" "Invalid parameters", o)
  | ["taskkill"; "/IM"; "OneDrive.exe"; "/F"] =>
      if onedrive_running o then (done 0 "" "", with_onedrive false o)
      else (done 128 "" "The process was not found", o)
  | _ => (Raise (FileNotFoundError "The system cannot find the file"), o)
  end.

(** What follows the first occurrence of [marker] in [s], up to the next
    space. *)
Fixpoint until_space (s : string) : string :=
  match s with
  | EmptyString => EmptyString
  | String a s' =>
      if Ascii.eqb a " "%char then EmptyString else String a (until_space s')
  end.

Definition after (marker s : string) : option string :=
  match String.index 0 marker s with
  | Some i =>
      Some (until_space
              (String.substring (i + String.length marker)
                                (String.length s) s))
  | None => None
  end.

(** A stand-in for [re.search] on the output this machine prints. *)
Definition search (pattern s : string) : option string :=
  if String.eqb pattern MaxPerformance.START_TYPE_PATTERN then
    after "START_TYPE : " s
  else after "GUID: " s.

Definition api : os_api os :=
  mkApi os
    (λ p o, negb (mem_path p (no_access o)))
    (λ op o,
       match op with
       | OpMove src _ =>
           if mem_path src (stuck o)
           then Some (OSError "Permission denied") else None
       | OpMkdir _ => None
       end)
    (λ key _, open_key key)
    open_key
    query_value
    delete_value
    set_value
    run_command
    search.

(** Building file systems. *)
Definition dir (ents : list (string * FS.node)) : FS.node :=
  FS.Dir (list_to_map ents).
Definition file (s : string) : FS.node := FS.File (FS.Text s).

Definition boot (t : FS.node) (o : os) : world os := mkWorld t o [].

Definition plain_os : os :=
  mkOs [] [] [] [] "" [] false [] [].

(** Sample machines. *)
Definition stamp : string := "20240101_000000".

Definition posix_home : Path := mkPath "" "/" ["home"; "u"].
Definition posix_cfg (env : list (string * string)) : config :=
  mkConfig false (list_to_map env) posix_home stamp.
Definition posix_fs (ents : list (string * FS.node)) : FS.node :=
  dir [("/", dir (("home", dir [("u", dir [])]) :: ents))].

Definition win_home : Path := mkPath "C:" "\" ["Users"; "u"].
Definition win_cfg : config := mkConfig true ∅ win_home stamp.
Definition win_fs : FS.node :=
  dir [("C:\", dir [("Users", dir [("u", dir [])])])].

(** OneDrive starts with the session and runs; the search indexer and
    SysMain run, DiagTrack is not installed; the balanced power scheme
    is active. *)
Definition win_os : os :=
  mkOs [(Performance.RUN_KEY, "OneDrive", VStr "OneDrive.exe /background")]
       []
       [("WSearch", ("AUTO_START", true)); ("SysMain", ("DEMAND_START", false))]
       []
       "381b4222-f694-41f0-9685-ff5bb260df2e"
       [("381b4222-f694-41f0-9685-ff5bb260df2e", "Balanced");
        ("8c5e7fda-e8bf-4a96-9a85-a6e23a8c635c", "High performance")]
       true [] [].

(** The same machine with the registry sealed, the services frozen and
    no OneDrive process: nothing on it can be changed. *)
Definition sealed_os : os :=
  mkOs (registry win_os)
       [Performance.RUN_KEY; Performance.BACKGROUND_KEY]
       (services win_os) ["WSearch"; "SysMain"]
       (power_active win_os) [] false [] [].

End Sim.

(* ===================================================================== *)
(** * The vocabulary of the properties *)
(* ===================================================================== *)

Import Py Pathlib Sys.

(** The part of the log a call appends. *)
Definition appended {W} (w w' : world W) (l : list event) : Prop :=
  w_log w' = w_log w ++ l.

Definition count (f : event → bool) (l : list event) : nat :=
  length (List.filter f l).

Section CleanupCountsSpec.
Import Cleanup.

(** What the counters of a tally say about a piece of log. *)
Definition counts (st st' : tally) (l : list event) : Prop :=
  t_scanned st' = t_scanned st + count is_move l
  ∧ t_moved st' = t_moved st + count is_move_ok l
  ∧ t_failed st' = t_failed st + count is_move_refused l.

End CleanupCountsSpec.

Section ServiceLoopSpec.
Context {W : Type} (api : os_api W) (cfg : config).
Import MaxPerformance.

Definition ev_qc (X : string) (c : completed) : event :=
  EvRun ["sc.exe"; "qc"; X] (Ok c).
Definition ev_query (X : string) (c : completed) : event :=
  EvRun ["sc.exe"; "query"; X] (Ok c).
Definition ev_stop (X : string) (c : completed) : event :=
  EvRun ["sc.exe"; "stop"; X] (Ok c).
Definition ev_config (X : string) (c : completed) : event :=
  EvRun ["sc.exe"; "config"; X; "start=disabled"] (Ok c).

Definition state_record (st : string) (rn : bool) : value :=
  VDict [("start_type", VStr st); ("was_running", VBool rn)].

(** One turn of the loop, for service [X]: what is logged and how the
    accumulators move. *)
Inductive svc_turn (X : string) (acc : svc_acc)
  : list event → svc_acc → Prop :=
| turn_unreadable c1 c2 :
    start_type_of api c1 = None ∨ running_of c2 = None →
    svc_turn X acc [ev_qc X c1; ev_query X c2]
      (mkAcc (service_states acc) (acc_disabled acc) (acc_indexing acc)
             (acc_errors acc ++ [read_error X]))
| turn_disabled c1 c2 st rn stops c4 :
    start_type_of api c1 = Some st →
    running_of c2 = Some rn →
    (rn = false ∧ stops = [] ∨ ∃ c3, rn = true ∧ stops = [ev_stop X c3]) →
    returncode c4 = 0%Z →
    svc_turn X acc ([ev_qc X c1; ev_query X c2] ++ stops ++ [ev_config X c4])
      (mkAcc (dict_set X (state_record st rn) (service_states acc))
             (acc_disabled acc ++ [X])
             (if String.eqb X "WSearch" then true else acc_indexing acc)
             (acc_errors acc))
| turn_refused c1 c2 st rn stops c4 :
    start_type_of api c1 = Some st →
    running_of c2 = Some rn →
    (rn = false ∧ stops = [] ∨ ∃ c3, rn = true ∧ stops = [ev_stop X c3]) →
    returncode c4 ≠ 0%Z →
    svc_turn X acc ([ev_qc X c1; ev_query X c2] ++ stops ++ [ev_config X c4])
      (mkAcc (dict_set X (state_record st rn) (service_states acc))
             (acc_disabled acc) (acc_indexing acc)
             (acc_errors acc ++ [disable_error X])).

Inductive svc_loop : list string → svc_acc → list event → svc_acc → Prop :=
| loop_nil acc : svc_loop [] acc [] acc
| loop_cons X names acc l1 acc1 l2 acc2 :
    svc_turn X acc l1 acc1 →
    svc_loop names acc1 l2 acc2 →
    svc_loop (X :: names) acc (l1 ++ l2) acc2.

End ServiceLoopSpec.

(** A winreg call on the key [key]. *)
Definition on_key (key : string) (e : event) : bool :=
  match e with
  | EvOpenKey k _ | EvCreateKey k _ | EvQueryValue k _ _
  | EvDeleteValue k _ _ | EvSetValue k _ _ _ => String.eqb k key
  | _ => false
  end.

Definition is_run (e : event) : bool :=
  match e with EvRun _ _ => true | _ => false end.

(** Value [v] was captured before the registry value [key]/[name] was
    written: it is the answer of a query that no write to that value
    precedes in the log [l] (or nothing was captured: [VNone]). *)
Definition captured_value (key name : string) (v : value) (l : list event)
  : Prop :=
  v = VNone
  ∨ ∃ l1 l2, l = l1 ++ EvQueryValue key name (Ok v) :: l2
             ∧ Forall (λ e, writes_value key name e = false) l1.

Section ServiceLoopFactsSpec.
Context {W : Type} (api : os_api W).
Import MaxPerformance.



End ServiceLoopFactsSpec.

Section PerformanceApplySpec.
Import Performance.

(** The manifest of a Performance session. *)
Definition performance_manifest (v1 v2 : value) : value :=
  VDict [("onedrive_run_value", v1); ("background_previous", v2)].

End PerformanceApplySpec.

Section MaxPerformanceApplySpec.
Context {W : Type} (api : os_api W) (cfg : config).
Import MaxPerformance.

Definition GETACTIVE : list string := ["powercfg"; "/getactivescheme"].

(** The power scheme in the manifest was read before any activation. *)
Definition captured_power (v : value) (l : list event) : Prop :=
  v = VNone
  ∨ ∃ g l1 c l2,
      v = VStr g ∧ l = l1 ++ EvRun GETACTIVE (Ok c) :: l2
      ∧ active_scheme_of api c = Some g
      ∧ Forall (λ e, changes_power e = false) l1.

Definition max_manifest (states : list (string * value)) (pv v : value)
  : value :=
  VDict [("services", VDict states); ("power_scheme", pv);
         ("onedrive_run_value", v)].

Definition acc0 : svc_acc := mkAcc [] [] false [].

End MaxPerformanceApplySpec.




(** [m] neither reads nor changes the file system: from two worlds with
    the same operating system it gives the same outcome, the same new
    operating system and the same new log entries. *)
Definition fs_blind {W A} (m : M W A) : Prop :=
  ∀ w1 w2, w_os w1 = w_os w2 →
    ∃ r o l,
      m w1 = (r, mkWorld (w_fs w1) o (w_log w1 ++ l))
      ∧ m w2 = (r, mkWorld (w_fs w2) o (w_log w2 ++ l)).

(** A field as the restore functions use it: of the expected type, or
    absent. *)
Definition as_str (v : value) : value := if is_str v then v else VNone.
Definition as_int (v : value) : value := if is_int v then v else VNone.


(** All that [restore_latest_performance] uses of a manifest. *)
Definition performance_view (kvs : list (string * value)) : value * value :=
  (as_str (dict_get "onedrive_run_value" kvs),
   as_int (dict_get "background_previous" kvs)).

(** All that [restore_latest_max_performance] uses of a service record,
    of the service map, of a manifest.  A record from which nothing is
    used does not count. *)
Definition record_view (state : value) : value * bool :=
  match state with
  | VDict fields =>
      (as_str (dict_get "start_type" fields),
       is_true (dict_get "was_running" fields))
  | _ => (VNone, false)
  end.

Definition record_used (rv : value * bool) : bool :=
  negb (is_none rv.1) || rv.2.

Definition services_view (services : value)
  : list (string * (value * bool)) :=
  match services with
  | VDict items =>
      List.filter (λ e, record_used e.2)
                  ((λ kv, (kv.1, record_view kv.2)) <$> items)
  | _ => []
  end.

Definition max_view (kvs : list (string * value))
  : list (string * (value * bool)) * value * value :=
  (services_view (dict_get "services" kvs),
   as_str (dict_get "power_scheme" kvs),
   as_str (dict_get "onedrive_run_value" kvs)).


Section RestoreViewsSpec.
Context {W : Type} (api : os_api W) (cfg : config).

(** [restore_latest_performance] after the manifest has been read. *)
Definition performance_restore_by_view (view : value * value)
    (latest_backup : Path) : M W Performance.PerformanceResult :=
  e1 <- Performance._restore_onedrive_run api view.1 ;;
  e2 <- Performance._restore_background_apps api view.2 ;;
  ret (Performance.mkResult false false false (Some latest_backup)
                            (e1 ++ e2)).

(** One service record, then the service map, from their views. *)
Definition restore_record (service_name : string) (rv : value * bool)
    (restore_errors : list string) : M W (list string) :=
  restore_errors <-
    match rv.1 with
    | VStr s =>
        ok <- MaxPerformance._set_service_start_type api service_name
                (MaxPerformance._normalize_start_type s) ;;
        if negb ok
        then ret (restore_errors
                  ++ [MaxPerformance.restore_error service_name])
        else ret restore_errors
    | _ => ret restore_errors
    end ;;
  _ <- (if rv.2 then MaxPerformance._start_service api service_name
        else ret true) ;;
  ret restore_errors.

Fixpoint restore_by_records (records : list (string * (value * bool)))
    (restore_errors : list string) : M W (list string) :=
  match records with
  | [] => ret restore_errors
  | (service_name, rv) :: rest =>
      restore_errors <- restore_record service_name rv restore_errors ;;
      restore_by_records rest restore_errors
  end.

(** [restore_latest_max_performance] after the manifest has been read. *)
Definition max_restore_by_view
    (view : list (string * (value * bool)) * value * value)
    (latest_backup : Path) : M W MaxPerformance.MaxPerformanceResult :=
  restore_errors <- restore_by_records view.1.1 [] ;;
  restore_errors <-
    match view.1.2 with
    | VStr g =>
        ok <- MaxPerformance._set_power_scheme api g ;;
        if negb ok then
          ret (restore_errors
               ++ ["Impossible de restaurer le plan d'alimentation."])
        else ret restore_errors
    | _ => ret restore_errors
    end ;;
  e <- MaxPerformance._restore_onedrive_run api view.2 ;;
  ret (MaxPerformance.mkResult [] false false false false
         (Some latest_backup) (restore_errors ++ e)).

End RestoreViewsSpec.











(** A temp directory with two files, on a machine that is not Windows. *)
Definition two_files_cfg : config := Sim.posix_cfg [("TEMP", "/tmp")].
Definition two_files : world Sim.os :=
  Sim.boot
    (Sim.posix_fs
       [("tmp", Sim.dir [("a.tmp", Sim.file "a"); ("b.tmp", Sim.file "b")])])
    Sim.plain_os.

(** What the guard returns. *)
Definition performance_unsupported : Performance.PerformanceResult :=
  Performance.mkResult false false false None
    ["Profil Performance disponible uniquement sur Windows."].

Definition max_unsupported : MaxPerformance.MaxPerformanceResult :=
  MaxPerformance.mkResult [] false false false false None
    ["Profil Max Performance disponible uniquement sur Windows."].

(** The result a guarded Cleanup entry point would return. *)
Definition cleanup_unsupported (r : Cleanup.CleanupResult) : Prop :=
  Cleanup.scanned r = 0 ∧ Cleanup.moved r = 0 ∧ Cleanup.failed r = 0
  ∧ Cleanup.skipped r = 0 ∧ Cleanup.backup_dir r = None
  ∧ length (Cleanup.errors r) = 1.

Definition cleanup_guarded {W} (run : M W Cleanup.CleanupResult)
    (w : world W) : Prop :=
  ∃ r, run w = (Ok r, w) ∧ cleanup_unsupported r.

(** [m] leaves the file system as it is, whatever its outcome. *)
Definition fs_keep {W A} (m : M W A) : Prop :=
  ∀ w r w', m w = (r, w') → w_fs w' = w_fs w.

Section SessionDirectoriesSpec.
Context {W : Type} (api : os_api W) (cfg : config).

(** The target [t] exists and can be read and written in [w]. *)
Definition usable (t : Path) (w : world W) : bool :=
  FS.exists_ (parts t) (w_fs w) && os_access api (parts t) (w_os w).

Definition session_subdir (t : Path) : Path :=
  joinpath (win32 cfg) (Cleanup._build_backup_root cfg)
           (Cleanup._backup_subdir_name t).

(** A Cleanup restore makes no directory but a destination of the
    manifest, and writes no manifest. *)
Definition restores_into (items : list (string * value)) (e : event)
  : Prop :=
  is_manifest_write e = false
  ∧ ∀ p ok, e = EvMkdir p ok →
      ∃ name s, (name, VStr s) ∈ items ∧ p = parts (parse (win32 cfg) s).

End SessionDirectoriesSpec.

(** The rule of C4 for the Performance apply: a session directory that
    the call created is there because a mutation happened. *)
Definition session_needs_mutation {W} (api : os_api W) (cfg : config)
    (w : world W) : Prop :=
  ∀ r w',
    Performance.apply_performance_profile api cfg w = (Ok r, w') →
    FS.exists_ (parts (Performance._backup_root cfg)) (w_fs w) = false →
    FS.is_dir (parts (Performance._backup_root cfg)) (w_fs w') = true →
    Performance.onedrive_disabled r || Performance.background_apps_disabled r
    || Performance.onedrive_process_stopped r = true.

(** The session directory is made first and is there at the end. *)
Definition session_made_first {W} (w w' : world W) (session : Path) : Prop :=
  (∃ l, appended w w' (EvMkdir (parts session) true :: l))
  ∧ FS.is_dir (parts session) (w_fs w') = true.

Definition sealed_machine : world Sim.os := Sim.boot Sim.win_fs Sim.sealed_os.

Definition windows_machine : world Sim.os := Sim.boot Sim.win_fs Sim.win_os.

(** A machine on which the latest Performance session holds [manifest]. *)
Definition performance_session (manifest : value) : world Sim.os :=
  Sim.boot
    (Sim.dir
       [("C:\", Sim.dir
          [("Users", Sim.dir
             [("u", Sim.dir
                [(".opti2025", Sim.dir
                   [("performance_backups", Sim.dir
                      [(Sim.stamp, Sim.dir
                         [("manifest.json",
                           FS.File (FS.JsonDoc manifest))])])])])])])])
    Sim.win_os.

Definition odd_manifest : list (string * value) :=
  [("onedrive_run_value", VStr "OneDrive.exe /background");
   ("background_previous", VStr "one")].

(** TEMP is /srv/x_Temp and WINDIR is /srv/x, so that the two targets are
    /srv/x_Temp and /srv/x/Temp; each holds one file. *)
Definition collision_cfg : config :=
  Sim.posix_cfg [("TEMP", "/srv/x_Temp"); ("WINDIR", "/srv/x")].

Definition collision_machine : world Sim.os :=
  Sim.boot
    (Sim.posix_fs
       [("srv",
         Sim.dir
           [("x_Temp", Sim.dir [("a.tmp", Sim.file "A")]);
            ("x", Sim.dir [("Temp", Sim.dir [("b.tmp", Sim.file "B")])])])])
    Sim.plain_os.

(* ===================================================================== *)
(** * More of the code: vocabulary *)
(* ===================================================================== *)

(** ** Further vocabulary: paths and names *)

(** Every character of [s] passes [f]. *)
Fixpoint all_chars (f : ascii → bool) (s : string) : bool :=
  match s with
  | EmptyString => true
  | String a s' => f a && all_chars f s'
  end.

(** A name that can be one component of a path: not empty, not a dot,
    and without a separator. *)
Definition component (win : bool) (x : string) : Prop :=
  x ≠ "" ∧ x ≠ "." ∧ all_chars (λ a, negb (is_sep win a)) x = true.

(** A path the way [Path(s)] builds it on POSIX: no drive, a root that
    is empty, one slash or two, and components without a slash. *)
Definition posix_shaped (p : Path) : Prop :=
  drive p = ""
  ∧ (root p = "" ∨ root p = "/" ∨ root p = "//")
  ∧ Forall (component false) (tail p).

(** A Windows path with the drive letter [a] and a root, such as
    C:\Windows\Temp. *)
Definition drive_rooted (a : ascii) (p : Path) : Prop :=
  is_sep true a = false ∧ a ≠ ":"%char
  ∧ drive p = String a ":"
  ∧ root p = "\"
  ∧ Forall (λ x, component true x ∧ x ≠ String a ":") (tail p).

(** The error list of a Cleanup result accounts for its counters: one
    message for each failed entry, at most one for each skipped target. *)
Definition errors_accounted (failed skipped : nat) (errors : list string)
  : Prop :=
  (failed ≤ length errors)%nat ∧ (length errors ≤ failed + skipped)%nat.

(** ** Further vocabulary: what Cleanup does *)

(** Between two tallies of a call, the errors grew by one message for
    each new failure and by at most one for each new skip. *)
Definition accounted_step (st st' : Cleanup.tally) : Prop :=
  (Cleanup.t_failed st' + length (Cleanup.t_errors st)
   ≤ Cleanup.t_failed st + length (Cleanup.t_errors st'))%nat
  ∧ (length (Cleanup.t_errors st') + Cleanup.t_failed st
     + Cleanup.t_skipped st
     ≤ length (Cleanup.t_errors st) + Cleanup.t_failed st'
       + Cleanup.t_skipped st')%nat.

(** The three things a Cleanup apply does: it makes the session
    sub-directory of a target, it moves a direct entry of a target into
    that sub-directory under the entry's own name, it writes the manifest
    of the session. *)
Definition apply_event (cfg : config) (e : event) : Prop :=
  (∃ t, t ∈ Cleanup._collect_temp_dirs cfg
        ∧ (e = EvMkdir (parts (session_subdir cfg t)) true
           ∨ ∃ n ok, e = EvMove (parts t ++ [n])
                                (parts (session_subdir cfg t) ++ [n]) ok))
  ∨ ∃ mapping,
      e = EvWriteManifest
            (parts (Cleanup._manifest_path (Cleanup._build_backup_root cfg)))
            (Cleanup.manifest_value mapping) true.

(** The two things a Cleanup restore does, for an item of the manifest:
    it makes the destination, it moves an entry of the item's
    sub-directory of the session to the destination under the entry's own
    name. *)
Definition restore_event (cfg : config) (latest_backup : Path)
    (items : list (string * value)) (e : event) : Prop :=
  ∃ backup_name s,
    (backup_name, VStr s) ∈ items
    ∧ ((∃ ok, e = EvMkdir (parts (parse (win32 cfg) s)) ok)
       ∨ ∃ n ok,
           e = EvMove
                 (parts (joinpath (win32 cfg) latest_backup backup_name)
                  ++ [n])
                 (parts (parse (win32 cfg) s) ++ [n]) ok).

(** A POSIX machine for Cleanup: TEMP is /tmp with two files, of which
    a.tmp cannot be moved; WINDIR names a directory that is not there. *)
Definition stuck_cfg : config :=
  Sim.posix_cfg [("TEMP", "/tmp"); ("WINDIR", "/nowhere")].

Definition stuck_machine : world Sim.os :=
  Sim.boot
    (Sim.posix_fs
       [("tmp", Sim.dir [("a.tmp", Sim.file "A"); ("b.tmp", Sim.file "B")])])
    (Sim.mkOs [] [] [] [] "" [] false [] [["/"; "tmp"; "a.tmp"]]).

(** The machine [two_files] after a Cleanup apply. *)
Definition two_files_cleaned : world Sim.os :=
  (Cleanup.safe_cleanup Sim.api two_files_cfg two_files).2.

(** ** Further vocabulary: flags and errors *)

(** How many of the flags are false. *)
Definition count_false (flags : list bool) : nat :=
  length (List.filter negb flags).

(** ** Further vocabulary: what a restore writes *)

(** A registry call of a restore for the value [key]/[name], whose
    manifest field is [v] and should pass the type test [expected]: the
    key is opened; a field of the expected type is written back as it is;
    for any other field the value is deleted. *)
Definition writes_back (key name : string) (expected : value → bool)
    (v : value) (e : event) : Prop :=
  match e with
  | EvOpenKey k _ | EvCreateKey k _ => k = key
  | EvDeleteValue k n _ => k = key ∧ n = name ∧ expected v = false
  | EvSetValue k n v' _ => k = key ∧ n = name ∧ v' = v ∧ expected v = true
  | _ => False
  end.

(** A command of the MaxPerformance restore for the manifest [kvs]: the
    recorded power scheme is activated; a service with a recorded start
    type is configured to it, normalised; a service recorded as running
    is started. *)
Definition max_restore_command (kvs : list (string * value)) (e : event)
  : Prop :=
  (∃ g c, dict_get "power_scheme" kvs = VStr g
          ∧ e = EvRun ["powercfg"; "/setactive"; g] (Ok c))
  ∨ ∃ items X fields c,
      dict_get "services" kvs = VDict items
      ∧ (X, VDict fields) ∈ items
      ∧ ((∃ s, dict_get "start_type" fields = VStr s
               ∧ e = EvRun ["sc.exe"; "config"; X;
                            "start="
                            +:+ MaxPerformance._normalize_start_type s]
                           (Ok c))
         ∨ (dict_get "was_running" fields = VBool true
            ∧ e = EvRun ["sc.exe"; "start"; X] (Ok c))).

(** A machine on which the latest MaxPerformance session holds
    [manifest]. *)
Definition max_session (manifest : value) : world Sim.os :=
  Sim.boot
    (Sim.dir
       [("C:\", Sim.dir
          [("Users", Sim.dir
             [("u", Sim.dir
                [(".opti2025", Sim.dir
                   [("max_backups", Sim.dir
                      [(Sim.stamp, Sim.dir
                         [("manifest.json",
                           FS.File (FS.JsonDoc manifest))])])])])])])])
    Sim.win_os.

(** A manifest as a MaxPerformance apply writes it: the indexer ran and
    started automatically, SysMain was stopped and started on demand. *)
Definition sample_max_manifest : list (string * value) :=
  [("services",
    VDict [("WSearch", state_record "AUTO_START" true);
           ("SysMain", state_record "DEMAND_START" false)]);
   ("power_scheme", VStr "381b4222-f694-41f0-9685-ff5bb260df2e");
   ("onedrive_run_value", VStr "OneDrive.exe /background")].



(** ** Further vocabulary: the log and the file system *)





(* ===================================================================== *)
(** * Properties *)
(* ===================================================================== *)

(** ** Running a program step by step *)

Lemma bind_Ok {W A B} (m : M W A) (k : A → M W B) w b w' :
  bind m k w = (Ok b, w') →
  ∃ a w1, m w = (Ok a, w1) ∧ k a w1 = (Ok b, w').
Proof.
  unfold bind. destruct (m w) as [[a|e] w1]; [eauto | discriminate].
Qed.

Lemma attempt_Ok {W A} (m : M W A) w r w' :
  attempt m w = (Ok r, w') → m w = (r, w').
Proof.
  unfold attempt. destruct (m w) as [[a|e] w1]; intros [= <- <-]; reflexivity.
Qed.

Lemma ret_Ok {W A} (a b : A) (w w' : world W) :
  ret a w = (Ok b, w') → a = b ∧ w = w'.
Proof. intros [= -> ->]. done. Qed.

(** [step H as a w1 H1]: [H] runs a bind to a result; [H1] becomes the run
    of its first action, to [a] in world [w1], and [H] the run of the rest.  A first action that
    only reads is resolved on the spot. *)
Ltac resolve_read H :=
  first [ unfold exists_ in H | unfold is_dir in H | unfold access in H ];
  injection H as <- <-.

Tactic Notation "step" hyp(H) "as" ident(a) ident(w1) ident(H1) :=
  apply bind_Ok in H as (a & w1 & H1 & H);
  try resolve_read H1;
  try apply attempt_Ok in H1.

Ltac finish H :=
  lazymatch type of H with
  | ret _ _ = (Ok _, _) => apply ret_Ok in H as [? ?]; subst
  | raise _ _ = (Ok _, _) => discriminate H
  end.

Lemma appended_refl {W} (w : world W) : appended w w [].
Proof. unfold appended. by rewrite app_nil_r. Qed.

Lemma appended_trans {W} (w1 w2 w3 : world W) l1 l2 :
  appended w1 w2 l1 → appended w2 w3 l2 → appended w1 w3 (l1 ++ l2).
Proof. unfold appended. intros -> ->. by rewrite app_assoc. Qed.

Lemma count_app f l1 l2 : count f (l1 ++ l2) = count f l1 + count f l2.
Proof. unfold count. by rewrite List.filter_app, length_app. Qed.

(** Reading the file system changes nothing. *)
Section Reads.
Context {W : Type}.
Implicit Types (w : world W) (p : Path).

Lemma exists_run p w : exists_ p w = (Ok (FS.exists_ (parts p) (w_fs w)), w).
Proof. reflexivity. Qed.

Lemma iterdir_same p w r w' : iterdir p w = (r, w') → w' = w.
Proof.
  unfold iterdir. destruct (FS.listdir _ _); intros [= _ <-]; reflexivity.
Qed.

Lemma read_json_same p w r w' : read_json p w = (r, w') → w' = w.
Proof.
  unfold read_json. destruct (FS.read_text _ _); intros [= _ <-]; reflexivity.
Qed.

Lemma latest_session_same p w r w' :
  latest_session p w = (r, w') → w' = w.
Proof.
  unfold latest_session. destruct (FS.exists_ _ _); [|by intros [= _ <-]].
  destruct (FS.listdir _ _); [|by intros [= _ <-]].
  destruct (sorted_reverse _); by intros [= _ <-].
Qed.
End Reads.

(** A change of the file system leaves the operating system alone and
    logs one event. *)
Lemma fs_update_run {W} (api : os_api W) op f ev w r w' :
  fs_update api op f ev w = (r, w') →
  w_os w' = w_os w ∧ appended w w' [ev (is_ok r)]
  ∧ (is_ok r = false → w_fs w' = w_fs w).
Proof.
  unfold fs_update, appended.
  destruct (fs_fault api op (w_os w)); [intros [= <- <-]; done|].
  destruct (f (w_fs w)); intros [= <- <-]; done.
Qed.

Lemma os_call_run {W A} (f : W → outcome A * W) ev w r w' :
  os_call f ev w = (r, w') →
  w_fs w' = w_fs w ∧ appended w w' [ev r].
Proof.
  unfold os_call, appended. destruct (f (w_os w)) as [r0 o].
  intros [= <- <-]. done.
Qed.

(** ** Cleanup: the counters *)

Section CleanupCounts.
Context {W : Type} (api : os_api W) (cfg : config).
Import Cleanup.

Lemma counts_nil st : counts st st [].
Proof. unfold counts, count. cbn. lia. Qed.

Lemma counts_trans st1 st2 st3 l1 l2 :
  counts st1 st2 l1 → counts st2 st3 l2 → counts st1 st3 (l1 ++ l2).
Proof. unfold counts. rewrite !count_app. lia. Qed.

Lemma move_entries_counts destination entries :
  ∀ st w st' w',
    move_entries api cfg destination entries st w = (Ok st', w') →
    ∃ l, appended w w' l ∧ counts st st' l.
Proof.
  induction entries as [|entry rest IH]; intros st w st' w' Hrun;
    cbn [move_entries] in Hrun.
  - finish Hrun. exists []. split; [apply appended_refl | apply counts_nil].
  - step Hrun as r w1 Hmove.
    apply fs_update_run in Hmove as (_ & Hlog & _).
    destruct r as [[]|exc]; cbn in Hlog.
    + apply IH in Hrun as (l & Hl & Hc).
      eexists. split; [exact (appended_trans _ _ _ _ _ Hlog Hl)|].
      eapply counts_trans; [|exact Hc]. unfold counts, count; cbn. lia.
    + destruct (is_OSError exc); [|finish Hrun].
      apply IH in Hrun as (l & Hl & Hc).
      eexists. split; [exact (appended_trans _ _ _ _ _ Hlog Hl)|].
      eapply counts_trans; [|exact Hc]. unfold counts, count; cbn. lia.
Qed.

Lemma sweep_counts backup_root temp_dirs :
  ∀ mapping st w mapping' st' w',
    sweep api cfg backup_root temp_dirs mapping st w
    = (Ok (mapping', st'), w') →
    ∃ l, appended w w' l ∧ counts st st' l.
Proof.
  induction temp_dirs as [|temp_dir rest IH];
    intros mapping st w mapping' st' w' Hrun; cbn [sweep] in Hrun.
  - finish Hrun. injection H as <- <-.
    exists []. split; [apply appended_refl | apply counts_nil].
  - step Hrun as e w1 Hex.
    destruct (FS.exists_ _ _); cbn [negb] in Hrun.
    2:{ apply IH in Hrun as (l & Hl & Hc). exists l. split; [done|].
        exact Hc. }
    step Hrun as ac w1 Hacc.
    destruct (os_access _ _ _); cbn [negb] in Hrun.
    2:{ apply IH in Hrun as (l & Hl & Hc). exists l. split; [done|].
        exact Hc. }
    step Hrun as u w1 Hmk. apply fs_update_run in Hmk as (_ & Hlog & _).
    step Hrun as entries w2 Hit. apply iterdir_same in Hit as ->.
    step Hrun as st2 w3 Hmv.
    apply move_entries_counts in Hmv as (l1 & Hl1 & Hc1).
    apply IH in Hrun as (l2 & Hl2 & Hc2).
    eexists. split.
    + exact (appended_trans _ _ _ _ _ Hlog (appended_trans _ _ _ _ _ Hl1 Hl2)).
    + cbn in *. eapply (counts_trans _ st _ [_]);
        [unfold counts, count; cbn; lia|].
      eapply counts_trans; eassumption.
Qed.

Lemma restore_entries_counts latest_backup items :
  ∀ st w st' w',
    restore_entries api cfg latest_backup items st w = (Ok st', w') →
    ∃ l, appended w w' l ∧ counts st st' l.
Proof.
  induction items as [|[backup_name destination_str] rest IH];
    intros st w st' w' Hrun; cbn [restore_entries] in Hrun.
  - finish Hrun. exists []. split; [apply appended_refl | apply counts_nil].
  - destruct destination_str; try finish Hrun.
    step Hrun as e w1 Hex.
    destruct (FS.exists_ _ _); cbn [negb] in Hrun.
    2:{ apply IH in Hrun as (l & Hl & Hc). exists l. split; [done|].
        exact Hc. }
    step Hrun as de w0 Hex2.
    step Hrun as r w1 Hmk.
    assert (∃ l0, appended w w1 l0 ∧ count is_move l0 = 0
                  ∧ count is_move_ok l0 = 0 ∧ count is_move_refused l0 = 0)
      as (l0 & Hl0 & Hz1 & Hz2 & Hz3).
    { destruct (FS.exists_ _ _); cbn [negb] in Hmk.
      - finish Hmk. exists []. split; [apply appended_refl|done].
      - apply attempt_Ok in Hmk.
        apply fs_update_run in Hmk as (_ & Hlog & _).
        eexists. split; [exact Hlog|]. done. }
    assert (Hst : counts st st l0) by (unfold counts; lia).
    destruct r as [[]|exc].
    + step Hrun as entries w2 Hit. apply iterdir_same in Hit as ->.
      step Hrun as st2 w3 Hmv.
      apply move_entries_counts in Hmv as (l1 & Hl1 & Hc1).
      apply IH in Hrun as (l2 & Hl2 & Hc2).
      eexists. split.
      * exact (appended_trans _ _ _ _ _ Hl0 (appended_trans _ _ _ _ _ Hl1 Hl2)).
      * eapply counts_trans; [exact Hst|]. eapply counts_trans; eassumption.
    + destruct (is_OSError exc); [|finish Hrun].
      apply IH in Hrun as (l2 & Hl2 & Hc2).
      eexists. split; [exact (appended_trans _ _ _ _ _ Hl0 Hl2)|].
      eapply counts_trans; [exact Hst|]. exact Hc2.
Qed.
End CleanupCounts.

(** ** MaxPerformance: the service loop *)

Section ServiceLoop.
Context {W : Type} (api : os_api W) (cfg : config).
Import MaxPerformance.

Lemma run_command_run cmd w c w' :
  _run_command api cmd w = (Ok c, w') →
  w_fs w' = w_fs w ∧ appended w w' [EvRun cmd (Ok c)].
Proof. intros H. by apply os_call_run in H. Qed.

Lemma disable_services_loop names :
  ∀ acc w acc' w',
    disable_services api names acc w = (Ok acc', w') →
    w_fs w' = w_fs w ∧ ∃ l, appended w w' l ∧ svc_loop api names acc l acc'.
Proof.
  induction names as [|X names IH]; intros acc w acc' w' Hrun;
    cbn [disable_services] in Hrun.
  - finish Hrun. split; [done|]. exists []. split; [apply appended_refl|].
    constructor.
  - step Hrun as sty w1 Hqc. unfold _query_service_start_type in Hqc.
    step Hqc as c1 w1' Hc1. finish Hqc.
    apply run_command_run in Hc1 as [Hfs1 Hl1].
    step Hrun as rng w2 Hq. unfold _query_service_running in Hq.
    step Hq as c2 w2' Hc2. finish Hq.
    apply run_command_run in Hc2 as [Hfs2 Hl2].
    destruct (start_type_of api c1) as [st|] eqn:Est;
      [destruct (running_of c2) as [rn|] eqn:Ern|].
    + step Hrun as u w3 Hstop.
      assert (w_fs w3 = w_fs w2 ∧ ∃ stops, appended w2 w3 stops ∧
                (rn = false ∧ stops = [] ∨ ∃ c3, rn = true ∧ stops = [ev_stop X c3]))
        as (Hfs3 & stops & Hl3 & Hstops).
      { destruct rn.
        - unfold _stop_service in Hstop. step Hstop as c3 w3' Hc3.
          finish Hstop. apply run_command_run in Hc3 as [? ?].
          split; [done|]. eexists. split; [eassumption|]. right. eauto.
        - finish Hstop. split; [done|]. exists []. split; [apply appended_refl|].
          by left. }
      step Hrun as ok w4 Hcfg. unfold _set_service_start_type in Hcfg.
      step Hcfg as c4 w4' Hc4. finish Hcfg.
      apply run_command_run in Hc4 as [Hfs4 Hl4].
      destruct (returncode c4 =? 0)%Z eqn:Erc.
      * apply IH in Hrun as (Hfs5 & l5 & Hl5 & Hloop).
        split; [congruence|]. eexists. split.
        { exact (appended_trans _ _ _ _ _ Hl1 (appended_trans _ _ _ _ _ Hl2
                  (appended_trans _ _ _ _ _ Hl3
                    (appended_trans _ _ _ _ _ Hl4 Hl5)))). }
        replace ([EvRun ["sc.exe"; "qc"; X] (Ok c1)] ++
                 [EvRun ["sc.exe"; "query"; X] (Ok c2)] ++ stops ++
                 [EvRun ["sc.exe"; "config"; X; "start=" +:+ "disabled"] (Ok c4)] ++ l5)
          with (([ev_qc X c1; ev_query X c2] ++ stops ++ [ev_config X c4]) ++ l5)
          by (cbn; by rewrite <- !app_assoc).
        econstructor; [|exact Hloop].
        apply turn_disabled; [done..|]. by apply Z.eqb_eq.
      * apply IH in Hrun as (Hfs5 & l5 & Hl5 & Hloop).
        split; [congruence|]. eexists. split.
        { exact (appended_trans _ _ _ _ _ Hl1 (appended_trans _ _ _ _ _ Hl2
                  (appended_trans _ _ _ _ _ Hl3
                    (appended_trans _ _ _ _ _ Hl4 Hl5)))). }
        replace ([EvRun ["sc.exe"; "qc"; X] (Ok c1)] ++
                 [EvRun ["sc.exe"; "query"; X] (Ok c2)] ++ stops ++
                 [EvRun ["sc.exe"; "config"; X; "start=" +:+ "disabled"] (Ok c4)] ++ l5)
          with (([ev_qc X c1; ev_query X c2] ++ stops ++ [ev_config X c4]) ++ l5)
          by (cbn; by rewrite <- !app_assoc).
        econstructor; [|exact Hloop].
        apply turn_refused with (st := st) (rn := rn); [done..|].
        by apply Z.eqb_neq.
    + apply IH in Hrun as (Hfs5 & l5 & Hl5 & Hloop).
      split; [congruence|]. eexists. split.
      { exact (appended_trans _ _ _ _ _ Hl1 (appended_trans _ _ _ _ _ Hl2 Hl5)). }
      change ([EvRun ["sc.exe"; "qc"; X] (Ok c1)] ++
              [EvRun ["sc.exe"; "query"; X] (Ok c2)] ++ l5)
        with ([ev_qc X c1; ev_query X c2] ++ l5).
      econstructor; [|exact Hloop]. apply turn_unreadable. by right.
    + apply IH in Hrun as (Hfs5 & l5 & Hl5 & Hloop).
      split; [congruence|]. eexists. split.
      { exact (appended_trans _ _ _ _ _ Hl1 (appended_trans _ _ _ _ _ Hl2 Hl5)). }
      change ([EvRun ["sc.exe"; "qc"; X] (Ok c1)] ++
              [EvRun ["sc.exe"; "query"; X] (Ok c2)] ++ l5)
        with ([ev_qc X c1; ev_query X c2] ++ l5).
      econstructor; [|exact Hloop]. apply turn_unreadable. by left.
Qed.
End ServiceLoop.

(** ** The registry helpers *)

Lemma captured_value_frame key name v l0 l l3 :
  Forall (λ e, writes_value key name e = false) l0 →
  captured_value key name v l →
  captured_value key name v (l0 ++ l ++ l3).
Proof.
  intros H0 [->|(l1 & l2 & -> & H1)]; [by left|]. right.
  exists (l0 ++ l1), (l2 ++ l3). split.
  - by rewrite <- !app_assoc.
  - by apply Forall_app.
Qed.

Lemma on_key_not_fs key e : on_key key e = true → is_fs_event e = false.
Proof. by destruct e. Qed.

Lemma on_key_not_service key X e :
  on_key key e = true → changes_service X e = false.
Proof. by destruct e. Qed.

Lemma on_key_not_power key e : on_key key e = true → changes_power e = false.
Proof. by destruct e. Qed.

Lemma on_key_other key key' name e :
  key ≠ key' → on_key key e = true → writes_value key' name e = false.
Proof.
  intros Hne. destruct e; cbn; try done; intros ->%String.eqb_eq;
    by rewrite (proj2 (String.eqb_neq _ _) Hne).
Qed.

Lemma is_run_not_fs e : is_run e = true → is_fs_event e = false.
Proof. by destruct e. Qed.

Lemma is_run_not_value key name e :
  is_run e = true → writes_value key name e = false.
Proof. by destruct e. Qed.


Section Registry.
Context {W : Type} (api : os_api W).
Import Performance.

Ltac winreg H Hfs Hl :=
  apply attempt_Ok in H; apply os_call_run in H as [Hfs Hl].

Ltac close_registry :=
  repeat (first [ done | apply Forall_nil | apply Forall_cons; split ]).

Lemma disable_onedrive_run_spec w d v errs w' :
  _disable_onedrive_run api w = (Ok (d, v, errs), w') →
  w_fs w' = w_fs w
  ∧ ∃ l, appended w w' l ∧ Forall (λ e, on_key RUN_KEY e = true) l
         ∧ captured_value RUN_KEY "OneDrive" v l.
Proof.
  unfold _disable_onedrive_run. intros Hrun.
  apply bind_Ok in Hrun as (k & w1 & Hk & Hrun). winreg Hk Hfs1 Hl1.
  destruct k as [[]|exc].
  2:{ destruct (is_OSError exc); [|finish Hrun]. finish Hrun.
      injection H as <- <- <-. split; [done|]. eexists.
      split; [exact Hl1|]. split; [close_registry|by left]. }
  apply bind_Ok in Hrun as (q & w2 & Hq & Hrun). winreg Hq Hfs2 Hl2.
  destruct q as [v0|exc].
  2:{ destruct (is_FileNotFoundError exc);
        [|destruct (is_OSError exc); [|finish Hrun]];
        finish Hrun; injection H as <- <- <-;
        (split; [congruence|]); eexists;
        (split; [exact (appended_trans _ _ _ _ _ Hl1 Hl2)|]);
        (split; [close_registry|by left]). }
  apply bind_Ok in Hrun as (dl & w3 & Hd & Hrun). winreg Hd Hfs3 Hl3.
  assert (Hlog : appended w w3
            ([EvOpenKey RUN_KEY (Ok ())]
             ++ EvQueryValue RUN_KEY "OneDrive" (Ok v0)
             :: [EvDeleteValue RUN_KEY "OneDrive" dl])).
  { exact (appended_trans _ _ _ _ _ Hl1 (appended_trans _ _ _ _ _ Hl2 Hl3)). }
  assert (Hcap : ∀ x, x = VNone ∨ x = v0 →
            captured_value RUN_KEY "OneDrive" x
              ([EvOpenKey RUN_KEY (Ok ())]
               ++ EvQueryValue RUN_KEY "OneDrive" (Ok v0)
               :: [EvDeleteValue RUN_KEY "OneDrive" dl])).
  { intros x [->| ->]; [by left|]. right. eexists _, _. split; [done|].
    close_registry. }
  destruct dl as [[]|exc].
  - finish Hrun. injection H as <- <- <-. split; [congruence|].
    eexists. split; [exact Hlog|]. split; [close_registry|].
    apply Hcap. by right.
  - destruct (is_FileNotFoundError exc);
      [|destruct (is_OSError exc); [|finish Hrun]];
      finish Hrun; injection H as <- <- <-;
      (split; [congruence|]); eexists;
      (split; [exact Hlog|]); (split; [close_registry|]);
      apply Hcap; auto.
Qed.

Lemma disable_background_apps_spec w d v errs w' :
  _disable_background_apps api w = (Ok (d, v, errs), w') →
  w_fs w' = w_fs w
  ∧ ∃ l, appended w w' l ∧ Forall (λ e, on_key BACKGROUND_KEY e = true) l
         ∧ captured_value BACKGROUND_KEY "GlobalUserDisabled" v l.
Proof.
  unfold _disable_background_apps. intros Hrun.
  apply bind_Ok in Hrun as (k & w1 & Hk & Hrun). winreg Hk Hfs1 Hl1.
  destruct k as [[]|exc].
  2:{ destruct (is_OSError exc); [|finish Hrun]. finish Hrun.
      injection H as <- <- <-. split; [done|]. eexists.
      split; [exact Hl1|]. split; [close_registry|by left]. }
  apply bind_Ok in Hrun as (q & w2 & Hq & Hrun). winreg Hq Hfs2 Hl2.
  assert (Hset : ∀ x,
    bind (attempt (SetValueEx api BACKGROUND_KEY "GlobalUserDisabled"
                              REG_DWORD (VInt 1)))
      (λ s, match s with
            | Ok _ => ret (true, x, [])
            | Raise exc =>
                if is_OSError exc then
                  ret (false, x,
                       ["Impossible de réduire les apps en arrière-plan: "
                        +:+ exn_str exc])
                else raise exc
            end) w2 = (Ok (d, v, errs), w') →
    v = x ∧ w_fs w' = w_fs w2
    ∧ ∃ s, appended w2 w'
             [EvSetValue BACKGROUND_KEY "GlobalUserDisabled" (VInt 1) s]).
  { intros x Hx.
    apply bind_Ok in Hx as (s & w3 & Hs & Hx). winreg Hs Hfs3 Hl3.
    destruct s as [[]|exc].
    - finish Hx. injection H as <- <- <-. eauto.
    - destruct (is_OSError exc); [|finish Hx]. finish Hx.
      injection H as <- <- <-. eauto. }
  destruct q as [v0|exc].
  - apply Hset in Hrun as (-> & Hfs3 & s & Hl3).
    split; [congruence|]. eexists.
    split; [exact (appended_trans _ _ _ _ _ Hl1
                     (appended_trans _ _ _ _ _ Hl2 Hl3))|].
    split; [close_registry|]. right. eexists [_], _. split; [done|].
    close_registry.
  - destruct (is_FileNotFoundError exc).
    + apply Hset in Hrun as (-> & Hfs3 & s & Hl3).
      split; [congruence|]. eexists.
      split; [exact (appended_trans _ _ _ _ _ Hl1
                       (appended_trans _ _ _ _ _ Hl2 Hl3))|].
      split; [close_registry|by left].
    + destruct (is_OSError exc); [|finish Hrun]. finish Hrun.
      injection H as <- <- <-. split; [congruence|]. eexists.
      split; [exact (appended_trans _ _ _ _ _ Hl1 Hl2)|].
      split; [close_registry|by left].
Qed.

Lemma stop_onedrive_process_spec w stopped errs w' :
  _stop_onedrive_process api w = (Ok (stopped, errs), w') →
  w_fs w' = w_fs w
  ∧ ∃ r, appended w w' [EvRun TASKKILL r].
Proof.
  unfold _stop_onedrive_process. intros Hrun.
  apply bind_Ok in Hrun as (c & w1 & Hc & Hrun). winreg Hc Hfs1 Hl1.
  destruct c as [c|exc].
  - destruct (_ && _); finish Hrun; eauto.
  - destruct (is_OSError exc); finish Hrun; eauto.
Qed.

(** The restore helpers only talk to the registry. *)
Lemma restore_onedrive_run_spec previous_value w errs w' :
  _restore_onedrive_run api previous_value w = (Ok errs, w') →
  w_fs w' = w_fs w
  ∧ ∃ l, appended w w' l ∧ Forall (λ e, on_key RUN_KEY e = true) l.
Proof.
  unfold _restore_onedrive_run. intros Hrun.
  apply bind_Ok in Hrun as (k & w1 & Hk & Hrun). winreg Hk Hfs1 Hl1.
  destruct k as [[]|exc].
  2:{ destruct (is_OSError exc); finish Hrun. split; [done|]. eexists.
      split; [exact Hl1|]. close_registry. }
  destruct (is_none previous_value).
  - apply bind_Ok in Hrun as (d & w2 & Hd & Hrun). winreg Hd Hfs2 Hl2.
    assert (w' = w2) as ->.
    { destruct d as [[]|exc]; [by finish Hrun|].
      destruct (is_FileNotFoundError exc); [by finish Hrun|].
      destruct (is_OSError exc); by finish Hrun. }
    split; [congruence|]. eexists.
    split; [exact (appended_trans _ _ _ _ _ Hl1 Hl2)|]. close_registry.
  - apply bind_Ok in Hrun as (d & w2 & Hd & Hrun). winreg Hd Hfs2 Hl2.
    assert (w' = w2) as ->.
    { destruct d as [[]|exc]; [by finish Hrun|].
      destruct (is_OSError exc); by finish Hrun. }
    split; [congruence|]. eexists.
    split; [exact (appended_trans _ _ _ _ _ Hl1 Hl2)|]. close_registry.
Qed.

Lemma restore_background_apps_spec previous_value w errs w' :
  _restore_background_apps api previous_value w = (Ok errs, w') →
  w_fs w' = w_fs w
  ∧ ∃ l, appended w w' l ∧ Forall (λ e, on_key BACKGROUND_KEY e = true) l.
Proof.
  unfold _restore_background_apps. intros Hrun.
  apply bind_Ok in Hrun as (k & w1 & Hk & Hrun). winreg Hk Hfs1 Hl1.
  destruct k as [[]|exc].
  2:{ destruct (is_OSError exc); finish Hrun. split; [done|]. eexists.
      split; [exact Hl1|]. close_registry. }
  destruct (is_none previous_value).
  - apply bind_Ok in Hrun as (d & w2 & Hd & Hrun). winreg Hd Hfs2 Hl2.
    assert (w' = w2) as ->.
    { destruct d as [[]|exc]; [by finish Hrun|].
      destruct (is_FileNotFoundError exc); [by finish Hrun|].
      destruct (is_OSError exc); by finish Hrun. }
    split; [congruence|]. eexists.
    split; [exact (appended_trans _ _ _ _ _ Hl1 Hl2)|]. close_registry.
  - apply bind_Ok in Hrun as (d & w2 & Hd & Hrun). winreg Hd Hfs2 Hl2.
    assert (w' = w2) as ->.
    { destruct d as [[]|exc]; [by finish Hrun|].
      destruct (is_OSError exc); by finish Hrun. }
    split; [congruence|]. eexists.
    split; [exact (appended_trans _ _ _ _ _ Hl1 Hl2)|]. close_registry.
Qed.
End Registry.

(** ** What a run of the service loop guarantees *)

Lemma dict_set_elem {A} k (v : A) d x :
  x ∈ dict_set k v d → x = (k, v) ∨ x ∈ d.
Proof.
  induction d as [|[k' v'] d IH]; cbn.
  - intros ->%list_elem_of_singleton. by left.
  - destruct (String.eqb k' k).
    + intros [->|?]%elem_of_cons; [by left|]. right. by apply elem_of_cons; right.
    + intros [->|?]%elem_of_cons; [right; by apply elem_of_cons; left|].
      destruct IH as [?|?]; [done|by left|]. right. by apply elem_of_cons; right.
Qed.


Section ServiceLoopFacts.
Context {W : Type} (api : os_api W).
Import MaxPerformance.

Lemma turn_events X acc l acc' :
  svc_turn api X acc l acc' →
  Forall (λ e, is_run e = true ∧ service_of e = Some X) l.
Proof.
  destruct 1 as [? ? _|???? stops ? _ _ Hs _|???? stops ? _ _ Hs _];
    repeat constructor;
    destruct Hs as [[_ ->]|(c3 & _ & ->)]; repeat constructor.
Qed.

Lemma loop_events names acc l acc' :
  svc_loop api names acc l acc' →
  Forall (λ e, is_run e = true ∧ ∃ Y, service_of e = Some Y ∧ Y ∈ names) l.
Proof.
  induction 1 as [|X names acc l1 acc1 l2 acc2 Hturn _ IH];
    [constructor|].
  apply Forall_app. split.
  - eapply Forall_impl; [exact (turn_events _ _ _ _ Hturn)|].
    intros e [? ?]. split; [done|]. exists X. split; [done|]. by left.
  - eapply Forall_impl; [exact IH|].
    intros e (? & Y & ? & ?). split; [done|]. exists Y. split; [done|].
    by right.
Qed.


Lemma loop_indexing names acc l acc' :
  svc_loop api names acc l acc' →
  (acc_indexing acc = true ↔ "WSearch" ∈ acc_disabled acc) →
  (acc_indexing acc' = true ↔ "WSearch" ∈ acc_disabled acc').
Proof.
  induction 1 as [|X names acc l1 acc1 l2 acc2 Hturn _ IH]; [done|].
  intros Hacc. apply IH. clear IH.
  destruct Hturn; cbn; [done| |done].
  rewrite elem_of_app, list_elem_of_singleton.
  destruct (String.eqb_spec X "WSearch") as [->|Hne].
  - split; [by right|done].
  - rewrite Hacc. split; [by left|]. by intros [?|?].
Qed.







End ServiceLoopFacts.

(** ** The shape of an apply call *)

(** Equal up to the bracketing of appends. *)
Ltac list_eq :=
  repeat (progress (rewrite <- ?app_assoc; cbn [app])); reflexivity.

Lemma mkdir_Ok {W} (api : os_api W) p w u w' :
  mkdir api p w = (Ok u, w') →
  FS.mkdir_p (parts p) (w_fs w) = Ok (w_fs w')
  ∧ w_os w' = w_os w ∧ appended w w' [EvMkdir (parts p) true].
Proof.
  unfold mkdir, fs_update, appended.
  destruct (fs_fault _ _ _); [discriminate|].
  destruct (FS.mkdir_p _ _); [|discriminate]. by intros [= _ <-].
Qed.

Lemma write_json_Ok {W} p data (w : world W) u w' :
  write_json p data w = (Ok u, w') →
  FS.write_text (parts p) (FS.JsonDoc data) (w_fs w) = Ok (w_fs w')
  ∧ w_os w' = w_os w ∧ appended w w' [EvWriteManifest (parts p) data true].
Proof.
  unfold write_json, appended.
  destruct (FS.write_text _ _ _); [|discriminate]. by intros [= _ <-].
Qed.

Section PerformanceApply.
Context {W : Type} (api : os_api W) (cfg : config).
Import Performance.

Lemma apply_performance_shape w r w' :
  win32 cfg = true →
  apply_performance_profile api cfg w = (Ok r, w') →
  ∃ l v1 v2 t1,
    appended w w'
      ((EvMkdir (parts (_backup_root cfg)) true :: l)
       ++ [EvWriteManifest (parts (_manifest_path (_backup_root cfg)))
                           (performance_manifest v1 v2) true])
    ∧ Forall (λ e, is_fs_event e = false) l
    ∧ captured_value RUN_KEY "OneDrive" v1
        (EvMkdir (parts (_backup_root cfg)) true :: l)
    ∧ captured_value BACKGROUND_KEY "GlobalUserDisabled" v2
        (EvMkdir (parts (_backup_root cfg)) true :: l)
    ∧ backup_dir r = Some (_backup_root cfg)
    ∧ FS.mkdir_p (parts (_backup_root cfg)) (w_fs w) = Ok t1
    ∧ FS.write_text (parts (_manifest_path (_backup_root cfg)))
        (FS.JsonDoc (performance_manifest v1 v2)) t1 = Ok (w_fs w').
Proof.
  intros Hwin Hrun. unfold apply_performance_profile, _ensure_windows in Hrun.
  rewrite Hwin in Hrun. cbn [negb] in Hrun.
  step Hrun as u w1 Hmk. apply mkdir_Ok in Hmk as (Hmk & _ & Hl1).
  step Hrun as od w2 Hod. destruct od as [[d v1] e1].
  apply disable_onedrive_run_spec in Hod as (Hfs2 & l2 & Hl2 & Hk2 & Hc2).
  step Hrun as bg w3 Hbg. destruct bg as [[b v2] e2].
  apply disable_background_apps_spec in Hbg as (Hfs3 & l3 & Hl3 & Hk3 & Hc3).
  step Hrun as st w4 Hst. destruct st as [s e3].
  apply stop_onedrive_process_spec in Hst as (Hfs4 & c & Hl4).
  step Hrun as u2 w5 Hwr. apply write_json_Ok in Hwr as (Hwr & _ & Hl5).
  finish Hrun.
  exists (l2 ++ l3 ++ [EvRun TASKKILL c]), v1, v2, (w_fs w1).
  split.
  { pose proof (appended_trans _ _ _ _ _ Hl1
                 (appended_trans _ _ _ _ _ Hl2
                   (appended_trans _ _ _ _ _ Hl3
                     (appended_trans _ _ _ _ _ Hl4 Hl5)))) as H.
    unfold appended in *. rewrite H. by list_eq. }
  split.
  { apply Forall_app. split; [|apply Forall_app; split].
    - eapply Forall_impl; [exact Hk2|]. intros e. apply on_key_not_fs.
    - eapply Forall_impl; [exact Hk3|]. intros e. apply on_key_not_fs.
    - by repeat constructor. }
  split.
  { apply (captured_value_frame _ _ _ [_] l2 (l3 ++ [_])); [|done].
    by repeat constructor. }
  split.
  { change (EvMkdir (parts (_backup_root cfg)) true
            :: l2 ++ l3 ++ [EvRun TASKKILL c])
      with ((EvMkdir (parts (_backup_root cfg)) true :: l2)
            ++ l3 ++ [EvRun TASKKILL c]).
    apply captured_value_frame; [|done].
    constructor; [done|].
    eapply Forall_impl; [exact Hk2|]. intros e.
    by apply on_key_other. }
  split; [done|]. split; [done|].
  rewrite <- Hfs2, <- Hfs3, <- Hfs4. exact Hwr.
Qed.
End PerformanceApply.

Lemma service_not_power e Y : service_of e = Some Y → changes_power e = false.
Proof.
  destruct e as [| | | | | | | |cmd r]; try done.
  destruct cmd as [|exe [|verb [|n rest]]]; try done. cbn.
  destruct (String.eqb_spec exe "sc.exe") as [->|]; [|done]. by destruct rest.
Qed.

Section MaxPerformanceApply.
Context {W : Type} (api : os_api W) (cfg : config).
Import MaxPerformance.

Lemma activate_high_performance_spec h errs w set errs' w' :
  activate_high_performance api h errs w = (Ok (set, errs'), w') →
  w_fs w' = w_fs w
  ∧ (∃ more, errs' = errs ++ more)
  ∧ ∃ l, appended w w' l
         ∧ Forall (λ e, is_run e = true ∧ service_of e = None) l.
Proof.
  unfold activate_high_performance. intros Hrun.
  assert (Hun : ∀ m, ret (false, errs ++ [m]) w = (Ok (set, errs'), w') →
            w_fs w' = w_fs w ∧ (∃ more, errs' = errs ++ more)
            ∧ ∃ l, appended w w' l
                   ∧ Forall (λ e, is_run e = true ∧ service_of e = None) l).
  { intros m Hm. finish Hm. injection H as <- <-. split; [done|].
    split; [by eexists|]. exists []. split; [apply appended_refl|constructor]. }
  destruct h as [guid|]; [|by eapply Hun].
  destruct (PyStr.truthy guid); [|by eapply Hun].
  step Hrun as ok w1 Hset. unfold _set_power_scheme in Hset.
  step Hset as c w2 Hc. finish Hset. apply run_command_run in Hc as [Hfs Hl].
  assert (w' = w1 ∧ ∃ more, errs' = errs ++ more) as [-> Hmore].
  { destruct (returncode c =? 0)%Z; cbn [negb] in Hrun; finish Hrun;
      injection H as <- <-; (split; [done|]);
      [exists []; by rewrite app_nil_r|by eexists]. }
  split; [done|]. split; [done|]. eexists. split; [exact Hl|].
  by repeat constructor.
Qed.

Lemma apply_max_performance_shape w r w' :
  win32 cfg = true →
  apply_max_performance_profile api cfg w = (Ok r, w') →
  ∃ l_svc acc rest pv v t1 more,
    let pre := EvMkdir (parts (_backup_root cfg)) true :: l_svc ++ rest in
    appended w w'
      (pre ++ [EvWriteManifest (parts (_manifest_path (_backup_root cfg)))
                               (max_manifest (service_states acc) pv v) true])
    ∧ svc_loop api (SERVICE_TARGETS.*1) acc0 l_svc acc
    ∧ Forall (λ e, is_fs_event e = false ∧ service_of e = None) rest
    ∧ captured_power api pv pre
    ∧ captured_value Performance.RUN_KEY "OneDrive" v pre
    ∧ services_disabled r = acc_disabled acc
    ∧ indexing_disabled r = acc_indexing acc
    ∧ errors r = acc_errors acc ++ more
    ∧ backup_dir r = Some (_backup_root cfg)
    ∧ FS.mkdir_p (parts (_backup_root cfg)) (w_fs w) = Ok t1
    ∧ FS.write_text (parts (_manifest_path (_backup_root cfg)))
        (FS.JsonDoc (max_manifest (service_states acc) pv v)) t1
      = Ok (w_fs w').
Proof.
  intros Hwin Hrun.
  unfold apply_max_performance_profile, _ensure_windows in Hrun.
  rewrite Hwin in Hrun. cbn [negb] in Hrun.
  step Hrun as u w1 Hmk. apply mkdir_Ok in Hmk as (Hmk & _ & Hl1).
  step Hrun as acc w2 Hsvc.
  apply disable_services_loop in Hsvc as (Hfs2 & l_svc & Hl2 & Hloop).
  step Hrun as prev w3 Hget. unfold _get_active_power_scheme in Hget.
  step Hget as c3 w3' Hc3. finish Hget.
  apply run_command_run in Hc3 as [Hfs3 Hl3].
  step Hrun as high w4 Hfind. unfold _find_high_performance_scheme in Hfind.
  step Hfind as c4 w4' Hc4. finish Hfind.
  apply run_command_run in Hc4 as [Hfs4 Hl4].
  step Hrun as ps w5 Hact. destruct ps as [set errs5].
  apply activate_high_performance_spec in Hact
    as (Hfs5 & (more5 & ->) & l5 & Hl5 & Hk5).
  step Hrun as od w6 Hod. destruct od as [[d v] e6].
  apply disable_onedrive_run_spec in Hod as (Hfs6 & l6 & Hl6 & Hk6 & Hc6).
  step Hrun as st w7 Hst. destruct st as [s e7].
  unfold _stop_onedrive_process in Hst. step Hst as c7 w7' Hc7.
  apply run_command_run in Hc7 as [Hfs7 Hl7].
  assert (w7 = w7') as <-.
  { destruct (returncode c7 =? 0)%Z; [by finish Hst|].
    destruct (PyStr.truthy _); by finish Hst. }
  clear Hst.
  step Hrun as u2 w8 Hwr. apply write_json_Ok in Hwr as (Hwr & _ & Hl8).
  finish Hrun.
  pose (l_get := [EvRun GETACTIVE (Ok c3)]).
  pose (l_tail := EvRun ["powercfg"; "/list"] (Ok c4) :: l5 ++ l6
                  ++ [EvRun ["taskkill"; "/IM"; "OneDrive.exe"; "/F"] (Ok c7)]).
  exists l_svc, acc, (l_get ++ l_tail), (of_option_str (active_scheme_of api c3)),
    v, (w_fs w1), ((more5 ++ e6) ++ e7).
  cbn zeta. split.
  { pose proof (appended_trans _ _ _ _ _ Hl1
                 (appended_trans _ _ _ _ _ Hl2
                   (appended_trans _ _ _ _ _ Hl3
                     (appended_trans _ _ _ _ _ Hl4
                       (appended_trans _ _ _ _ _ Hl5
                         (appended_trans _ _ _ _ _ Hl6
                           (appended_trans _ _ _ _ _ Hl7 Hl8))))))) as H.
    unfold appended in *. rewrite H. unfold l_get, l_tail. by list_eq. }
  split; [exact Hloop|].
  assert (Hsvc_power : Forall (λ e, changes_power e = false) l_svc).
  { eapply Forall_impl; [exact (loop_events _ _ _ _ _ Hloop)|].
    intros e (_ & Y & Hs & _). by eapply service_not_power. }
  assert (Hsvc_value : ∀ key name,
            Forall (λ e, writes_value key name e = false) l_svc).
  { intros key name.
    eapply Forall_impl; [exact (loop_events _ _ _ _ _ Hloop)|].
    intros e (? & _). by apply is_run_not_value. }
  split.
  { unfold l_get, l_tail. cbn [app]. repeat (apply Forall_cons; split; [done|]).
    apply Forall_app. split; [|apply Forall_app; split].
    - eapply Forall_impl; [exact Hk5|]. intros e [? ?].
      split; [by apply is_run_not_fs|done].
    - eapply Forall_impl; [exact Hk6|]. intros e ?.
      split; [by apply (on_key_not_fs Performance.RUN_KEY)|by destruct e].
    - by repeat constructor. }
  split.
  { destruct (active_scheme_of api c3) as [g|] eqn:Eg; [|by left].
    right. exists g, (EvMkdir (parts (_backup_root cfg)) true :: l_svc), c3,
      l_tail.
    split; [done|]. split; [unfold l_get; by list_eq|].
    split; [done|]. by constructor. }
  split.
  { replace (EvMkdir (parts (_backup_root cfg)) true
             :: l_svc ++ l_get ++ l_tail)
      with ((EvMkdir (parts (_backup_root cfg)) true :: l_svc ++ l_get
             ++ EvRun ["powercfg"; "/list"] (Ok c4) :: l5)
            ++ l6 ++ [EvRun ["taskkill"; "/IM"; "OneDrive.exe"; "/F"] (Ok c7)])
      by (unfold l_get, l_tail; list_eq).
    apply captured_value_frame; [|done].
    constructor; [done|]. apply Forall_app. split; [done|].
    unfold l_get. repeat (apply Forall_cons; split; [done|]).
    eapply Forall_impl; [exact Hk5|]. intros e [? _].
    by apply is_run_not_value. }
  split; [done|]. split; [done|].
  split; [cbn; by list_eq|].
  split; [done|]. split; [done|].
  rewrite <- Hfs2, <- Hfs3, <- Hfs4, <- Hfs5, <- Hfs6, <- Hfs7. exact Hwr.
Qed.
End MaxPerformanceApply.

(** ** The file system tree *)

Lemma parts_child p n : parts (child p n) = parts p ++ [n].
Proof. unfold parts, child, anchor. cbn. by destruct (PyStr.truthy _). Qed.

Lemma lookup_put p n t t' :
  FS.put p n t = Some t' → FS.lookup p t' = Some n.
Proof.
  revert t t'. induction p as [|c p IH]; intros t t'; cbn.
  - by intros [= ->].
  - destruct t as [|ents]; [done|].
    destruct (ents !! c) as [tc|] eqn:Ec.
    + destruct (FS.put p n tc) as [tc'|] eqn:Ep; [|done].
      intros [= <-]. cbn. rewrite lookup_insert_eq. by eapply IH.
    + destruct p; [|done]. intros [= <-]. cbn. by rewrite lookup_insert_eq.
Qed.

Lemma write_then_read p c t t' :
  FS.write_text p c t = Ok t' → FS.read_text p t' = Ok c.
Proof.
  unfold FS.write_text, FS.read_text. intros H.
  assert (FS.put p (FS.File c) t = Some t') as Hput.
  { destruct (FS.lookup p t) as [[]|]; try done;
      destruct (FS.put p (FS.File c) t); by inversion H. }
  by rewrite (lookup_put _ _ _ _ Hput).
Qed.

Lemma mkdir_p_is_dir p t t' :
  FS.mkdir_p p t = Ok t' → FS.is_dir p t' = true.
Proof.
  unfold FS.is_dir. revert t t'. induction p as [|c p IH]; intros t t'.
  - destruct t; cbn; [done|]. by intros [= <-].
  - destruct t as [|ents]; cbn; [done|].
    destruct (FS.mkdir_p p _) as [tc|] eqn:Ep; [|done].
    intros [= <-]. cbn. rewrite lookup_insert_eq. by eapply IH.
Qed.

Lemma put_below_keeps_dir p q n t t' :
  q ≠ [] → FS.put (p ++ q) n t = Some t' →
  FS.is_dir p t = true → FS.is_dir p t' = true.
Proof.
  unfold FS.is_dir. intros Hq. revert t t'.
  induction p as [|c p IH]; intros t t'; cbn.
  - destruct q as [|c q]; [done|]. destruct t as [|ents]; [done|]. cbn.
    destruct (ents !! c); [destruct (FS.put q n _); [|done]|destruct q; [|done]];
      by intros [= <-].
  - destruct t as [|ents]; [done|].
    destruct (ents !! c) as [tc|] eqn:Ec; [|done].
    destruct (FS.put (p ++ q) n tc) as [tc'|] eqn:Ep; [|done].
    intros [= <-]. cbn. rewrite lookup_insert_eq. by eapply IH.
Qed.

Lemma write_below_keeps_dir p name c t t' :
  FS.write_text (p ++ [name]) c t = Ok t' →
  FS.is_dir p t = true → FS.is_dir p t' = true.
Proof.
  unfold FS.write_text. intros H.
  assert (FS.put (p ++ [name]) (FS.File c) t = Some t') as Hput.
  { destruct (FS.lookup _ t) as [[]|]; try done;
      destruct (FS.put _ (FS.File c) t); by inversion H. }
  by apply (put_below_keeps_dir p [name] (FS.File c) t t').
Qed.

(** ** The manifest of an apply call *)







(** ** MaxPerformance: the result of an apply *)




(** C10.  In the result of a MaxPerformance apply call, the indexing flag
    is set exactly when "WSearch" is among the services reported disabled. *)
Theorem indexing_flag_iff_wsearch_disabled
    {W} (api : os_api W) (cfg : config) (w : world W) r w' :
  MaxPerformance.apply_max_performance_profile api cfg w = (Ok r, w') →
  MaxPerformance.indexing_disabled r = true
  ↔ "WSearch" ∈ MaxPerformance.services_disabled r.
Proof.
  intros Hrun. destruct (win32 cfg) eqn:Hwin.
  - apply apply_max_performance_shape in Hrun
      as (l_svc & acc & rest & pv & v & t1 & more & _ & Hloop & _ & _ & _
          & -> & -> & _); [|done].
    eapply loop_indexing; [exact Hloop|]. cbn. split; [done|].
    by intros ?%elem_of_nil.
  - unfold MaxPerformance.apply_max_performance_profile,
      MaxPerformance._ensure_windows in Hrun.
    rewrite Hwin in Hrun. cbn in Hrun. injection Hrun as <- _. cbn.
    split; [done|]. by intros ?%elem_of_nil.
Qed.

Lemma indexing_flag_witness :
  ∃ r w',
    MaxPerformance.apply_max_performance_profile Sim.api Sim.win_cfg
      (Sim.boot Sim.win_fs Sim.win_os) = (Ok r, w')
    ∧ MaxPerformance.indexing_disabled r = true
    ∧ "WSearch" ∈ MaxPerformance.services_disabled r.
Proof.
  destruct (MaxPerformance.apply_max_performance_profile Sim.api Sim.win_cfg
              (Sim.boot Sim.win_fs Sim.win_os)) as [[r|e] w'] eqn:E;
    [|vm_compute in E; discriminate].
  exists r, w'. split; [reflexivity|].
  pose proof (indexing_flag_iff_wsearch_disabled _ _ _ _ _ E) as Hiff.
  assert (MaxPerformance.indexing_disabled r = true) as Hflag.
  { vm_compute in E. by injection E as <- _. }
  split; [exact Hflag|]. by apply Hiff.
Defined.


(** ** Programs that do not look at the file system *)

Section Blind.
Context {W : Type}.

Lemma world_eta (w : world W) : mkWorld (w_fs w) (w_os w) (w_log w) = w.
Proof. by destruct w. Qed.

Lemma blind_ret {A} (a : A) : fs_blind (ret (W:=W) a).
Proof.
  intros w1 w2 Hos. exists (Ok a), (w_os w1), []. unfold ret.
  rewrite !app_nil_r, world_eta, Hos, world_eta. done.
Qed.

Lemma blind_raise {A} e : fs_blind (raise (W:=W) (A:=A) e).
Proof.
  intros w1 w2 Hos. exists (Raise e), (w_os w1), []. unfold raise.
  rewrite !app_nil_r, world_eta, Hos, world_eta. done.
Qed.

Lemma blind_os_call {A} (f : W → outcome A * W) ev : fs_blind (os_call f ev).
Proof.
  intros w1 w2 Hos. unfold os_call. rewrite <- Hos.
  destruct (f (w_os w1)) as [r o]. by exists r, o, [ev r].
Qed.

Lemma blind_attempt {A} (m : M W A) : fs_blind m → fs_blind (attempt m).
Proof.
  intros Hm w1 w2 Hos. destruct (Hm w1 w2 Hos) as (r & o & l & E1 & E2).
  exists (Ok r), o, l. unfold attempt. rewrite E1, E2. by destruct r.
Qed.

Lemma blind_bind {A B} (m : M W A) (k : A → M W B) :
  fs_blind m → (∀ a, fs_blind (k a)) → fs_blind (bind m k).
Proof.
  intros Hm Hk w1 w2 Hos. destruct (Hm w1 w2 Hos) as (r & o & l & E1 & E2).
  unfold bind. rewrite E1, E2. destruct r as [a|e].
  - destruct (Hk a (mkWorld (w_fs w1) o (w_log w1 ++ l))
                   (mkWorld (w_fs w2) o (w_log w2 ++ l)) eq_refl)
      as (r' & o' & l' & E1' & E2').
    exists r', o', (l ++ l'). cbn in *. rewrite E1', E2'.
    by rewrite !app_assoc.
  - by exists (Raise e), o, l.
Qed.

Lemma blind_same_fs {A} (m : M W A) w r w' :
  fs_blind m → m w = (r, w') → w_fs w' = w_fs w.
Proof.
  intros Hm Hrun. destruct (Hm w w eq_refl) as (r' & o & l & E & _).
  rewrite E in Hrun. by injection Hrun as _ <-.
Qed.
End Blind.

Ltac blind :=
  repeat first
    [ apply blind_ret | apply blind_raise | apply blind_os_call
    | apply blind_attempt | apply blind_bind; [|intros ?]
    | match goal with
      | |- fs_blind (match ?x with _ => _ end) => destruct x
      | |- fs_blind (if ?b then _ else _) => destruct b
      end ].

Section BlindHelpers.
Context {W : Type} (api : os_api W).

Lemma blind_restore_onedrive_run v :
  fs_blind (Performance._restore_onedrive_run api v).
Proof.
  unfold Performance._restore_onedrive_run, OpenKey, DeleteValue, SetValueEx.
  blind.
Qed.

Lemma blind_restore_background_apps v :
  fs_blind (Performance._restore_background_apps api v).
Proof.
  unfold Performance._restore_background_apps, CreateKey, DeleteValue,
    SetValueEx.
  blind.
Qed.

Lemma blind_manifest_get manifest key :
  fs_blind (manifest_get (W:=W) manifest key).
Proof. unfold manifest_get. blind. Qed.

Lemma blind_set_service_start_type name ty :
  fs_blind (MaxPerformance._set_service_start_type api name ty).
Proof.
  unfold MaxPerformance._set_service_start_type, MaxPerformance._run_command,
    run.
  blind.
Qed.

Lemma blind_start_service name :
  fs_blind (MaxPerformance._start_service api name).
Proof.
  unfold MaxPerformance._start_service, MaxPerformance._run_command, run.
  blind.
Qed.

Lemma blind_set_power_scheme g :
  fs_blind (MaxPerformance._set_power_scheme api g).
Proof.
  unfold MaxPerformance._set_power_scheme, MaxPerformance._run_command, run.
  blind.
Qed.

Lemma blind_restore_services items :
  ∀ errs, fs_blind (MaxPerformance.restore_services api items errs).
Proof.
  induction items as [|[name state] items IH]; intros errs;
    cbn [MaxPerformance.restore_services]; [apply blind_ret|].
  destruct state; try apply IH.
  apply blind_bind.
  - destruct (dict_get "start_type" kvs); try apply blind_ret.
    apply blind_bind; [apply blind_set_service_start_type|].
    intros ok. destruct (negb ok); apply blind_ret.
  - intros errs'. apply blind_bind; [|intros _; apply IH].
    destruct (is_true _); [apply blind_start_service|apply blind_ret].
Qed.
End BlindHelpers.

(** ** What a restore reads in a manifest *)


Section RestoreViews.
Context {W : Type} (api : os_api W) (cfg : config).


Lemma read_manifest_same (m : Path → M W value) d w r w' :
  m = Performance._read_manifest ∨ m = MaxPerformance._read_manifest
  ∨ m = Cleanup._read_manifest →
  m d w = (r, w') → w' = w.
Proof.
  intros [->|[->| ->]];
    unfold Performance._read_manifest, MaxPerformance._read_manifest,
      Cleanup._read_manifest, bind, exists_;
    (destruct (FS.exists_ _ _); [apply read_json_same|by intros [= _ <-]]).
Qed.

Lemma restore_performance_by_view w d kvs :
  win32 cfg = true →
  latest_session (Performance.backups_root cfg) w = (Ok (Some d), w) →
  Performance._read_manifest d w = (Ok (VDict kvs), w) →
  kvs ≠ [] →
  Performance.restore_latest_performance api cfg w
  = performance_restore_by_view api (performance_view kvs) d w.
Proof.
  intros Hwin Hlatest Hread Hne.
  unfold Performance.restore_latest_performance, Performance._ensure_windows.
  rewrite Hwin. cbn [negb]. unfold bind at 1. rewrite Hlatest.
  unfold bind at 1. rewrite Hread.
  destruct kvs as [|kv kvs]; [done|]. cbn [truthy negb].
  unfold performance_restore_by_view, performance_view, as_str, as_int.
  cbn [manifest_get fst snd]. unfold bind, ret.
  destruct (is_str _), (is_int _); reflexivity.
Qed.

Lemma restore_services_by_view items :
  ∀ errs w,
    MaxPerformance.restore_services api items errs w
    = restore_by_records api (services_view (VDict items)) errs w.
Proof.
  induction items as [|[name state] items IH]; intros errs w; [done|].
  cbn [MaxPerformance.restore_services services_view fmap list_fmap
         List.filter fst snd].
  change (List.filter (λ e, record_used e.2)
            ((λ kv, (kv.1, record_view kv.2)) <$> items))
    with (services_view (VDict items)).
  destruct state as [| | | | | |fields];
    try (cbn [record_view record_used fst snd is_none negb orb]; apply IH).
  cbn [record_view].
  destruct (dict_get "start_type" fields) as [| | | |s| |] eqn:Est;
    destruct (is_true (dict_get "was_running" fields)) eqn:Erun;
    cbn [as_str is_str record_used fst snd is_none negb orb
         restore_by_records];
    unfold restore_record, bind, ret; cbn [fst snd];
    try apply IH;
    repeat match goal with
      | |- context [match ?m ?w with _ => _ end] =>
          destruct (m w) as [[?|?] ?]; try reflexivity
      | |- context [if negb ?b then _ else _] => destruct b; cbn [negb]
      end;
    try apply IH; try reflexivity.
Qed.



Lemma bind_ext {A B} (m m' : M W A) (k : A → M W B) w :
  m w = m' w → bind m k w = bind m' k w.
Proof. unfold bind. by intros ->. Qed.

Lemma restore_max_by_view w d kvs :
  win32 cfg = true →
  latest_session (MaxPerformance.backups_root cfg) w = (Ok (Some d), w) →
  MaxPerformance._read_manifest d w = (Ok (VDict kvs), w) →
  kvs ≠ [] →
  MaxPerformance.restore_latest_max_performance api cfg w
  = max_restore_by_view api (max_view kvs) d w.
Proof.
  intros Hwin Hlatest Hread Hne.
  unfold MaxPerformance.restore_latest_max_performance,
    MaxPerformance._ensure_windows.
  rewrite Hwin. cbn [negb]. unfold bind at 1. rewrite Hlatest.
  unfold bind at 1. rewrite Hread.
  destruct kvs as [|kv kvs]; [done|]. cbn [truthy negb].
  unfold max_restore_by_view, max_view. cbn [manifest_get fst snd].
  unfold bind at 1. unfold ret at 1.
  etransitivity.
  { apply bind_ext.
    instantiate (1 := restore_by_records api
                        (services_view (dict_get "services" (kv :: kvs))) []).
    destruct (dict_get "services" (kv :: kvs)); try reflexivity.
    apply restore_services_by_view. }
  unfold bind. destruct (restore_by_records api _ _ w) as [[errs|e] w1]; [|done].
  cbv beta iota delta [ret as_str].
  destruct (dict_get "power_scheme" (kv :: kvs)); cbn [is_str];
    destruct (is_str (dict_get "onedrive_run_value" (kv :: kvs)));
    reflexivity.
Qed.
End RestoreViews.


(** ** The latest session *)


#[local] Instance name_order_trans : Transitive (λ a b : string, String.le b a).
Proof. intros a b c Hab Hbc. by etrans. Qed.

#[local] Instance name_order_total : Total (λ a b : string, String.le b a).
Proof. intros a b. destruct (total String.le a b); auto. Qed.





(** ** Cleanup: nothing to restore *)



(** ** Cleanup: scanned = moved + failed *)

Lemma count_moves_split l :
  count is_move l = count is_move_ok l + count is_move_refused l.
Proof.
  unfold count. induction l as [|e l IH]; [done|].
  destruct e as [| ? ? []| | | | | | |]; cbn; lia.
Qed.

(** C9.  In the result of a Cleanup apply or restore call, scanned =
    moved + failed: scanned counts the move attempts of the call, moved
    those that succeeded and failed those that were refused; a skipped
    target adds no move attempt, hence nothing to scanned. *)
Theorem cleanup_scanned_is_moved_plus_failed
    {W} (api : os_api W) (cfg : config) (w : world W) r w' :
  Cleanup.safe_cleanup api cfg w = (Ok r, w')
  ∨ Cleanup.restore_latest_backup api cfg w = (Ok r, w') →
  Cleanup.scanned r = Cleanup.moved r + Cleanup.failed r
  ∧ ∃ l, appended w w' l
         ∧ Cleanup.scanned r = count is_move l
         ∧ Cleanup.moved r = count is_move_ok l
         ∧ Cleanup.failed r = count is_move_refused l.
Proof.
  assert (Hgoal : ∀ l, appended w w' l →
            counts Cleanup.tally0
              (Cleanup.mkTally (Cleanup.scanned r) (Cleanup.moved r)
                 (Cleanup.failed r) (Cleanup.skipped r) (Cleanup.errors r)) l →
            Cleanup.scanned r = Cleanup.moved r + Cleanup.failed r
            ∧ ∃ l, appended w w' l
                   ∧ Cleanup.scanned r = count is_move l
                   ∧ Cleanup.moved r = count is_move_ok l
                   ∧ Cleanup.failed r = count is_move_refused l).
  { intros l Hl (H1 & H2 & H3). cbn in *. split.
    - rewrite H1, H2, H3. apply count_moves_split.
    - by exists l. }
  intros [Hrun|Hrun].
  - unfold Cleanup.safe_cleanup in Hrun.
    step Hrun as ms w1 Hsweep. destruct ms as [mapping st].
    apply sweep_counts in Hsweep as (l & Hl & Hc).
    destruct (_ && _).
    + finish Hrun. by apply (Hgoal l).
    + step Hrun as u w2 Hwr. apply write_json_Ok in Hwr as (_ & _ & Hl2).
      finish Hrun. eapply Hgoal.
      * exact (appended_trans _ _ _ _ _ Hl Hl2).
      * eapply counts_trans; [exact Hc|]. unfold counts, count. cbn. lia.
  - unfold Cleanup.restore_latest_backup in Hrun.
    step Hrun as latest w1 Hlatest. apply latest_session_same in Hlatest as ->.
    destruct latest as [d|].
    2:{ finish Hrun. apply (Hgoal []); [apply appended_refl|by unfold counts, count]. }
    step Hrun as manifest w1 Hread.
    apply (read_manifest_same Cleanup._read_manifest) in Hread as ->; [|auto].
    destruct (negb (truthy manifest)).
    { finish Hrun. apply (Hgoal []); [apply appended_refl|by unfold counts, count]. }
    destruct manifest; try finish Hrun.
    step Hrun as st w1 Hloop.
    apply restore_entries_counts in Hloop as (l & Hl & Hc).
    finish Hrun. by apply (Hgoal l).
Qed.

Lemma cleanup_scanned_witness :
  ∃ r w',
    Cleanup.safe_cleanup Sim.api two_files_cfg two_files = (Ok r, w')
    ∧ Cleanup.scanned r = Cleanup.moved r + Cleanup.failed r
    ∧ Cleanup.scanned r = 2.
Proof.
  destruct (Cleanup.safe_cleanup Sim.api two_files_cfg two_files)
    as [[r|e] w'] eqn:E; [|vm_compute in E; discriminate].
  exists r, w'. split; [reflexivity|].
  destruct (cleanup_scanned_is_moved_plus_failed Sim.api two_files_cfg
              two_files r w' (or_introl E)) as [Hsum _].
  split; [exact Hsum|]. vm_compute in E. by injection E as <- _.
Defined.

(** ** The platform guard *)

(** C3 (as amended).  On a platform that is not Windows the apply and the
    restore of Performance and of MaxPerformance return at once the
    platform-unsupported result (every flag false, no service, no backup
    directory, one message) and leave file system, operating system and log
    as they were. *)
Theorem guarded_engines_stop_off_windows
    {W} (api : os_api W) (cfg : config) (w : world W) :
  win32 cfg = false →
  Performance.apply_performance_profile api cfg w
  = (Ok performance_unsupported, w)
  ∧ Performance.restore_latest_performance api cfg w
    = (Ok performance_unsupported, w)
  ∧ MaxPerformance.apply_max_performance_profile api cfg w
    = (Ok max_unsupported, w)
  ∧ MaxPerformance.restore_latest_max_performance api cfg w
    = (Ok max_unsupported, w).
Proof.
  intros Hwin.
  unfold Performance.apply_performance_profile,
    Performance.restore_latest_performance,
    MaxPerformance.apply_max_performance_profile,
    MaxPerformance.restore_latest_max_performance,
    Performance._ensure_windows, MaxPerformance._ensure_windows.
  rewrite Hwin. done.
Qed.

Lemma guarded_engines_witness :
  Performance.apply_performance_profile Sim.api two_files_cfg two_files
  = (Ok performance_unsupported, two_files)
  ∧ MaxPerformance.restore_latest_max_performance Sim.api two_files_cfg
      two_files
    = (Ok max_unsupported, two_files).
Proof.
  destruct (guarded_engines_stop_off_windows Sim.api two_files_cfg two_files
              eq_refl) as (H1 & _ & _ & H4).
  split; [exact H1 | exact H4].
Defined.

(** C3 as stated fails for Cleanup, which has no platform guard: off
    Windows its apply sweeps the temp directory, and its restore reports a
    skipped target. *)
Lemma cleanup_runs_off_windows :
  win32 two_files_cfg = false
  ∧ ¬ cleanup_guarded (Cleanup.safe_cleanup Sim.api two_files_cfg) two_files
  ∧ ¬ cleanup_guarded (Cleanup.restore_latest_backup Sim.api two_files_cfg)
        two_files.
Proof.
  split; [done|]. split; intros (r & Hrun & H).
  - apply (f_equal (λ x, match x.1 with
                         | Ok r => Cleanup.moved r
                         | Raise _ => 0
                         end)) in Hrun.
    destruct H as (_ & H & _). cbn [fst] in Hrun. rewrite H in Hrun.
    vm_compute in Hrun. discriminate.
  - apply (f_equal (λ x, match x.1 with
                         | Ok r => Cleanup.skipped r
                         | Raise _ => 0
                         end)) in Hrun.
    destruct H as (_ & _ & _ & H & _). cbn [fst] in Hrun. rewrite H in Hrun.
    vm_compute in Hrun. discriminate.
Qed.

(** ** Where session directories come from *)

Section Keep.
Context {W : Type}.

Lemma keep_blind {A} (m : M W A) : fs_blind m → fs_keep m.
Proof. intros Hm w r w' Hrun. by eapply blind_same_fs. Qed.

Lemma keep_bind {A B} (m : M W A) (k : A → M W B) :
  fs_keep m → (∀ a, fs_keep (k a)) → fs_keep (bind m k).
Proof.
  intros Hm Hk w r w'. unfold bind.
  destruct (m w) as [[a|e] w1] eqn:E.
  - intros Hrun. rewrite (Hk _ _ _ _ Hrun). by eapply Hm.
  - intros [= _ <-]. by eapply Hm.
Qed.

Lemma keep_ret {A} (a : A) : fs_keep (ret (W:=W) a).
Proof. by intros w r w' [= _ <-]. Qed.

Lemma keep_latest_session root : fs_keep (latest_session (W:=W) root).
Proof. intros w r w' Hrun. by apply latest_session_same in Hrun as ->. Qed.

Lemma keep_read_manifest (m : Path → M W value) d :
  m = Performance._read_manifest ∨ m = MaxPerformance._read_manifest
  ∨ m = Cleanup._read_manifest →
  fs_keep (m d).
Proof.
  intros Hm w r w' Hrun. by apply (read_manifest_same m) in Hrun as ->.
Qed.
End Keep.

Section SessionDirectories.
Context {W : Type} (api : os_api W) (cfg : config).

Lemma keep_restore_performance :
  fs_keep (Performance.restore_latest_performance api cfg).
Proof.
  unfold Performance.restore_latest_performance, Performance._ensure_windows.
  destruct (win32 cfg); cbn [negb]; [|apply keep_ret].
  apply keep_bind; [apply keep_latest_session|]. intros [d|]; [|apply keep_ret].
  apply keep_bind; [apply keep_read_manifest; auto|]. intros manifest.
  destruct (negb (truthy manifest)); [apply keep_ret|].
  apply keep_blind.
  apply blind_bind; [apply blind_manifest_get|intros v1].
  apply blind_bind; [apply blind_manifest_get|intros v2].
  apply blind_bind; [apply blind_restore_onedrive_run|intros e1].
  apply blind_bind; [apply blind_restore_background_apps|intros e2].
  apply blind_ret.
Qed.

Lemma keep_restore_max_performance :
  fs_keep (MaxPerformance.restore_latest_max_performance api cfg).
Proof.
  unfold MaxPerformance.restore_latest_max_performance,
    MaxPerformance._ensure_windows.
  destruct (win32 cfg); cbn [negb]; [|apply keep_ret].
  apply keep_bind; [apply keep_latest_session|]. intros [d|]; [|apply keep_ret].
  apply keep_bind; [apply keep_read_manifest; auto|]. intros manifest.
  destruct (negb (truthy manifest)); [apply keep_ret|].
  apply keep_blind.
  apply blind_bind; [apply blind_manifest_get|intros services].
  apply blind_bind.
  { destruct services; try apply blind_ret. apply blind_restore_services. }
  intros errs. apply blind_bind; [apply blind_manifest_get|intros scheme].
  apply blind_bind.
  { destruct scheme; try apply blind_ret.
    apply blind_bind; [apply blind_set_power_scheme|].
    intros ok. destruct (negb ok); apply blind_ret. }
  intros errs'. apply blind_bind; [apply blind_manifest_get|intros v].
  apply blind_bind; [apply blind_restore_onedrive_run|intros e].
  apply blind_ret.
Qed.

Lemma sweep_unusable temp_dirs :
  ∀ mapping st w,
    (∀ t, t ∈ temp_dirs → usable api t w = false) →
    ∃ st',
      Cleanup.sweep api cfg (Cleanup._build_backup_root cfg) temp_dirs
        mapping st w = (Ok (mapping, st'), w)
      ∧ Cleanup.t_moved st' = Cleanup.t_moved st
      ∧ Cleanup.t_failed st' = Cleanup.t_failed st.
Proof.
  induction temp_dirs as [|t rest IH]; intros mapping st w Hun;
    cbn [Cleanup.sweep]; [by exists st|].
  pose proof (Hun t ltac:(by left)) as Ht. unfold usable in Ht.
  assert (Hrest : ∀ t', t' ∈ rest → usable api t' w = false)
    by (intros t' ?; apply Hun; by right).
  unfold bind at 1. unfold exists_ at 1.
  destruct (FS.exists_ (parts t) (w_fs w)); cbn [negb].
  - unfold bind at 1. unfold access at 1. cbn in Ht. rewrite Ht. cbn [negb].
    destruct (IH mapping
                (Cleanup.add_error
                   ("Accès refusé: " +:+ str (win32 cfg) t)
                   (Cleanup.add_skipped st)) w Hrest) as (st' & -> & ? & ?).
    by exists st'.
  - destruct (IH mapping (Cleanup.add_skipped st) w Hrest)
      as (st' & -> & ? & ?).
    by exists st'.
Qed.

Lemma sweep_first_usable temp_dirs :
  ∀ mapping st w res w' l t,
    t ∈ temp_dirs → usable api t w = true →
    Cleanup.sweep api cfg (Cleanup._build_backup_root cfg) temp_dirs
      mapping st w = (Ok res, w') →
    appended w w' l →
    ∃ t0, t0 ∈ temp_dirs ∧ EvMkdir (parts (session_subdir cfg t0)) true ∈ l.
Proof.
  induction temp_dirs as [|t0 rest IH];
    intros mapping st w res w' l t Ht Hus Hrun Hl; [by apply elem_of_nil in Ht|].
  cbn [Cleanup.sweep] in Hrun.
  destruct (usable api t0 w) eqn:E0.
  - exists t0. split; [by left|].
    unfold usable in E0. apply andb_true_iff in E0 as [Ex Ea].
    step Hrun as e w1 Hex. rewrite Ex in Hrun. cbn [negb] in Hrun.
    step Hrun as a w1 Hacc. rewrite Ea in Hrun. cbn [negb] in Hrun.
    step Hrun as u w1 Hmk. apply mkdir_Ok in Hmk as (_ & _ & Hl1).
    step Hrun as entries w2 Hit. apply iterdir_same in Hit as ->.
    step Hrun as st2 w3 Hmv.
    apply move_entries_counts in Hmv as (l2 & Hl2 & _).
    destruct res as [mapping' st'].
    apply sweep_counts in Hrun as (l3 & Hl3 & _).
    pose proof (appended_trans _ _ _ _ _ Hl1
                  (appended_trans _ _ _ _ _ Hl2 Hl3)) as Hall.
    unfold appended in *. rewrite Hl in Hall. apply app_inv_head in Hall.
    rewrite Hall. by left.
  - assert (t ∈ rest) as Hin.
    { apply elem_of_cons in Ht as [->|?]; [congruence|done]. }
    assert (∃ st1, Cleanup.sweep api cfg (Cleanup._build_backup_root cfg)
                     rest mapping st1 w = (Ok res, w')) as [st1 Hrest].
    { unfold usable in E0. step Hrun as e w1 Hex.
      destruct (FS.exists_ (parts t0) (w_fs w)); cbn [negb] in Hrun;
        [|by eexists].
      step Hrun as a w1 Hacc. cbn in E0. rewrite E0 in Hrun.
      cbn [negb] in Hrun. by eexists. }
    destruct (IH _ _ _ _ _ _ _ Hin Hus Hrest Hl) as (t1 & ? & ?).
    exists t1. split; [by right|done].
Qed.

(** The log of the two Cleanup loops. *)
Lemma move_entries_moves destination entries :
  ∀ st w st' w' l,
    Cleanup.move_entries api cfg destination entries st w = (Ok st', w') →
    appended w w' l → Forall (λ e, is_move e = true) l.
Proof.
  induction entries as [|entry rest IH]; intros st w st' w' l Hrun Hl;
    cbn [Cleanup.move_entries] in Hrun.
  - finish Hrun. unfold appended in Hl.
    rewrite <- (app_nil_r (w_log w')) in Hl at 1.
    apply app_inv_head in Hl as <-. constructor.
  - step Hrun as r w1 Hmove.
    apply fs_update_run in Hmove as (_ & Hlog & _).
    assert (∃ st1, Cleanup.move_entries api cfg destination rest st1 w1
                   = (Ok st', w')) as [st1 Hrest].
    { destruct r as [[]|exc]; [by eexists|].
      destruct (is_OSError exc); [by eexists|finish Hrun]. }
    destruct (move_entries_counts _ _ _ _ _ _ _ _ Hrest) as (l2 & Hl2 & _).
    pose proof (IH _ _ _ _ _ Hrest Hl2) as Hall.
    pose proof (appended_trans _ _ _ _ _ Hlog Hl2) as Hjoin.
    unfold appended in *. rewrite Hl in Hjoin. apply app_inv_head in Hjoin.
    rewrite Hjoin. by constructor.
Qed.

Lemma restore_entries_log latest_backup items :
  ∀ st w st' w' l,
    Cleanup.restore_entries api cfg latest_backup items st w = (Ok st', w') →
    appended w w' l → Forall (restores_into cfg items) l.
Proof.
  induction items as [|[backup_name destination_str] rest IH];
    intros st w st' w' l Hrun Hl; cbn [Cleanup.restore_entries] in Hrun.
  - finish Hrun. unfold appended in Hl.
    rewrite <- (app_nil_r (w_log w')) in Hl at 1.
    apply app_inv_head in Hl as <-. constructor.
  - assert (Hweaken : ∀ l0, Forall (restores_into cfg rest) l0 →
              Forall (restores_into cfg ((backup_name, destination_str) :: rest)) l0).
    { intros l0 H0. eapply Forall_impl; [exact H0|].
      intros e [? H]. split; [done|].
      intros p ok Hp. destruct (H p ok Hp) as (name & s & ? & ?).
      exists name, s. split; [by right|done]. }
    destruct destination_str as [| | | |s| |]; try finish Hrun.
    step Hrun as e w1 Hex.
    destruct (FS.exists_ _ _); cbn [negb] in Hrun.
    2:{ apply Hweaken. by eapply IH. }
    step Hrun as de w0 Hex2.
    step Hrun as r w1 Hmk.
    assert (∃ l0, appended w w1 l0
                  ∧ Forall (restores_into cfg ((backup_name, VStr s) :: rest)) l0)
      as (l0 & Hl0 & Hall0).
    { destruct (FS.exists_ _ _); cbn [negb] in Hmk.
      - finish Hmk. exists []. split; [apply appended_refl|constructor].
      - apply attempt_Ok in Hmk.
        apply fs_update_run in Hmk as (_ & Hlog & _).
        eexists. split; [exact Hlog|]. constructor; [|constructor].
        split; [done|]. intros p ok [= <- _].
        exists backup_name, s. split; [by left|done]. }
    assert (∃ l1, appended w1 w' l1
                  ∧ Forall (restores_into cfg ((backup_name, VStr s) :: rest)) l1)
      as (l1 & Hl1 & Hall1).
    { destruct r as [[]|exc].
      - step Hrun as entries w2 Hit. apply iterdir_same in Hit as ->.
        step Hrun as st2 w3 Hmv.
        destruct (move_entries_counts _ _ _ _ _ _ _ _ Hmv) as (l2 & Hl2 & _).
        pose proof (move_entries_moves _ _ _ _ _ _ _ Hmv Hl2) as Hmoves.
        destruct (restore_entries_counts _ _ _ _ _ _ _ _ Hrun)
          as (l3 & Hl3 & _).
        exists (l2 ++ l3). split; [exact (appended_trans _ _ _ _ _ Hl2 Hl3)|].
        apply Forall_app. split.
        + eapply Forall_impl; [exact Hmoves|]. intros e He.
          split; [by destruct e|]. intros p ok ->. done.
        + apply Hweaken. by eapply IH.
      - destruct (is_OSError exc); [|finish Hrun].
        destruct (restore_entries_counts _ _ _ _ _ _ _ _ Hrun)
          as (l3 & Hl3 & _).
        exists l3. split; [done|]. apply Hweaken. by eapply IH. }
    pose proof (appended_trans _ _ _ _ _ Hl0 Hl1) as Hjoin.
    unfold appended in *. rewrite Hl in Hjoin. apply app_inv_head in Hjoin.
    rewrite Hjoin. by apply Forall_app.
Qed.
End SessionDirectories.

(** C4 (as amended).  A Performance or MaxPerformance apply call that
    passes the platform guard makes its session directory first, before any
    mutation is attempted and whether or not one succeeds.  A Cleanup apply
    call makes nothing when no target directory is usable, and makes the
    session directory, with the sub-directory of the target, as soon as one
    is, whether or not anything is then moved.  A restore call makes no
    session directory: the Performance and MaxPerformance restores leave
    the file system as it is, and a Cleanup restore writes no manifest and
    makes no directory but a destination named in the manifest. *)
Theorem session_directory_creation
    {W} (api : os_api W) (cfg : config) (w : world W) :
  (win32 cfg = true → ∀ r w',
     Performance.apply_performance_profile api cfg w = (Ok r, w') →
     session_made_first w w' (Performance._backup_root cfg)
     ∧ Performance.backup_dir r = Some (Performance._backup_root cfg))
  ∧ (win32 cfg = true → ∀ r w',
       MaxPerformance.apply_max_performance_profile api cfg w = (Ok r, w') →
       session_made_first w w' (MaxPerformance._backup_root cfg)
       ∧ MaxPerformance.backup_dir r = Some (MaxPerformance._backup_root cfg))
  ∧ ((∀ t, t ∈ Cleanup._collect_temp_dirs cfg → usable api t w = false) →
     ∃ r, Cleanup.safe_cleanup api cfg w = (Ok r, w)
          ∧ Cleanup.backup_dir r = None)
  ∧ (∀ t r w' l,
       t ∈ Cleanup._collect_temp_dirs cfg → usable api t w = true →
       Cleanup.safe_cleanup api cfg w = (Ok r, w') → appended w w' l →
       ∃ t0, t0 ∈ Cleanup._collect_temp_dirs cfg
             ∧ EvMkdir (parts (session_subdir cfg t0)) true ∈ l)
  ∧ (∀ r w', Performance.restore_latest_performance api cfg w = (r, w') →
             w_fs w' = w_fs w)
  ∧ (∀ r w', MaxPerformance.restore_latest_max_performance api cfg w = (r, w') →
             w_fs w' = w_fs w)
  ∧ (∀ r w' l,
       Cleanup.restore_latest_backup api cfg w = (Ok r, w') →
       appended w w' l →
       l = []
       ∨ ∃ d items,
           latest_session (Cleanup.backups_root cfg) w = (Ok (Some d), w)
           ∧ Cleanup._read_manifest d w = (Ok (VDict items), w)
           ∧ Forall (restores_into cfg items) l).
Proof.
  split; [|split; [|split; [|split; [|split; [|split]]]]].
  - intros Hwin r w' Hrun.
    apply apply_performance_shape in Hrun
      as (l & v1 & v2 & t1 & Hl & _ & _ & _ & Hb & Hmk & Hwr); [|done].
    split; [|done]. split.
    + eexists. exact Hl.
    + unfold Performance._manifest_path in Hwr. rewrite parts_child in Hwr.
      eapply write_below_keeps_dir; [exact Hwr|]. by eapply mkdir_p_is_dir.
  - intros Hwin r w' Hrun.
    apply apply_max_performance_shape in Hrun
      as (l_svc & acc & rest & pv & v & t1 & more & Hl & _ & _ & _ & _ & _
          & _ & _ & Hb & Hmk & Hwr); [|done].
    cbn zeta in Hl. split; [|done]. split.
    + eexists. exact Hl.
    + unfold MaxPerformance._manifest_path in Hwr. rewrite parts_child in Hwr.
      eapply write_below_keeps_dir; [exact Hwr|]. by eapply mkdir_p_is_dir.
  - intros Hun. unfold Cleanup.safe_cleanup.
    destruct (sweep_unusable api cfg _ [] Cleanup.tally0 w Hun)
      as (st & Hsweep & Hm & Hf).
    unfold bind. rewrite Hsweep. rewrite Hm, Hf. cbn. by eexists.
  - intros t r w' l Ht Hus Hrun Hl. unfold Cleanup.safe_cleanup in Hrun.
    step Hrun as ms w1 Hsweep.
    destruct (sweep_counts _ _ _ _ _ _ _ _ _ _
                (eq_trans Hsweep (f_equal (λ x, (Ok x, w1))
                                          (surjective_pairing ms))))
      as (l1 & Hl1 & _).
    destruct (sweep_first_usable api cfg _ _ _ _ _ _ _ _ Ht Hus Hsweep Hl1)
      as (t0 & Ht0 & Hin).
    exists t0. split; [done|].
    assert (∃ l2, appended w1 w' l2) as [l2 Hl2].
    { destruct ms as [mapping st]. destruct (_ && _).
      - finish Hrun. exists []. apply appended_refl.
      - step Hrun as u w2 Hwr. apply write_json_Ok in Hwr as (_ & _ & Hl2).
        finish Hrun. by eexists. }
    pose proof (appended_trans _ _ _ _ _ Hl1 Hl2) as Hjoin.
    unfold appended in *. rewrite Hl in Hjoin. apply app_inv_head in Hjoin.
    rewrite Hjoin. apply elem_of_app. by left.
  - intros r w'. apply keep_restore_performance.
  - intros r w'. apply keep_restore_max_performance.
  - intros r w' l Hrun Hl. unfold Cleanup.restore_latest_backup in Hrun.
    assert (Hnil : w' = w → l = []).
    { intros ->. unfold appended in Hl.
      rewrite <- (app_nil_r (w_log w)) in Hl at 1.
      by apply app_inv_head in Hl as <-. }
    step Hrun as latest w1 Hlatest.
    pose proof Hlatest as Hsame. apply latest_session_same in Hsame as ->.
    destruct latest as [d|]; [|finish Hrun; left; by apply Hnil].
    step Hrun as manifest w1 Hread. pose proof Hread as Hsame.
    apply (read_manifest_same Cleanup._read_manifest) in Hsame as ->; [|auto].
    destruct (negb (truthy manifest)); [finish Hrun; left; by apply Hnil|].
    destruct manifest as [| | | | | |items]; try finish Hrun.
    step Hrun as st w1 Hloop. finish Hrun.
    right. exists d, items. split; [done|]. split; [done|].
    by eapply restore_entries_log.
Qed.

Lemma session_directory_witness :
  ∃ r w',
    Performance.apply_performance_profile Sim.api Sim.win_cfg sealed_machine
    = (Ok r, w')
    ∧ session_made_first sealed_machine w' (Performance._backup_root Sim.win_cfg).
Proof.
  destruct (Performance.apply_performance_profile Sim.api Sim.win_cfg
              sealed_machine) as [[r|e] w'] eqn:E;
    [|vm_compute in E; discriminate].
  exists r, w'. split; [reflexivity|].
  destruct (session_directory_creation Sim.api Sim.win_cfg sealed_machine)
    as (Hperf & _).
  by destruct (Hperf eq_refl r w' E).
Defined.

(** C4 as stated fails on a machine where nothing can be changed: the
    registry is sealed and no OneDrive process runs, so the Performance
    apply mutates nothing and reports every flag false; the session
    directory, which was not there before, is there after the call, and
    the operating system is as it was. *)
Lemma session_directory_without_mutation :
  ¬ session_needs_mutation Sim.api Sim.win_cfg sealed_machine
  ∧ w_os (Performance.apply_performance_profile Sim.api Sim.win_cfg
            sealed_machine).2
    = Sim.sealed_os.
Proof.
  split; [|by vm_compute].
  intros H.
  destruct (Performance.apply_performance_profile Sim.api Sim.win_cfg
              sealed_machine) as [[r|e] w'] eqn:E;
    [|vm_compute in E; discriminate].
  specialize (H r w' E).
  vm_compute in E. injection E as <- <-.
  by specialize (H eq_refl eq_refl).
Qed.

(** ** Runs on explicit machines *)




(** ** Cleanup: two targets with one backup name *)

(** C2 (the code at the failing input).  Both targets get the backup name
    "srv_x_Temp"; the apply moves both files into the one sub-directory
    and the manifest keeps one origin for it, /srv/x/Temp; the restore
    then moves both files there: the counts agree (2 and 2, nothing failed),
    but a.tmp is not back at /srv/x_Temp/a.tmp. *)
Theorem cleanup_round_trip_name_collision :
  ∃ r1 w1 r2 w2,
    Cleanup.safe_cleanup Sim.api collision_cfg collision_machine = (Ok r1, w1)
    ∧ Cleanup.restore_latest_backup Sim.api collision_cfg w1 = (Ok r2, w2)
    ∧ Cleanup._backup_subdir_name <$> Cleanup._collect_temp_dirs collision_cfg
      = ["srv_x_Temp"; "srv_x_Temp"]
    ∧ (Cleanup.moved r1, Cleanup.failed r1) = (2, 0)
    ∧ (Cleanup.moved r2, Cleanup.failed r2) = (2, 0)
    ∧ FS.lookup ["/"; "srv"; "x_Temp"; "a.tmp"] (w_fs collision_machine)
      = Some (Sim.file "A")
    ∧ FS.lookup ["/"; "srv"; "x_Temp"; "a.tmp"] (w_fs w2) = None
    ∧ FS.lookup ["/"; "srv"; "x"; "Temp"; "a.tmp"] (w_fs w2)
      = Some (Sim.file "A").
Proof.
  destruct (Cleanup.safe_cleanup Sim.api collision_cfg collision_machine)
    as [[r1|e] w1] eqn:E1; [|vm_compute in E1; discriminate].
  destruct (Cleanup.restore_latest_backup Sim.api collision_cfg w1)
    as [[r2|e] w2] eqn:E2.
  2:{ vm_compute in E1. injection E1 as _ <-. vm_compute in E2. discriminate. }
  exists r1, w1, r2, w2.
  split; [reflexivity|]. split; [exact E2|].
  vm_compute in E1. injection E1 as <- <-.
  vm_compute in E2. injection E2 as <- <-.
  by vm_compute.
Qed.

(** With one target the round trip holds: the two files of /tmp are back
    in /tmp after apply and restore. *)
Example cleanup_round_trip_two_files :
  ∃ r1 w1 r2 w2,
    Cleanup.safe_cleanup Sim.api two_files_cfg two_files = (Ok r1, w1)
    ∧ Cleanup.restore_latest_backup Sim.api two_files_cfg w1 = (Ok r2, w2)
    ∧ (Cleanup.scanned r1, Cleanup.moved r1, Cleanup.failed r1) = (2, 2, 0)
    ∧ (Cleanup.scanned r2, Cleanup.moved r2, Cleanup.failed r2) = (2, 2, 0)
    ∧ FS.lookup ["/"; "tmp"] (w_fs w1) = Some (Sim.dir [])
    ∧ FS.lookup ["/"; "tmp"] (w_fs w2)
      = FS.lookup ["/"; "tmp"] (w_fs two_files).
Proof.
  destruct (Cleanup.safe_cleanup Sim.api two_files_cfg two_files)
    as [[r1|e] w1] eqn:E1; [|vm_compute in E1; discriminate].
  destruct (Cleanup.restore_latest_backup Sim.api two_files_cfg w1)
    as [[r2|e] w2] eqn:E2.
  2:{ vm_compute in E1. injection E1 as _ <-. vm_compute in E2. discriminate. }
  exists r1, w1, r2, w2.
  split; [reflexivity|]. split; [exact E2|].
  vm_compute in E1. injection E1 as <- <-.
  vm_compute in E2. injection E2 as <- <-.
  by vm_compute.
Qed.

(* ===================================================================== *)
(** * More of the code: properties *)
(* ===================================================================== *)

(** ** Cleanup: the name of a backup sub-directory *)

Lemma all_chars_app f s t :
  all_chars f (s +:+ t) = all_chars f s && all_chars f t.
Proof.
  induction s as [|a s IH]; [done|].
  change (String a s +:+ t) with (String a (s +:+ t)).
  cbn [all_chars]. rewrite IH. by rewrite andb_assoc.
Qed.

Lemma split_go_pieces f s : ∀ cur x,
  all_chars (λ a, negb (f a)) cur = true →
  x ∈ PyStr.split_go f cur s →
  all_chars (λ a, negb (f a)) x = true.
Proof.
  induction s as [|a s IH]; intros cur x Hcur Hx; cbn in Hx.
  - apply list_elem_of_singleton in Hx as ->. exact Hcur.
  - destruct (f a) eqn:Ha.
    + apply elem_of_cons in Hx as [->|Hx]; [exact Hcur|].
      by apply (IH "").
    + apply (IH (cur +:+ String a "")); [|exact Hx].
      rewrite all_chars_app, Hcur. cbn. by rewrite Ha.
Qed.

Lemma segments_components win s :
  Forall (component win) (segments win s).
Proof.
  apply Forall_forall. intros x Hx. unfold segments in Hx.
  apply list_elem_of_In, List.filter_In in Hx as [Hx Hok].
  apply andb_true_iff in Hok as [Hne Hdot]. split; [|split].
  - by destruct x.
  - intros ->. discriminate Hdot.
  - apply list_elem_of_In in Hx. by apply (split_go_pieces _ s "" x).
Qed.

Lemma parse_posix_shaped s : posix_shaped (parse false s).
Proof.
  destruct s as [|a rest]; [by repeat split; auto|].
  unfold parse. destruct (is_sep false a).
  - repeat split; [|apply segments_components]. cbn [root].
    unfold posix_root. destruct rest as [|b rest]; [auto|].
    destruct (Ascii.eqb b "/"); [|auto].
    destruct rest as [|c rest]; [auto|]. destruct (Ascii.eqb c "/"); auto.
  - repeat split; [auto|apply segments_components].
Qed.

Lemma component_child (p : Path) x (P : string → Prop) :
  Forall P (tail p) → P x → Forall P (tail (child p x)).
Proof. intros Hp Hx. cbn. apply Forall_app. split; [done|by constructor]. Qed.

Lemma filter_all {A} (f : A → bool) l :
  Forall (λ x, f x = true) l → List.filter f l = l.
Proof.
  induction 1 as [|x l Hx _ IH]; [done|]. cbn. by rewrite Hx, IH.
Qed.

Lemma component_not_root x r :
  component false x → r = "" ∨ r = "/" ∨ r = "//" → x ≠ r.
Proof.
  intros (Hne & _ & Hall) [-> | [-> | ->]]; [done| |]; intros ->;
    discriminate Hall.
Qed.

(** On POSIX the name is the components joined by underscores. *)
Lemma backup_name_posix_shaped p :
  posix_shaped p →
  Cleanup._backup_subdir_name p = String.concat "_" (tail p).
Proof.
  intros (Hd & Hr & Ht). unfold Cleanup._backup_subdir_name, parts, anchor.
  rewrite Hd. cbn [PyStr.remove_char String.append].
  assert (Hkeep : List.filter
            (λ part, negb (String.eqb part "" || String.eqb part (root p)))
            (tail p) = tail p).
  { apply filter_all. eapply Forall_impl; [exact Ht|]. intros x Hx.
    pose proof (component_not_root x (root p) Hx Hr) as Hxr.
    destruct Hx as (Hne & _).
    apply negb_true_iff, orb_false_iff. split; by apply String.eqb_neq. }
  assert (Htruthy : List.filter PyStr.truthy (tail p) = tail p).
  { apply filter_all. eapply Forall_impl; [exact Ht|].
    intros x (Hne & _). by destruct x. }
  change ("" +:+ root p) with (root p).
  destruct (PyStr.truthy (root p)) eqn:Hroot; cbn [List.filter];
    change (PyStr.truthy "") with false; cbv iota.
  - rewrite String.eqb_refl, orb_true_r. cbn [negb].
    by rewrite Hkeep, Htruthy.
  - by rewrite Hkeep, Htruthy.
Qed.

Lemma concat_last_two l a b :
  String.concat "_" (l ++ [a; b])
  = String.concat "_" (l ++ [a +:+ "_" +:+ b]).
Proof.
  induction l as [|x l IH]; [done|].
  cbn [app]. destruct l as [|y l]; [done|].
  change (String.concat "_" (x :: (y :: l) ++ [a; b]))
    with (x +:+ "_" +:+ String.concat "_" ((y :: l) ++ [a; b])).
  change (String.concat "_" (x :: (y :: l) ++ [a +:+ "_" +:+ b]))
    with (x +:+ "_" +:+ String.concat "_" ((y :: l) ++ [a +:+ "_" +:+ b])).
  by rewrite IH.
Qed.

(** X1.  On POSIX the backup name of the target [Path(s)] is its
    components joined by underscores, for every string [s]: the root does
    not show in it, and neither does the place where one component ends
    and the next begins. *)
Theorem backup_subdir_name_posix (s : string) :
  Cleanup._backup_subdir_name (parse false s)
  = String.concat "_" (tail (parse false s)).
Proof. apply backup_name_posix_shaped, parse_posix_shaped. Qed.

(** X2.  The backup name does not tell targets apart: under every
    directory [Path(s)], the directory a/b and the directory a_b are two
    targets with one name. *)
Theorem backup_subdir_name_not_injective (s a b : string) :
  component false a → component false b →
  let d := parse false s in
  child (child d a) b ≠ child d (a +:+ "_" +:+ b)
  ∧ Cleanup._backup_subdir_name (child (child d a) b)
    = Cleanup._backup_subdir_name (child d (a +:+ "_" +:+ b)).
Proof.
  intros Ha Hb d. destruct (parse_posix_shaped s) as (Hd & Hr & Ht).
  fold d in Hd, Hr, Ht. split.
  - unfold child. cbn. intros [= H]. apply (f_equal length) in H.
    rewrite !length_app in H. cbn in H. lia.
  - rewrite !backup_name_posix_shaped.
    + cbn. rewrite <- app_assoc. apply concat_last_two.
    + repeat split; [done|done|]. apply component_child; [done|].
      destruct Ha as (Ha1 & _ & Ha2), Hb as (Hb1 & _ & Hb2).
      split; [by destruct a|]. split.
      * destruct a as [|x [|y a]]; [done| |done]. by destruct b.
      * rewrite !all_chars_app, Ha2, Hb2. done.
    + repeat split; [done|done|].
      apply component_child; [|done]. by apply (component_child d).
Qed.

Lemma backup_subdir_name_not_injective_witness :
  child (child (parse false "/srv") "x") "Temp"
  ≠ child (parse false "/srv") "x_Temp"
  ∧ Cleanup._backup_subdir_name (child (child (parse false "/srv") "x") "Temp")
    = Cleanup._backup_subdir_name (child (parse false "/srv") "x_Temp").
Proof.
  apply (backup_subdir_name_not_injective "/srv" "x" "Temp");
    repeat split; discriminate.
Defined.

(** ** Cleanup: the backup name of a Windows target *)

Lemma component_win_not_root x : component true x → x ≠ "\".
Proof. intros (_ & _ & Hall) ->. discriminate Hall. Qed.

(** X3.  For a Windows target with a drive letter and a root, such as
    C:\Windows\Temp, only the drive loses its colon: the anchor stays in
    the name as it is, colon and backslash included ("C_C:\_Windows_Temp").
    Joined to the session directory, this name is read as a path again:
    the sub-directory lies below a directory named "C_C:". *)
Theorem backup_subdir_name_keeps_windows_anchor (a : ascii) (p d : Path) :
  drive_rooted a p →
  Cleanup._backup_subdir_name p
  = String.concat "_" (String a "" :: anchor p :: tail p)
  ∧ ∃ rest,
      joinpath true d (Cleanup._backup_subdir_name p)
      = mkPath (drive d) (root d)
               (tail d ++ String a (String "_" (String a ":")) :: rest).
Proof.
  intros (Hsep & Hcolon & Hd & Hr & Ht).
  assert (Hname : Cleanup._backup_subdir_name p
                  = String.concat "_" (String a "" :: anchor p :: tail p)).
  { unfold Cleanup._backup_subdir_name, parts, anchor. rewrite Hd, Hr.
    assert (Hdrv : PyStr.remove_char ":" (String a ":") = String a "").
    { cbn. destruct (Ascii.eqb a ":") eqn:E; [by apply Ascii.eqb_eq in E|].
      reflexivity. }
    rewrite Hdrv. change (String a ":" +:+ "\") with (String a ":\").
    change (PyStr.truthy (String a ":\")) with true. cbv iota.
    assert (Hkeep : List.filter
              (λ part, negb (String.eqb part (String a ":")
                             || String.eqb part "\"))
              (tail p) = tail p).
    { apply filter_all. eapply Forall_impl; [exact Ht|]. intros x [Hx Hxd].
      pose proof (component_win_not_root x Hx) as Hxr.
      apply negb_true_iff, orb_false_iff. split; by apply String.eqb_neq. }
    assert (Htruthy : List.filter PyStr.truthy (tail p) = tail p).
    { apply filter_all. eapply Forall_impl; [exact Ht|].
      intros x [(Hne & _) _]. by destruct x. }
    cbn [List.filter].
    replace (String.eqb (String a ":\") (String a ":")) with false
      by (cbn; by rewrite Ascii.eqb_refl).
    replace (String.eqb (String a ":\") "\") with false
      by (cbn; by destruct (Ascii.eqb a "\")).
    cbn [orb negb]. rewrite Hkeep.
    change (PyStr.truthy (String a "")) with true. cbv iota.
    cbn [List.filter].
    change (PyStr.truthy (String a ":\")) with true. cbv iota.
    by rewrite Htruthy. }
  split; [exact Hname|]. rewrite Hname. unfold anchor. rewrite Hd, Hr.
  assert (∃ rest0,
            String.concat "_" (String a "" :: (String a ":" +:+ "\") :: tail p)
            = String a (String "_" (String a (String ":" (String "\" rest0)))))
    as [rest0 ->] by (destruct (tail p); eexists; reflexivity).
  exists (segments true rest0).
  unfold joinpath, parse. rewrite Hsep.
  change (Ascii.eqb "_" ":") with false. cbv iota. cbn [root drive tail].
  change (PyStr.truthy "") with false. cbn [andb]. cbv iota.
  f_equal. f_equal. unfold segments, PyStr.split.
  cbn [PyStr.split_go]. rewrite Hsep.
  change (is_sep true "_") with false. change (is_sep true ":") with false.
  change (is_sep true "\") with true. cbv iota.
  change (((("" +:+ String a "") +:+ "_") +:+ String a "") +:+ ":")
    with (String a (String "_" (String a ":"))).
  cbn [List.filter].
  replace (String.eqb (String a (String "_" (String a ":"))) ".") with false
    by (cbn; by destruct (Ascii.eqb a ".")).
  reflexivity.
Qed.

Lemma backup_subdir_name_keeps_windows_anchor_witness :
  Cleanup._backup_subdir_name (parse true "C:\Windows\Temp")
  = "C_C:\_Windows_Temp"
  ∧ ∃ rest,
      joinpath true (Cleanup._build_backup_root Sim.win_cfg)
        (Cleanup._backup_subdir_name (parse true "C:\Windows\Temp"))
      = mkPath "C:" "\"
          (["Users"; "u"; ".opti2025"; "safe_backups"; Sim.stamp]
           ++ "C_C:" :: rest).
Proof.
  apply (backup_subdir_name_keeps_windows_anchor "C"
           (parse true "C:\Windows\Temp")
           (Cleanup._build_backup_root Sim.win_cfg)).
  repeat split; try discriminate; repeat constructor; discriminate.
Defined.

(** ** Cleanup: what a call does, and how it accounts for it *)

Lemma appended_inj {W} (w w' : world W) l1 l2 :
  appended w w' l1 → appended w w' l2 → l1 = l2.
Proof.
  unfold appended. intros H1 H2. rewrite H1 in H2.
  by apply app_inv_head in H2.
Qed.

Lemma accounted_refl st : accounted_step st st.
Proof. unfold accounted_step. lia. Qed.

Lemma accounted_trans st1 st2 st3 :
  accounted_step st1 st2 → accounted_step st2 st3 → accounted_step st1 st3.
Proof. unfold accounted_step. lia. Qed.

Lemma name_child p n : name (child p n) = n.
Proof. unfold name, child. cbn. apply List.last_last. Qed.

Section CleanupTrace.
Context {W : Type} (api : os_api W) (cfg : config).
Import Cleanup.

(** The inner loop: one move for each entry, in order; a refused move
    adds one failure and one message. *)
Lemma move_entries_full destination entries :
  ∀ st w st' w',
    move_entries api cfg destination entries st w = (Ok st', w') →
    ∃ l, appended w w' l
         ∧ Forall (λ e, ∃ entry ok,
                     entry ∈ entries
                     ∧ e = EvMove (parts entry)
                                  (parts (child destination (name entry)))
                                  ok) l
         ∧ t_skipped st' = t_skipped st
         ∧ t_failed st' + length (t_errors st)
           = t_failed st + length (t_errors st').
Proof.
  induction entries as [|entry rest IH]; intros st w st' w' Hrun;
    cbn [move_entries] in Hrun.
  - finish Hrun. exists []. split; [apply appended_refl|]. by split.
  - step Hrun as r w1 Hmove.
    apply fs_update_run in Hmove as (_ & Hlog & _).
    assert (∃ st1, move_entries api cfg destination rest st1 w1 = (Ok st', w')
                   ∧ t_skipped st1 = t_skipped st
                   ∧ t_failed st1 + length (t_errors st)
                     = t_failed st + length (t_errors st1))
      as (st1 & Hrest & Hs & Hf).
    { destruct r as [[]|exc]; [by eexists|].
      destruct (is_OSError exc); [|finish Hrun].
      eexists. split; [exact Hrun|]. cbn. rewrite length_app. cbn.
      split; [done|lia]. }
    apply IH in Hrest as (l & Hl & Hall & Hs' & Hf').
    eexists. split; [exact (appended_trans _ _ _ _ _ Hlog Hl)|].
    split; [|split; [congruence|lia]].
    constructor.
    + exists entry, (is_ok r). split; [by left|done].
    + eapply Forall_impl; [exact Hall|]. intros e (x & ok & Hx & ->).
      exists x, ok. split; [by right|done].
Qed.

(** The outer loop of the apply. *)
Lemma sweep_full backup_root temp_dirs :
  ∀ mapping st w mapping' st' w',
    sweep api cfg backup_root temp_dirs mapping st w
    = (Ok (mapping', st'), w') →
    ∃ l, appended w w' l
         ∧ Forall
             (λ e, ∃ t,
                t ∈ temp_dirs
                ∧ let dest :=
                    joinpath (win32 cfg) backup_root (_backup_subdir_name t) in
                  e = EvMkdir (parts dest) true
                  ∨ ∃ n ok, e = EvMove (parts t ++ [n]) (parts dest ++ [n]) ok)
             l
         ∧ accounted_step st st'
         ∧ (t_skipped st' ≤ t_skipped st + length temp_dirs)%nat
         ∧ ∀ kv, kv ∈ mapping' →
                 kv ∈ mapping
                 ∨ ∃ t, t ∈ temp_dirs
                        ∧ kv = (_backup_subdir_name t, str (win32 cfg) t).
Proof.
  induction temp_dirs as [|temp_dir rest IH];
    intros mapping st w mapping' st' w' Hrun; cbn [sweep] in Hrun.
  - finish Hrun. injection H as <- <-. exists [].
    split; [apply appended_refl|]. split; [constructor|].
    split; [apply accounted_refl|]. split; [cbn; lia|]. by left.
  - assert (Hweaken : ∀ l,
      Forall (λ e, ∃ t, t ∈ rest
                ∧ let dest :=
                    joinpath (win32 cfg) backup_root (_backup_subdir_name t) in
                  e = EvMkdir (parts dest) true
                  ∨ ∃ n ok, e = EvMove (parts t ++ [n]) (parts dest ++ [n]) ok)
             l →
      Forall (λ e, ∃ t, t ∈ temp_dir :: rest
                ∧ let dest :=
                    joinpath (win32 cfg) backup_root (_backup_subdir_name t) in
                  e = EvMkdir (parts dest) true
                  ∨ ∃ n ok, e = EvMove (parts t ++ [n]) (parts dest ++ [n]) ok)
             l).
    { intros l Hl. eapply Forall_impl; [exact Hl|].
      intros e (t & Ht & He). exists t. split; [by right|done]. }
    step Hrun as e w1 Hex.
    destruct (FS.exists_ _ _); cbn [negb] in Hrun.
    2:{ apply IH in Hrun as (l & Hl & Hall & Hacc & Hsk & Hmap).
        exists l. split; [done|]. split; [by apply Hweaken|].
        split; [|split].
        - eapply accounted_trans; [|exact Hacc].
          unfold accounted_step. cbn. lia.
        - cbn in *. lia.
        - intros kv Hkv. destruct (Hmap kv Hkv) as [?|(t & Ht & ->)];
            [by left|]. right. exists t. split; [by right|done]. }
    step Hrun as ac w1 Hacc.
    destruct (os_access _ _ _); cbn [negb] in Hrun.
    2:{ apply IH in Hrun as (l & Hl & Hall & Hstep & Hsk & Hmap).
        exists l. split; [done|]. split; [by apply Hweaken|].
        split; [|split].
        - eapply accounted_trans; [|exact Hstep].
          unfold accounted_step. cbn. rewrite length_app. cbn. lia.
        - cbn in *. lia.
        - intros kv Hkv. destruct (Hmap kv Hkv) as [?|(t & Ht & ->)];
            [by left|]. right. exists t. split; [by right|done]. }
    step Hrun as u w1 Hmk. apply fs_update_run in Hmk as (_ & Hlog & _).
    step Hrun as entries w2 Hit.
    pose proof Hit as Hsame. apply iterdir_same in Hsame as ->.
    assert (Hentries : ∀ x, x ∈ entries → ∃ n, x = child temp_dir n).
    { unfold iterdir in Hit. destruct (FS.listdir _ _); [|discriminate].
      injection Hit as <-. intros x (n & -> & _)%list_elem_of_fmap.
      by exists n. }
    step Hrun as st2 w3 Hmv.
    apply move_entries_full in Hmv as (l1 & Hl1 & Hall1 & Hs1 & Hf1).
    apply IH in Hrun as (l2 & Hl2 & Hall2 & Hstep & Hsk & Hmap).
    eexists. split.
    { exact (appended_trans _ _ _ _ _ Hlog
               (appended_trans _ _ _ _ _ Hl1 Hl2)). }
    split; [|split; [|split]].
    + constructor; [|apply Forall_app; split].
      * exists temp_dir. split; [by left|]. by left.
      * eapply Forall_impl; [exact Hall1|].
        intros e (x & ok & Hx & ->). exists temp_dir. split; [by left|].
        right. destruct (Hentries x Hx) as [n ->].
        exists n, ok. by rewrite name_child, !parts_child.
      * by apply Hweaken.
    + eapply accounted_trans; [|exact Hstep]. unfold accounted_step. lia.
    + cbn in *. lia.
    + intros kv Hkv. destruct (Hmap kv Hkv) as [Hin|(t & Ht & ->)].
      * apply dict_set_elem in Hin as [->|Hin]; [|by left].
        right. exists temp_dir. split; [by left|done].
      * right. exists t. split; [by right|done].
Qed.

(** The loop of the restore. *)
Lemma restore_entries_full latest_backup items :
  ∀ st w st' w',
    restore_entries api cfg latest_backup items st w = (Ok st', w') →
    ∃ l, appended w w' l
         ∧ Forall (restore_event cfg latest_backup items) l
         ∧ accounted_step st st'.
Proof.
  induction items as [|[backup_name destination_str] rest IH];
    intros st w st' w' Hrun; cbn [restore_entries] in Hrun.
  - finish Hrun. exists []. split; [apply appended_refl|].
    split; [constructor|apply accounted_refl].
  - destruct destination_str as [| | | |s| |]; try finish Hrun.
    assert (Hweaken : ∀ l,
      Forall (restore_event cfg latest_backup rest) l →
      Forall (restore_event cfg latest_backup ((backup_name, VStr s) :: rest))
             l).
    { intros l Hl. eapply Forall_impl; [exact Hl|].
      intros e (b & s0 & Hin & He). exists b, s0. split; [by right|done]. }
    step Hrun as e w1 Hex.
    destruct (FS.exists_ _ _); cbn [negb] in Hrun.
    2:{ apply IH in Hrun as (l & Hl & Hall & Hstep).
        exists l. split; [done|]. split; [by apply Hweaken|].
        eapply accounted_trans; [|exact Hstep].
        unfold accounted_step. cbn. lia. }
    step Hrun as de w0 Hex2.
    step Hrun as r w1 Hmk.
    assert (∃ l0, appended w w1 l0
                  ∧ Forall (restore_event cfg latest_backup
                              ((backup_name, VStr s) :: rest)) l0)
      as (l0 & Hl0 & Hall0).
    { destruct (FS.exists_ _ _); cbn [negb] in Hmk.
      - finish Hmk. exists []. split; [apply appended_refl|constructor].
      - apply attempt_Ok in Hmk.
        apply fs_update_run in Hmk as (_ & Hlog & _).
        eexists. split; [exact Hlog|]. constructor; [|constructor].
        exists backup_name, s. split; [by left|]. left. by eexists. }
    destruct r as [[]|exc].
    + step Hrun as entries w2 Hit.
      pose proof Hit as Hsame. apply iterdir_same in Hsame as ->.
      assert (Hentries : ∀ x, x ∈ entries →
                ∃ n, x = child (joinpath (win32 cfg) latest_backup
                                         backup_name) n).
      { unfold iterdir in Hit. destruct (FS.listdir _ _); [|discriminate].
        injection Hit as <-. intros x (n & -> & _)%list_elem_of_fmap.
        by exists n. }
      step Hrun as st2 w3 Hmv.
      apply move_entries_full in Hmv as (l1 & Hl1 & Hall1 & Hs1 & Hf1).
      apply IH in Hrun as (l2 & Hl2 & Hall2 & Hstep).
      eexists. split.
      { exact (appended_trans _ _ _ _ _ Hl0
                 (appended_trans _ _ _ _ _ Hl1 Hl2)). }
      split.
      * apply Forall_app. split; [done|]. apply Forall_app. split.
        -- eapply Forall_impl; [exact Hall1|].
           intros e (x & ok & Hx & ->). exists backup_name, s.
           split; [by left|]. right. destruct (Hentries x Hx) as [n ->].
           exists n, ok. by rewrite name_child, !parts_child.
        -- by apply Hweaken.
      * eapply accounted_trans; [|exact Hstep]. unfold accounted_step. lia.
    + destruct (is_OSError exc); [|finish Hrun].
      apply IH in Hrun as (l2 & Hl2 & Hall2 & Hstep).
      eexists. split; [exact (appended_trans _ _ _ _ _ Hl0 Hl2)|].
      split.
      * apply Forall_app. split; [done|]. by apply Hweaken.
      * eapply accounted_trans; [|exact Hstep].
        unfold accounted_step. cbn. rewrite length_app. cbn. lia.
Qed.

Lemma move_entries_os destination entries :
  ∀ st w st' w',
    move_entries api cfg destination entries st w = (Ok st', w') →
    w_os w' = w_os w.
Proof.
  induction entries as [|x xs IH]; intros st w st' w' Hrun;
    cbn [move_entries] in Hrun.
  - by finish Hrun.
  - step Hrun as r w1 Hm. apply fs_update_run in Hm as (Ho & _).
    destruct r as [[]|exc].
    + rewrite <- Ho. by eapply IH.
    + destruct (is_OSError exc); [|finish Hrun].
      rewrite <- Ho. by eapply IH.
Qed.

Lemma sweep_os backup_root temp_dirs :
  ∀ mapping st w res w',
    sweep api cfg backup_root temp_dirs mapping st w = (Ok res, w') →
    w_os w' = w_os w.
Proof.
  induction temp_dirs as [|t ts IH]; intros mapping st w res w' Hrun;
    cbn [sweep] in Hrun.
  - by finish Hrun.
  - step Hrun as e w1 Hex.
    destruct (FS.exists_ _ _); cbn [negb] in Hrun; [|by eapply IH].
    step Hrun as ac w1 Hacc.
    destruct (os_access _ _ _); cbn [negb] in Hrun; [|by eapply IH].
    step Hrun as u w1 Hmk. apply fs_update_run in Hmk as (Ho1 & _).
    step Hrun as entries w2 Hit. apply iterdir_same in Hit as ->.
    step Hrun as st2 w3 Hmv. apply move_entries_os in Hmv.
    rewrite <- Ho1, <- Hmv. by eapply IH.
Qed.

Lemma collect_at_most_two : (length (_collect_temp_dirs cfg) ≤ 2)%nat.
Proof.
  unfold _collect_temp_dirs.
  destruct (py_or _ _) as [s|]; [destruct (PyStr.truthy s)|];
    (destruct (environ cfg !! "WINDIR") as [s'|];
       [destruct (PyStr.truthy s')|]); cbn; lia.
Qed.

End CleanupTrace.

(** X4.  In the result of a Cleanup apply or restore, every failed entry
    has its message in the error list and every other message belongs to
    a skipped target: failed <= len(errors) <= failed + skipped. *)
Theorem cleanup_errors_accounted
    {W} (api : os_api W) (cfg : config) (w : world W) r w' :
  Cleanup.safe_cleanup api cfg w = (Ok r, w')
  ∨ Cleanup.restore_latest_backup api cfg w = (Ok r, w') →
  errors_accounted (Cleanup.failed r) (Cleanup.skipped r) (Cleanup.errors r).
Proof.
  assert (Hgoal : ∀ st,
            accounted_step Cleanup.tally0 st →
            errors_accounted (Cleanup.t_failed st) (Cleanup.t_skipped st)
                             (Cleanup.t_errors st)).
  { intros st. unfold accounted_step, errors_accounted. cbn. lia. }
  intros [Hrun|Hrun].
  - unfold Cleanup.safe_cleanup in Hrun.
    step Hrun as ms w1 Hsweep. destruct ms as [mapping st].
    apply sweep_full in Hsweep as (l & _ & _ & Hstep & _).
    destruct (_ && _).
    + finish Hrun. by apply Hgoal.
    + step Hrun as u w2 Hwr. finish Hrun. by apply Hgoal.
  - unfold Cleanup.restore_latest_backup in Hrun.
    step Hrun as latest w1 Hlatest. apply latest_session_same in Hlatest as ->.
    destruct latest as [d|].
    2:{ finish Hrun. unfold errors_accounted. cbn. lia. }
    step Hrun as manifest w1 Hread.
    apply (read_manifest_same Cleanup._read_manifest) in Hread as ->; [|auto].
    destruct (negb (truthy manifest)).
    { finish Hrun. unfold errors_accounted. cbn. lia. }
    destruct manifest; try finish Hrun.
    step Hrun as st w1 Hloop.
    apply restore_entries_full in Hloop as (l & _ & _ & Hstep).
    finish Hrun. by apply Hgoal.
Qed.

Lemma cleanup_errors_accounted_witness :
  ∃ r w',
    Cleanup.safe_cleanup Sim.api stuck_cfg stuck_machine = (Ok r, w')
    ∧ errors_accounted (Cleanup.failed r) (Cleanup.skipped r)
                       (Cleanup.errors r)
    ∧ (Cleanup.moved r, Cleanup.failed r, Cleanup.skipped r,
       length (Cleanup.errors r)) = (1, 1, 1, 1).
Proof.
  destruct (Cleanup.safe_cleanup Sim.api stuck_cfg stuck_machine)
    as [[r|e] w'] eqn:E; [|vm_compute in E; discriminate].
  exists r, w'. split; [reflexivity|]. split.
  - exact (cleanup_errors_accounted Sim.api stuck_cfg stuck_machine r w'
             (or_introl E)).
  - apply (f_equal fst) in E. vm_compute in E. by injection E as <-.
Defined.

(** X5.  A Cleanup apply reports a backup directory exactly when it moved
    or failed to move something.  When it reports one, it is the session
    directory, and the manifest in it maps backup names of targets to the
    targets' paths; when it reports none, no manifest was written.  At
    most two targets are skipped, as there are at most two. *)
Theorem cleanup_backup_dir_and_manifest
    {W} (api : os_api W) (cfg : config) (w : world W) r w' l :
  Cleanup.safe_cleanup api cfg w = (Ok r, w') →
  appended w w' l →
  (Cleanup.skipped r ≤ length (Cleanup._collect_temp_dirs cfg))%nat
  ∧ (length (Cleanup._collect_temp_dirs cfg) ≤ 2)%nat
  ∧ match Cleanup.backup_dir r with
    | None =>
        Cleanup.moved r = 0 ∧ Cleanup.failed r = 0
        ∧ Forall (λ e, is_manifest_write e = false) l
    | Some d =>
        (0 < Cleanup.moved r + Cleanup.failed r)%nat
        ∧ d = Cleanup._build_backup_root cfg
        ∧ ∃ mapping,
            FS.read_text (parts (Cleanup._manifest_path d)) (w_fs w')
            = Ok (FS.JsonDoc (Cleanup.manifest_value mapping))
            ∧ ∀ name target,
                (name, target) ∈ mapping →
                ∃ t, t ∈ Cleanup._collect_temp_dirs cfg
                     ∧ name = Cleanup._backup_subdir_name t
                     ∧ target = str (win32 cfg) t
    end.
Proof.
  intros Hrun Hl. unfold Cleanup.safe_cleanup in Hrun.
  step Hrun as ms w1 Hsweep. destruct ms as [mapping st].
  apply sweep_full in Hsweep as (l1 & Hl1 & Hall & _ & Hsk & Hmap).
  split; [|split; [apply collect_at_most_two|]].
  { destruct (_ && _); [finish Hrun|step Hrun as u w2 Hwr; finish Hrun];
      cbn in *; lia. }
  destruct (Nat.eqb (Cleanup.t_moved st) 0 && Nat.eqb (Cleanup.t_failed st) 0)
    eqn:Hzero.
  - finish Hrun. cbn.
    apply andb_true_iff in Hzero as [Hm Hf].
    apply Nat.eqb_eq in Hm, Hf. split; [done|]. split; [done|].
    rewrite (appended_inj _ _ _ _ Hl Hl1).
    eapply Forall_impl; [exact Hall|].
    intros e (t & _ & [->|(n & ok & ->)]); reflexivity.
  - step Hrun as u w2 Hwr. apply write_json_Ok in Hwr as (Hwr & _ & _).
    finish Hrun. cbn. split; [|split; [done|]].
    + apply andb_false_iff in Hzero as [H|H]; apply Nat.eqb_neq in H; lia.
    + exists mapping. split; [by eapply write_then_read|].
      intros name target Hin.
      destruct (Hmap _ Hin) as [Hnil|(t & Ht & [= -> ->])];
        [by apply elem_of_nil in Hnil|].
      by exists t.
Qed.

Lemma cleanup_backup_dir_and_manifest_witness :
  ∃ r w',
    Cleanup.safe_cleanup Sim.api two_files_cfg two_files = (Ok r, w')
    ∧ Cleanup.backup_dir r = Some (Cleanup._build_backup_root two_files_cfg)
    ∧ FS.read_text
        (parts (Cleanup._manifest_path
                  (Cleanup._build_backup_root two_files_cfg)))
        (w_fs w')
      = Ok (FS.JsonDoc (VDict [("tmp", VStr "/tmp")])).
Proof.
  destruct (Cleanup.safe_cleanup Sim.api two_files_cfg two_files)
    as [[r|e] w'] eqn:E; [|vm_compute in E; discriminate].
  exists r, w'. split; [reflexivity|].
  pose proof (cleanup_backup_dir_and_manifest Sim.api two_files_cfg two_files
                r w' (w_log w') E eq_refl) as (_ & _ & H).
  assert (Hd : Cleanup.backup_dir r
               = Some (Cleanup._build_backup_root two_files_cfg)).
  { apply (f_equal (λ x, match x.1 with
                         | Ok r => Cleanup.backup_dir r
                         | Raise _ => None
                         end)) in E.
    cbn [fst] in E. rewrite <- E. by vm_compute. }
  split; [exact Hd|].
  apply (f_equal (λ x, FS.read_text
           (parts (Cleanup._manifest_path
                     (Cleanup._build_backup_root two_files_cfg)))
           (w_fs x.2))) in E.
  cbn [snd] in E. rewrite <- E. by vm_compute.
Defined.

(** X6.  A Cleanup apply does three kinds of things and nothing else: it
    makes the session sub-directory of a target, it moves a direct entry
    of a target into that sub-directory under the entry's own name, and it
    writes the manifest of the session.  It makes no registry call, runs
    no command, and moves nothing that is not directly inside a target. *)
Theorem cleanup_apply_events
    {W} (api : os_api W) (cfg : config) (w : world W) r w' l :
  Cleanup.safe_cleanup api cfg w = (Ok r, w') →
  appended w w' l →
  w_os w' = w_os w ∧ Forall (apply_event cfg) l.
Proof.
  intros Hrun Hl. unfold Cleanup.safe_cleanup in Hrun.
  step Hrun as ms w1 Hsweep. destruct ms as [mapping st].
  pose proof Hsweep as Hos.
  apply sweep_full in Hsweep as (l1 & Hl1 & Hall & _).
  assert (Hall' : Forall (apply_event cfg) l1).
  { eapply Forall_impl; [exact Hall|]. intros e (t & Ht & He).
    left. exists t. split; [done|]. exact He. }
  assert (Hsame : w_os w1 = w_os w) by (by eapply sweep_os).
  destruct (_ && _).
  - finish Hrun. split; [done|]. by rewrite (appended_inj _ _ _ _ Hl Hl1).
  - step Hrun as u w2 Hwr. apply write_json_Ok in Hwr as (_ & Ho & Hl2).
    finish Hrun. split; [congruence|].
    rewrite (appended_inj _ _ _ _ Hl (appended_trans _ _ _ _ _ Hl1 Hl2)).
    apply Forall_app. split; [done|]. constructor; [|constructor].
    right. by eexists.
Qed.

Lemma cleanup_apply_events_witness :
  ∃ r w',
    Cleanup.safe_cleanup Sim.api two_files_cfg two_files = (Ok r, w')
    ∧ Forall (apply_event two_files_cfg) (w_log w')
    ∧ length (w_log w') = 4.
Proof.
  destruct (Cleanup.safe_cleanup Sim.api two_files_cfg two_files)
    as [[r|e] w'] eqn:E; [|vm_compute in E; discriminate].
  exists r, w'. split; [reflexivity|]. split.
  - by destruct (cleanup_apply_events Sim.api two_files_cfg two_files r w'
                   (w_log w') E eq_refl).
  - apply (f_equal (λ x, length (w_log x.2))) in E. cbn [snd] in E.
    rewrite <- E. by vm_compute.
Defined.

(** X7.  A Cleanup restore that finds a manifest does two kinds of
    things and nothing else, each for an item of the manifest: it makes
    the item's destination, and it moves an entry of the item's
    sub-directory of the session to the destination under the entry's own
    name.  It reports the session it read; it never writes a manifest,
    makes no registry call and runs no command. *)
Theorem cleanup_restore_events
    {W} (api : os_api W) (cfg : config) (w : world W) r w' l :
  Cleanup.restore_latest_backup api cfg w = (Ok r, w') →
  appended w w' l →
  (l = [] ∧ Cleanup.backup_dir r = None)
  ∨ ∃ d items,
      latest_session (Cleanup.backups_root cfg) w = (Ok (Some d), w)
      ∧ Cleanup._read_manifest d w = (Ok (VDict items), w)
      ∧ Cleanup.backup_dir r = Some d
      ∧ Forall (restore_event cfg d items) l.
Proof.
  intros Hrun Hl. unfold Cleanup.restore_latest_backup in Hrun.
  assert (Hnil : w' = w → l = []).
  { intros ->. exact (appended_inj _ _ _ _ Hl (appended_refl _)). }
  step Hrun as latest w1 Hlatest.
  pose proof Hlatest as Hsame. apply latest_session_same in Hsame as ->.
  destruct latest as [d|]; [|finish Hrun; left; split; [by apply Hnil|done]].
  step Hrun as manifest w1 Hread. pose proof Hread as Hsame.
  apply (read_manifest_same Cleanup._read_manifest) in Hsame as ->; [|auto].
  destruct (negb (truthy manifest));
    [finish Hrun; left; split; [by apply Hnil|done]|].
  destruct manifest as [| | | | | |items]; try finish Hrun.
  step Hrun as st w1 Hloop. finish Hrun.
  right. exists d, items. split; [done|]. split; [done|]. split; [done|].
  apply restore_entries_full in Hloop as (l1 & Hl1 & Hall & _).
  by rewrite (appended_inj _ _ _ _ Hl Hl1).
Qed.

Lemma cleanup_restore_events_witness :
  ∃ r w' d items,
    Cleanup.restore_latest_backup Sim.api two_files_cfg two_files_cleaned
    = (Ok r, w')
    ∧ Cleanup.backup_dir r = Some d
    ∧ Forall (restore_event two_files_cfg d items)
             (drop (length (w_log two_files_cleaned)) (w_log w'))
    ∧ Cleanup.moved r = 2.
Proof.
  destruct (Cleanup.restore_latest_backup Sim.api two_files_cfg
              two_files_cleaned) as [[r|e] w'] eqn:E;
    [|vm_compute in E; discriminate].
  assert (Hm : Cleanup.moved r = 2).
  { apply (f_equal (λ x, match x.1 with
                         | Ok r => Cleanup.moved r
                         | Raise _ => 0
                         end)) in E.
    cbn [fst] in E. rewrite <- E. by vm_compute. }
  assert (Hl : appended two_files_cleaned w'
                 (drop (length (w_log two_files_cleaned)) (w_log w'))).
  { apply (f_equal (λ x, w_log x.2)) in E. cbn [snd] in E.
    unfold appended. rewrite <- E. by vm_compute. }
  destruct (cleanup_restore_events Sim.api two_files_cfg two_files_cleaned
              r w' _ E Hl) as [[_ Hnone]|(d & items & _ & _ & Hd & Hall)].
  - apply (f_equal (λ x, match x.1 with
                         | Ok r => Cleanup.backup_dir r
                         | Raise _ => None
                         end)) in E.
    cbn [fst] in E. rewrite Hnone in E. vm_compute in E. discriminate E.
  - exists r, w', d, items.
    split; [reflexivity|]. split; [exact Hd|]. split; [exact Hall|exact Hm].
Defined.

(** ** Performance and MaxPerformance: nothing to restore *)



(** ** Performance and MaxPerformance: flags and errors of an apply *)

Section ApplyResults.
Context {W : Type} (api : os_api W) (cfg : config).

Lemma disable_onedrive_run_result w d v errs w' :
  Performance._disable_onedrive_run api w = (Ok (d, v, errs), w') →
  (length errs ≤ if d then 0 else 1)%nat.
Proof.
  unfold Performance._disable_onedrive_run, bind, attempt, ret, raise.
  intros H. repeat case_match; simplify_eq; cbn; lia.
Qed.

Lemma disable_background_apps_result w d v errs w' :
  Performance._disable_background_apps api w = (Ok (d, v, errs), w') →
  length errs = if d then 0 else 1.
Proof.
  unfold Performance._disable_background_apps, bind, attempt, ret, raise.
  intros H. repeat case_match; simplify_eq; cbn; lia.
Qed.

Lemma stop_onedrive_process_result w stopped errs w' :
  Performance._stop_onedrive_process api w = (Ok (stopped, errs), w') →
  (length errs ≤ if stopped then 0 else 1)%nat.
Proof.
  unfold Performance._stop_onedrive_process, bind, attempt, ret, raise.
  intros H. repeat case_match; simplify_eq; cbn in *; try lia.
Qed.

Lemma max_stop_onedrive_process_result w stopped errs w' :
  MaxPerformance._stop_onedrive_process api w = (Ok (stopped, errs), w') →
  (length errs ≤ if stopped then 0 else 1)%nat.
Proof.
  unfold MaxPerformance._stop_onedrive_process, MaxPerformance._run_command,
    bind, ret.
  intros H. repeat case_match; simplify_eq; cbn in *; try lia.
Qed.

Lemma activate_high_performance_result h errs w set errs' w' :
  MaxPerformance.activate_high_performance api h errs w
  = (Ok (set, errs'), w') →
  ∃ more, errs' = errs ++ more ∧ length more = if set then 0 else 1.
Proof.
  unfold MaxPerformance.activate_high_performance,
    MaxPerformance._set_power_scheme, MaxPerformance._run_command,
    bind, ret.
  intros H. repeat case_match; simplify_eq;
    first [ by eexists [_] | exists []; by rewrite app_nil_r ].
Qed.

Lemma dict_set_has_key {A} k (v : A) d : k ∈ (dict_set k v d).*1.
Proof.
  induction d as [|[k' v'] d IH]; cbn; [by left|].
  destruct (String.eqb k' k); cbn; [by left|by right].
Qed.

Lemma dict_set_keeps_keys {A} k (v : A) d x :
  x ∈ d.*1 → x ∈ (dict_set k v d).*1.
Proof.
  induction d as [|[k' v'] d IH]; cbn; [by intros ?%elem_of_nil|].
  destruct (String.eqb_spec k' k) as [->|Hne]; cbn.
  - intros [->|?]%elem_of_cons; [by left|by right].
  - intros [->|?]%elem_of_cons; [by left|]. right. by apply IH.
Qed.

(** Each turn of the service loop ends in the disabled list or in the
    error list; a disabled service has its record. *)
Lemma loop_tally names acc l acc' :
  svc_loop api names acc l acc' →
  (∀ Y, Y ∈ MaxPerformance.acc_disabled acc →
        Y ∈ (MaxPerformance.service_states acc).*1) →
  (∃ more, MaxPerformance.acc_disabled acc'
           = MaxPerformance.acc_disabled acc ++ more
           ∧ sublist more names)
  ∧ length (MaxPerformance.acc_disabled acc')
    + length (MaxPerformance.acc_errors acc')
    = length (MaxPerformance.acc_disabled acc)
      + length (MaxPerformance.acc_errors acc) + length names
  ∧ ∀ Y, Y ∈ MaxPerformance.acc_disabled acc' →
         Y ∈ (MaxPerformance.service_states acc').*1.
Proof.
  induction 1 as [|X names acc l1 acc1 l2 acc2 Hturn _ IH]; intros Hacc.
  - split; [|split; [cbn; lia|done]]. exists []. by rewrite app_nil_r.
  - destruct Hturn as [c1 c2 _|c1 c2 st rn stops c4 _ _ _ _
                       |c1 c2 st rn stops c4 _ _ _ _];
      cbn [MaxPerformance.acc_disabled MaxPerformance.acc_errors
           MaxPerformance.service_states] in IH.
    + destruct IH as ((more & Hmore & Hsub) & Hlen & Hkeys); [done|].
      split; [|split; [|done]].
      * exists more. split; [done|]. by apply sublist_cons.
      * rewrite Hlen, length_app. cbn. lia.
    + destruct IH as ((more & Hmore & Hsub) & Hlen & Hkeys).
      { intros Y [HY| ->%list_elem_of_singleton]%elem_of_app.
        - by apply dict_set_keeps_keys, Hacc.
        - apply dict_set_has_key. }
      split; [|split; [|done]].
      * exists (X :: more). split; [by rewrite Hmore, <- app_assoc|].
        by apply sublist_skip.
      * rewrite Hlen, length_app. cbn. lia.
    + destruct IH as ((more & Hmore & Hsub) & Hlen & Hkeys).
      { intros Y HY. by apply dict_set_keeps_keys, Hacc. }
      split; [|split; [|done]].
      * exists more. split; [done|]. by apply sublist_cons.
      * rewrite Hlen, length_app. cbn. lia.
Qed.

(** The result of a MaxPerformance apply, piece by piece. *)
Lemma apply_max_performance_result w r w' :
  win32 cfg = true →
  MaxPerformance.apply_max_performance_profile api cfg w = (Ok r, w') →
  ∃ l_svc acc more5 e6 e7,
    svc_loop api (MaxPerformance.SERVICE_TARGETS.*1) acc0 l_svc acc
    ∧ MaxPerformance.services_disabled r = MaxPerformance.acc_disabled acc
    ∧ MaxPerformance.errors r
      = ((MaxPerformance.acc_errors acc ++ more5) ++ e6) ++ e7
    ∧ length more5 = (if MaxPerformance.power_scheme_set r then 0 else 1)
    ∧ (length e6 ≤ if MaxPerformance.onedrive_disabled r then 0 else 1)%nat
    ∧ (length e7
       ≤ if MaxPerformance.onedrive_process_stopped r then 0 else 1)%nat.
Proof.
  intros Hwin Hrun.
  unfold MaxPerformance.apply_max_performance_profile,
    MaxPerformance._ensure_windows in Hrun.
  rewrite Hwin in Hrun. cbn [negb] in Hrun.
  step Hrun as u w1 Hmk.
  step Hrun as acc w2 Hsvc.
  apply disable_services_loop in Hsvc as (_ & l_svc & _ & Hloop).
  step Hrun as prev w3 Hget.
  step Hrun as high w4 Hfind.
  step Hrun as ps w5 Hact. destruct ps as [set errs5].
  apply activate_high_performance_result in Hact as (more5 & -> & Hlen5).
  step Hrun as od w6 Hod. destruct od as [[d v] e6].
  apply disable_onedrive_run_result in Hod.
  step Hrun as st w7 Hst. destruct st as [s e7].
  apply max_stop_onedrive_process_result in Hst.
  step Hrun as u2 w8 Hwr. finish Hrun.
  by exists l_svc, acc, more5, e6, e7.
Qed.

End ApplyResults.

(** X9.  The errors of a Performance apply are bounded by the flags that
    stayed false: each of the three steps adds at most one message, and
    none when its flag is true; so a result with all three flags true has
    no error.  A refused background-apps change always leaves a message.
    A backup directory is reported exactly on Windows. *)
Theorem performance_errors_bounded
    {W} (api : os_api W) (cfg : config) (w : world W) r w' :
  Performance.apply_performance_profile api cfg w = (Ok r, w') →
  (length (Performance.errors r)
   ≤ count_false [Performance.onedrive_disabled r;
                  Performance.background_apps_disabled r;
                  Performance.onedrive_process_stopped r])%nat
  ∧ (win32 cfg = true → Performance.background_apps_disabled r = false →
     Performance.errors r ≠ [])
  ∧ (Performance.backup_dir r = None ↔ win32 cfg = false).
Proof.
  intros Hrun.
  unfold Performance.apply_performance_profile,
    Performance._ensure_windows in Hrun.
  destruct (win32 cfg) eqn:Hwin; cbn [negb] in Hrun.
  2:{ finish Hrun. cbn. split; [unfold count_false; cbn; lia|].
      split; [done|]. done. }
  step Hrun as u w1 Hmk.
  step Hrun as od w2 Hod. destruct od as [[d v1] e1].
  apply disable_onedrive_run_result in Hod.
  step Hrun as bg w3 Hbg. destruct bg as [[b v2] e2].
  apply disable_background_apps_result in Hbg.
  step Hrun as st w4 Hst. destruct st as [s e3].
  apply stop_onedrive_process_result in Hst.
  step Hrun as u2 w5 Hwr. finish Hrun. cbn.
  split; [|split].
  - rewrite !length_app. unfold count_false.
    destruct d, b, s; cbn in *; lia.
  - intros _ ->. destruct e2; [discriminate Hbg|].
    by destruct e1.
  - split; [discriminate|discriminate].
Qed.

Lemma performance_errors_bounded_witness :
  ∃ r w',
    Performance.apply_performance_profile Sim.api Sim.win_cfg sealed_machine
    = (Ok r, w')
    ∧ (length (Performance.errors r)
       ≤ count_false [Performance.onedrive_disabled r;
                      Performance.background_apps_disabled r;
                      Performance.onedrive_process_stopped r])%nat
    ∧ length (Performance.errors r) = 3.
Proof.
  destruct (Performance.apply_performance_profile Sim.api Sim.win_cfg
              sealed_machine) as [[r|e] w'] eqn:E;
    [|vm_compute in E; discriminate E].
  exists r, w'. split; [reflexivity|]. split.
  - by destruct (performance_errors_bounded Sim.api Sim.win_cfg
                   sealed_machine r w' E).
  - apply (f_equal (λ x, match x.1 with
                         | Ok r => length (Performance.errors r)
                         | Raise _ => 0
                         end)) in E.
    cbn [fst] in E. rewrite <- E. by vm_compute.
Defined.

(** X10.  After a MaxPerformance apply on Windows, the errors account
    for what was not done: one message for each target service that is
    not reported disabled, one when the power scheme was not set, and at
    most one each for the OneDrive entry and the OneDrive process when
    their flags are false; so a result with every service disabled and
    every flag true has no error. *)
Theorem max_performance_errors_bounded
    {W} (api : os_api W) (cfg : config) (w : world W) r w' :
  win32 cfg = true →
  MaxPerformance.apply_max_performance_profile api cfg w = (Ok r, w') →
  let missed :=
    length MaxPerformance.SERVICE_TARGETS
    - length (MaxPerformance.services_disabled r)
    + (if MaxPerformance.power_scheme_set r then 0 else 1) in
  (missed ≤ length (MaxPerformance.errors r))%nat
  ∧ (length (MaxPerformance.errors r)
     ≤ missed + count_false [MaxPerformance.onedrive_disabled r;
                             MaxPerformance.onedrive_process_stopped r])%nat.
Proof.
  intros Hwin Hrun.
  apply apply_max_performance_result in Hrun
    as (l_svc & acc & more5 & e6 & e7 & Hloop & Hd & He & H5 & H6 & H7);
    [|done].
  apply loop_tally in Hloop as (_ & Hlen & _); [|by intros Y ?%elem_of_nil].
  cbn in Hlen. cbn zeta. rewrite He, Hd, !length_app, H5.
  unfold count_false.
  destruct (MaxPerformance.onedrive_disabled r),
    (MaxPerformance.onedrive_process_stopped r); cbn in *; lia.
Qed.

Lemma max_performance_errors_bounded_witness :
  ∃ r w',
    MaxPerformance.apply_max_performance_profile Sim.api Sim.win_cfg
      windows_machine = (Ok r, w')
    ∧ (length MaxPerformance.SERVICE_TARGETS
       - length (MaxPerformance.services_disabled r)
       + (if MaxPerformance.power_scheme_set r then 0 else 1)
       ≤ length (MaxPerformance.errors r))%nat
    ∧ length (MaxPerformance.errors r) = 1.
Proof.
  destruct (MaxPerformance.apply_max_performance_profile Sim.api Sim.win_cfg
              windows_machine) as [[r|e] w'] eqn:E;
    [|vm_compute in E; discriminate E].
  exists r, w'. split; [reflexivity|]. split.
  - by destruct (max_performance_errors_bounded Sim.api Sim.win_cfg
                   windows_machine r w' eq_refl E).
  - apply (f_equal (λ x, match x.1 with
                         | Ok r => length (MaxPerformance.errors r)
                         | Raise _ => 0
                         end)) in E.
    cbn [fst] in E. rewrite <- E. by vm_compute.
Defined.



(** ** What a restore writes *)

Section RestoreWrites.
Context {W : Type} (api : os_api W) (cfg : config).

Lemma restore_onedrive_run_events v w errs w' :
  Performance._restore_onedrive_run api (as_str v) w = (Ok errs, w') →
  ∃ l, appended w w' l
       ∧ Forall (writes_back Performance.RUN_KEY "OneDrive" is_str v) l.
Proof.
  unfold Performance._restore_onedrive_run. intros Hrun.
  step Hrun as k w1 Hk. apply os_call_run in Hk as [_ Hl1].
  destruct k as [[]|exc].
  2:{ destruct (is_OSError exc); finish Hrun.
      eexists. split; [exact Hl1|]. by repeat constructor. }
  unfold as_str in Hrun. destruct (is_str v) eqn:Hv; cbn [is_none] in Hrun.
  - destruct v; try discriminate Hv. cbn [is_none] in Hrun.
    step Hrun as s0 w2 Hs. apply os_call_run in Hs as [_ Hl2].
    assert (w' = w2) as ->.
    { destruct s0 as [[]|exc]; [by finish Hrun|].
      destruct (is_OSError exc); by finish Hrun. }
    eexists. split; [exact (appended_trans _ _ _ _ _ Hl1 Hl2)|].
    by repeat constructor.
  - step Hrun as d w2 Hd. apply os_call_run in Hd as [_ Hl2].
    assert (w' = w2) as ->.
    { destruct d as [[]|exc]; [by finish Hrun|].
      destruct (is_FileNotFoundError exc); [by finish Hrun|].
      destruct (is_OSError exc); by finish Hrun. }
    eexists. split; [exact (appended_trans _ _ _ _ _ Hl1 Hl2)|].
    by repeat constructor.
Qed.

Lemma restore_background_apps_events v w errs w' :
  Performance._restore_background_apps api (as_int v) w = (Ok errs, w') →
  ∃ l, appended w w' l
       ∧ Forall (writes_back Performance.BACKGROUND_KEY "GlobalUserDisabled"
                             is_int v) l.
Proof.
  unfold Performance._restore_background_apps. intros Hrun.
  step Hrun as k w1 Hk. apply os_call_run in Hk as [_ Hl1].
  destruct k as [[]|exc].
  2:{ destruct (is_OSError exc); finish Hrun.
      eexists. split; [exact Hl1|]. by repeat constructor. }
  unfold as_int in Hrun. destruct (is_int v) eqn:Hv; cbn [is_none] in Hrun.
  - assert (is_none v = false) as Hn by (by destruct v).
    rewrite Hn in Hrun.
    step Hrun as s0 w2 Hs. apply os_call_run in Hs as [_ Hl2].
    assert (w' = w2) as ->.
    { destruct s0 as [[]|exc]; [by finish Hrun|].
      destruct (is_OSError exc); by finish Hrun. }
    eexists. split; [exact (appended_trans _ _ _ _ _ Hl1 Hl2)|].
    by repeat constructor.
  - step Hrun as d w2 Hd. apply os_call_run in Hd as [_ Hl2].
    assert (w' = w2) as ->.
    { destruct d as [[]|exc]; [by finish Hrun|].
      destruct (is_FileNotFoundError exc); [by finish Hrun|].
      destruct (is_OSError exc); by finish Hrun. }
    eexists. split; [exact (appended_trans _ _ _ _ _ Hl1 Hl2)|].
    by repeat constructor.
Qed.

End RestoreWrites.

Section RestoreCases.
Context {W : Type} (api : os_api W) (cfg : config).

(** A Performance restore that returns either stopped early, having done
    nothing, or went through the manifest of the latest session. *)
Lemma restore_performance_cases w r w' :
  win32 cfg = true →
  Performance.restore_latest_performance api cfg w = (Ok r, w') →
  (w' = w ∧ Performance.onedrive_disabled r = false)
  ∨ ∃ d kvs,
      latest_session (Performance.backups_root cfg) w = (Ok (Some d), w)
      ∧ Performance._read_manifest d w = (Ok (VDict kvs), w)
      ∧ kvs ≠ [].
Proof.
  intros Hwin Hrun.
  unfold Performance.restore_latest_performance,
    Performance._ensure_windows in Hrun.
  rewrite Hwin in Hrun. cbn [negb] in Hrun.
  step Hrun as latest w1 Hlatest.
  pose proof Hlatest as Hsame. apply latest_session_same in Hsame as ->.
  destruct latest as [d|]; [|finish Hrun; by left].
  step Hrun as manifest w1 Hread. pose proof Hread as Hsame.
  apply (read_manifest_same Performance._read_manifest) in Hsame as ->;
    [|auto].
  destruct (negb (truthy manifest)) eqn:Ht; [finish Hrun; by left|].
  destruct manifest as [| | | | | |kvs];
    try (unfold manifest_get, bind, raise in Hrun; discriminate Hrun).
  right. exists d, kvs. split; [done|]. split; [done|]. by destruct kvs.
Qed.

Lemma restore_max_cases w r w' :
  win32 cfg = true →
  MaxPerformance.restore_latest_max_performance api cfg w = (Ok r, w') →
  (w' = w ∧ MaxPerformance.services_disabled r = [])
  ∨ ∃ d kvs,
      latest_session (MaxPerformance.backups_root cfg) w = (Ok (Some d), w)
      ∧ MaxPerformance._read_manifest d w = (Ok (VDict kvs), w)
      ∧ kvs ≠ [].
Proof.
  intros Hwin Hrun.
  unfold MaxPerformance.restore_latest_max_performance,
    MaxPerformance._ensure_windows in Hrun.
  rewrite Hwin in Hrun. cbn [negb] in Hrun.
  step Hrun as latest w1 Hlatest.
  pose proof Hlatest as Hsame. apply latest_session_same in Hsame as ->.
  destruct latest as [d|]; [|finish Hrun; by left].
  step Hrun as manifest w1 Hread. pose proof Hread as Hsame.
  apply (read_manifest_same MaxPerformance._read_manifest) in Hsame as ->;
    [|auto].
  destruct (negb (truthy manifest)) eqn:Ht; [finish Hrun; by left|].
  destruct manifest as [| | | | | |kvs];
    try (unfold manifest_get, bind, raise in Hrun; discriminate Hrun).
  right. exists d, kvs. split; [done|]. split; [done|]. by destruct kvs.
Qed.

(** The commands of the service loop of the restore. *)
Lemma restore_by_records_events records :
  ∀ errs w errs' w',
    restore_by_records api records errs w = (Ok errs', w') →
    ∃ l, appended w w' l
         ∧ Forall
             (λ e, ∃ X rv c,
                (X, rv) ∈ records
                ∧ ((∃ s, rv.1 = VStr s
                         ∧ e = EvRun
                                 ["sc.exe"; "config"; X;
                                  "start="
                                  +:+ MaxPerformance._normalize_start_type s]
                                 (Ok c))
                   ∨ (rv.2 = true ∧ e = EvRun ["sc.exe"; "start"; X] (Ok c))))
             l.
Proof.
  induction records as [|[X rv] records IH]; intros errs w errs' w' Hrun;
    cbn [restore_by_records] in Hrun.
  - finish Hrun. exists []. split; [apply appended_refl|constructor].
  - step Hrun as errs1 w1 Hrec. unfold restore_record in Hrec.
    step Hrec as errs2 w2 Hcfg. step Hrec as b w3 Hstart. finish Hrec.
    apply IH in Hrun as (l3 & Hl3 & Hall3).
    assert (∃ l1, appended w w2 l1
                  ∧ Forall (λ e, ∃ s c,
                              rv.1 = VStr s
                              ∧ e = EvRun
                                      ["sc.exe"; "config"; X;
                                       "start="
                                       +:+ MaxPerformance._normalize_start_type
                                             s] (Ok c)) l1)
      as (l1 & Hl1 & Hall1).
    { destruct rv.1 as [| | | |s| |] eqn:Hs; try (finish Hcfg;
        exists []; split; [apply appended_refl|constructor]).
      step Hcfg as ok w4 Hset.
      unfold MaxPerformance._set_service_start_type in Hset.
      step Hset as c w5 Hc. finish Hset.
      apply run_command_run in Hc as [_ Hl].
      assert (w2 = w4) as -> by (destruct (negb _); by finish Hcfg).
      eexists. split; [exact Hl|]. constructor; [|constructor].
      by exists s, c. }
    assert (∃ l2, appended w2 w1 l2
                  ∧ Forall (λ e, ∃ c, rv.2 = true
                                      ∧ e = EvRun ["sc.exe"; "start"; X]
                                                  (Ok c)) l2)
      as (l2 & Hl2 & Hall2).
    { destruct rv.2 eqn:Hr.
      - unfold MaxPerformance._start_service in Hstart.
        step Hstart as c w5 Hc. finish Hstart.
        apply run_command_run in Hc as [_ Hl].
        eexists. split; [exact Hl|]. constructor; [|constructor].
        by exists c.
      - finish Hstart. exists []. split; [apply appended_refl|constructor]. }
    eexists. split.
    { exact (appended_trans _ _ _ _ _ Hl1
               (appended_trans _ _ _ _ _ Hl2 Hl3)). }
    apply Forall_app. split; [|apply Forall_app; split].
    + eapply Forall_impl; [exact Hall1|]. intros e (s & c & Hs & ->).
      exists X, rv, c. split; [by left|]. left. by exists s.
    + eapply Forall_impl; [exact Hall2|]. intros e (c & Hr & ->).
      exists X, rv, c. split; [by left|]. by right.
    + eapply Forall_impl; [exact Hall3|]. intros e (Y & rv' & c & Hin & He).
      exists Y, rv', c. split; [by right|done].
Qed.

Lemma services_view_records items X rv :
  (X, rv) ∈ services_view (VDict items) →
  ∃ fields, (X, VDict fields) ∈ items
            ∧ rv = (as_str (dict_get "start_type" fields),
                    is_true (dict_get "was_running" fields)).
Proof.
  unfold services_view. intros Hin.
  apply list_elem_of_In, List.filter_In in Hin as [Hin Hused].
  apply list_elem_of_In, list_elem_of_fmap in Hin as ([Y state] & [= -> ->] & Hin).
  cbn [fst snd] in *.
  destruct state as [| | | | | |fields];
    try (unfold record_view, record_used in Hused; discriminate Hused).
  by exists fields.
Qed.

(** Every record of the view gets its commands. *)
Lemma restore_by_records_complete records :
  ∀ errs (w : world W) errs' w' l,
    restore_by_records api records errs w = (Ok errs', w') →
    appended w w' l →
    ∀ X rv, (X, rv) ∈ records →
      (∀ s, rv.1 = VStr s →
            ∃ c, EvRun ["sc.exe"; "config"; X;
                        "start=" +:+ MaxPerformance._normalize_start_type s]
                       (Ok c) ∈ l)
      ∧ (rv.2 = true → ∃ c, EvRun ["sc.exe"; "start"; X] (Ok c) ∈ l).
Proof.
  induction records as [|[Y rv0] records IH];
    intros errs w errs' w' l Hrun Hl X rv Hin;
    [by apply elem_of_nil in Hin|].
  cbn [restore_by_records] in Hrun.
  step Hrun as errs1 w1 Hrec.
  destruct (restore_by_records_events _ _ _ _ _ Hrun) as (l3 & Hl3 & _).
  assert (∃ l1, appended w w1 l1
            ∧ (∀ s, rv0.1 = VStr s →
                 ∃ c, EvRun ["sc.exe"; "config"; Y;
                             "start="
                             +:+ MaxPerformance._normalize_start_type s]
                            (Ok c) ∈ l1)
            ∧ (rv0.2 = true → ∃ c, EvRun ["sc.exe"; "start"; Y] (Ok c) ∈ l1))
    as (l1 & Hl1 & Hcfg & Hstart).
  { unfold restore_record in Hrec.
    step Hrec as errs2 w2 Hc. step Hrec as b w3 Hs. finish Hrec.
    assert (∃ la, appended w w2 la
              ∧ ∀ s, rv0.1 = VStr s →
                  ∃ c, EvRun ["sc.exe"; "config"; Y;
                              "start="
                              +:+ MaxPerformance._normalize_start_type s]
                             (Ok c) ∈ la) as (la & Hla & Ha).
    { destruct rv0.1 as [| | | |s| |] eqn:Hs1;
        try (finish Hc; exists []; split; [apply appended_refl|done]).
      step Hc as ok w4 Hset.
      unfold MaxPerformance._set_service_start_type in Hset.
      step Hset as c w5 Hcmd. finish Hset.
      apply run_command_run in Hcmd as [_ Hcmd].
      assert (w2 = w4) as -> by (destruct (negb _); by finish Hc).
      eexists. split; [exact Hcmd|]. intros s0 [= <-].
      exists c. by left. }
    assert (∃ lb, appended w2 w1 lb
              ∧ (rv0.2 = true →
                 ∃ c, EvRun ["sc.exe"; "start"; Y] (Ok c) ∈ lb))
      as (lb & Hlb & Hb).
    { destruct rv0.2 eqn:Hr.
      - unfold MaxPerformance._start_service in Hs.
        step Hs as c w5 Hcmd. finish Hs.
        apply run_command_run in Hcmd as [_ Hcmd].
        eexists. split; [exact Hcmd|]. intros _. exists c. by left.
      - finish Hs. exists []. split; [apply appended_refl|done]. }
    exists (la ++ lb). split; [exact (appended_trans _ _ _ _ _ Hla Hlb)|].
    split.
    - intros s Hs'. destruct (Ha s Hs') as [c Hc']. exists c.
      apply elem_of_app. by left.
    - intros Hr'. destruct (Hb Hr') as [c Hc']. exists c.
      apply elem_of_app. by right. }
  rewrite (appended_inj _ _ _ _ Hl (appended_trans _ _ _ _ _ Hl1 Hl3)).
  apply elem_of_cons in Hin as [[= -> ->]|Hin].
  - split.
    + intros s Hs. destruct (Hcfg s Hs) as [c Hc]. exists c.
      apply elem_of_app. by left.
    + intros Hr. destruct (Hstart Hr) as [c Hc]. exists c.
      apply elem_of_app. by left.
  - destruct (IH _ _ _ _ _ Hrun Hl3 X rv Hin) as [H1 H2]. split.
    + intros s Hs. destruct (H1 s Hs) as [c Hc]. exists c.
      apply elem_of_app. by right.
    + intros Hr. destruct (H2 Hr) as [c Hc]. exists c.
      apply elem_of_app. by right.
Qed.

Lemma performance_restore_by_view_events kvs d (w : world W) r w' l :
  performance_restore_by_view api (performance_view kvs) d w = (Ok r, w') →
  appended w w' l →
  Performance.backup_dir r = Some d
  ∧ Forall
      (λ e,
         writes_back Performance.RUN_KEY "OneDrive" is_str
           (dict_get "onedrive_run_value" kvs) e
         ∨ writes_back Performance.BACKGROUND_KEY "GlobalUserDisabled"
             is_int (dict_get "background_previous" kvs) e)
      l.
Proof.
  intros Hrun Hl.
  unfold performance_restore_by_view, performance_view in Hrun.
  cbn [fst snd] in Hrun.
  step Hrun as e1 w1 H1. step Hrun as e2 w2 H2. finish Hrun.
  split; [done|].
  apply restore_onedrive_run_events in H1 as (l1 & Hl1 & Hall1).
  apply restore_background_apps_events in H2 as (l2 & Hl2 & Hall2).
  rewrite (appended_inj _ _ _ _ Hl (appended_trans _ _ _ _ _ Hl1 Hl2)).
  apply Forall_app. split.
  - eapply Forall_impl; [exact Hall1|]. by left.
  - eapply Forall_impl; [exact Hall2|]. by right.
Qed.

Lemma max_restore_by_view_events kvs d (w : world W) r w' l :
  max_restore_by_view api (max_view kvs) d w = (Ok r, w') →
  appended w w' l →
  MaxPerformance.backup_dir r = Some d
  ∧ Forall
      (λ e,
         max_restore_command kvs e
         ∨ writes_back Performance.RUN_KEY "OneDrive" is_str
             (dict_get "onedrive_run_value" kvs) e)
      l
  ∧ ∀ X rv, (X, rv) ∈ services_view (dict_get "services" kvs) →
      ∀ s, rv.1 = VStr s →
        ∃ c, EvRun ["sc.exe"; "config"; X;
                    "start=" +:+ MaxPerformance._normalize_start_type s]
                   (Ok c) ∈ l.
Proof.
  intros Hrun Hl.
  unfold max_restore_by_view, max_view in Hrun. cbn [fst snd] in Hrun.
  step Hrun as errs1 w1 Hsvc.
  pose proof Hsvc as Hsvc'.
  apply restore_by_records_events in Hsvc as (l1 & Hl1 & Hall1).
  step Hrun as errs2 w2 Hpow.
  assert (∃ l2, appended w1 w2 l2
                ∧ Forall (max_restore_command kvs) l2) as (l2 & Hl2 & Hall2).
  { unfold as_str in Hpow.
    destruct (dict_get "power_scheme" kvs) as [| | | |g| |] eqn:Hg;
      cbn [is_str] in Hpow;
      try (finish Hpow; exists []; split; [apply appended_refl|constructor]).
    step Hpow as ok w3 Hset. unfold MaxPerformance._set_power_scheme in Hset.
    step Hset as c w4 Hc. finish Hset.
    apply run_command_run in Hc as [_ Hc].
    assert (w2 = w3) as -> by (destruct (negb _); by finish Hpow).
    eexists. split; [exact Hc|]. constructor; [|constructor].
    left. by exists g, c. }
  step Hrun as e3 w3 Hod. finish Hrun. split; [done|].
  unfold MaxPerformance._restore_onedrive_run in Hod.
  apply restore_onedrive_run_events in Hod as (l3 & Hl3 & Hall3).
  rewrite (appended_inj _ _ _ _ Hl
             (appended_trans _ _ _ _ _ Hl1
                (appended_trans _ _ _ _ _ Hl2 Hl3))).
  split.
  - apply Forall_app. split; [|apply Forall_app; split].
    + eapply Forall_impl; [exact Hall1|].
      intros e (X & rv & c & Hin & He). left. right.
      destruct (dict_get "services" kvs) as [| | | | | |items] eqn:Hitems;
        try (by apply elem_of_nil in Hin).
      apply services_view_records in Hin as (fields & Hin & ->).
      exists items, X, fields, c. split; [done|]. split; [done|].
      cbn [fst snd] in He. destruct He as [(s & Hs & ->)|[Hr ->]].
      * left. exists s. split; [|done]. unfold as_str in Hs.
        by destruct (dict_get "start_type" fields).
      * right. split; [|done].
        by destruct (dict_get "was_running" fields) as [|[]| | | | |].
    + eapply Forall_impl; [exact Hall2|]. by left.
    + eapply Forall_impl; [exact Hall3|]. by right.
  - intros X rv Hin s Hs.
    destruct (restore_by_records_complete _ _ _ _ _ _ Hsvc' Hl1 X rv Hin)
      as [Hcfg _].
    destruct (Hcfg s Hs) as [c Hc]. exists c. apply elem_of_app. by left.
Qed.

End RestoreCases.

(** X11.  On Windows the Performance restore writes back what the
    manifest of the latest session holds and nothing else: the OneDrive
    startup value is set to the recorded value when that is a string and
    deleted otherwise; the background-apps value is set to the recorded
    value when that is an integer and deleted otherwise.  It reports the
    session it read. *)
Theorem performance_restore_writes_back
    {W} (api : os_api W) (cfg : config) (w : world W) r w' l :
  win32 cfg = true →
  Performance.restore_latest_performance api cfg w = (Ok r, w') →
  appended w w' l →
  l = []
  ∨ ∃ d kvs,
      latest_session (Performance.backups_root cfg) w = (Ok (Some d), w)
      ∧ Performance._read_manifest d w = (Ok (VDict kvs), w)
      ∧ Performance.backup_dir r = Some d
      ∧ Forall
          (λ e,
             writes_back Performance.RUN_KEY "OneDrive" is_str
               (dict_get "onedrive_run_value" kvs) e
             ∨ writes_back Performance.BACKGROUND_KEY "GlobalUserDisabled"
                 is_int (dict_get "background_previous" kvs) e)
          l.
Proof.
  intros Hwin Hrun Hl.
  destruct (restore_performance_cases api cfg w r w' Hwin Hrun)
    as [[-> _]|(d & kvs & Hlatest & Hread & Hne)].
  { left. exact (appended_inj _ _ _ _ Hl (appended_refl _)). }
  right. exists d, kvs. split; [done|]. split; [done|].
  rewrite (restore_performance_by_view api cfg w d kvs) in Hrun by done.
  by apply (performance_restore_by_view_events api kvs d w r w' l).
Qed.

Lemma performance_restore_writes_back_witness :
  ∃ r w' l,
    Performance.restore_latest_performance Sim.api Sim.win_cfg
      (performance_session (VDict odd_manifest)) = (Ok r, w')
    ∧ appended (performance_session (VDict odd_manifest)) w' l
    ∧ Forall
        (λ e,
           writes_back Performance.RUN_KEY "OneDrive" is_str
             (VStr "OneDrive.exe /background") e
           ∨ writes_back Performance.BACKGROUND_KEY "GlobalUserDisabled"
               is_int (VStr "one") e)
        l
    ∧ length l = 4.
Proof.
  destruct (Performance.restore_latest_performance Sim.api Sim.win_cfg
              (performance_session (VDict odd_manifest)))
    as [[r|e] w'] eqn:E; [|vm_compute in E; discriminate E].
  assert (Hl : appended (performance_session (VDict odd_manifest)) w'
                 (w_log w')) by reflexivity.
  assert (Hlen : length (w_log w') = 4).
  { apply (f_equal (λ x, length (w_log x.2))) in E. cbn [snd] in E.
    rewrite <- E. by vm_compute. }
  destruct (performance_restore_writes_back Sim.api Sim.win_cfg
              (performance_session (VDict odd_manifest)) r w' (w_log w')
              eq_refl E Hl) as [Hnil|(d & kvs & Hlatest & Hread & _ & Hall)].
  { rewrite Hnil in Hlen. discriminate Hlen. }
  exists r, w', (w_log w'). split; [reflexivity|]. split; [exact Hl|].
  split; [|exact Hlen].
  apply (f_equal fst) in Hlatest. vm_compute in Hlatest.
  injection Hlatest as <-.
  apply (f_equal fst) in Hread. vm_compute in Hread.
  injection Hread as <-. exact Hall.
Defined.

(** X12.  On Windows the MaxPerformance restore does what the manifest of
    the latest session says and nothing else: it sets a service to its
    recorded start type, normalised, when that is a string; it starts a
    service recorded as running; it activates the recorded power scheme;
    it writes back the OneDrive startup value.  It never stops or queries
    a service and never changes the file system. *)
Theorem max_restore_follows_manifest
    {W} (api : os_api W) (cfg : config) (w : world W) r w' l :
  win32 cfg = true →
  MaxPerformance.restore_latest_max_performance api cfg w = (Ok r, w') →
  appended w w' l →
  l = []
  ∨ ∃ d kvs,
      latest_session (MaxPerformance.backups_root cfg) w = (Ok (Some d), w)
      ∧ MaxPerformance._read_manifest d w = (Ok (VDict kvs), w)
      ∧ MaxPerformance.backup_dir r = Some d
      ∧ Forall
          (λ e,
             max_restore_command kvs e
             ∨ writes_back Performance.RUN_KEY "OneDrive" is_str
                 (dict_get "onedrive_run_value" kvs) e)
          l.
Proof.
  intros Hwin Hrun Hl.
  destruct (restore_max_cases api cfg w r w' Hwin Hrun)
    as [[-> _]|(d & kvs & Hlatest & Hread & Hne)].
  { left. exact (appended_inj _ _ _ _ Hl (appended_refl _)). }
  right. exists d, kvs. split; [done|]. split; [done|].
  rewrite (restore_max_by_view api cfg w d kvs) in Hrun by done.
  destruct (max_restore_by_view_events api kvs d w r w' l Hrun Hl)
    as (Hd & Hall & _).
  done.
Qed.

Lemma max_restore_follows_manifest_witness :
  ∃ r w',
    MaxPerformance.restore_latest_max_performance Sim.api Sim.win_cfg
      (max_session (VDict sample_max_manifest)) = (Ok r, w')
    ∧ Forall
        (λ e,
           max_restore_command sample_max_manifest e
           ∨ writes_back Performance.RUN_KEY "OneDrive" is_str
               (VStr "OneDrive.exe /background") e)
        (w_log w')
    ∧ length (w_log w') = 6.
Proof.
  destruct (MaxPerformance.restore_latest_max_performance Sim.api Sim.win_cfg
              (max_session (VDict sample_max_manifest)))
    as [[r|e] w'] eqn:E; [|vm_compute in E; discriminate E].
  assert (Hl : appended (max_session (VDict sample_max_manifest)) w'
                 (w_log w')) by reflexivity.
  assert (Hlen : length (w_log w') = 6).
  { apply (f_equal (λ x, length (w_log x.2))) in E. cbn [snd] in E.
    rewrite <- E. by vm_compute. }
  destruct (max_restore_follows_manifest Sim.api Sim.win_cfg
              (max_session (VDict sample_max_manifest)) r w' (w_log w')
              eq_refl E Hl) as [Hnil|(d & kvs & Hlatest & Hread & _ & Hall)].
  { rewrite Hnil in Hlen. discriminate Hlen. }
  exists r, w'. split; [reflexivity|]. split; [|exact Hlen].
  apply (f_equal fst) in Hlatest. vm_compute in Hlatest.
  injection Hlatest as <-.
  apply (f_equal fst) in Hread. vm_compute in Hread.
  injection Hread as <-. exact Hall.
Defined.

(** ** The file system: what a new session changes *)

Lemma lookup_app p q t :
  FS.lookup (p ++ q) t = FS.lookup p t ≫= FS.lookup q.
Proof.
  revert t. induction p as [|c p IH]; intros t; [done|].
  cbn. destruct t as [|ents]; [done|]. destruct (ents !! c); [apply IH|done].
Qed.

Lemma lookup_in_empty q : q ≠ [] → FS.lookup q (FS.Dir ∅) = None.
Proof. by destruct q. Qed.

(** [mkdir -p] changes nothing off the way to the new directory. *)
Lemma lookup_mkdir_p_other p : ∀ q t t',
  FS.mkdir_p p t = Ok t' → ¬ q `prefix_of` p →
  FS.lookup q t' = FS.lookup q t.
Proof.
  induction p as [|c p IH]; intros q t t' Hmk Hq.
  - destruct t; cbn in Hmk; [discriminate|by injection Hmk as <-].
  - destruct t as [|ents]; cbn in Hmk; [discriminate|].
    destruct (FS.mkdir_p p (default (FS.Dir ∅) (ents !! c))) as [t1|e] eqn:E;
      [|discriminate].
    injection Hmk as <-.
    destruct q as [|c' q]; [by destruct Hq; apply prefix_nil|].
    cbn. destruct (decide (c' = c)) as [->|Hne].
    + rewrite lookup_insert_eq.
      assert (Hq' : ¬ q `prefix_of` p)
        by (intros H; apply Hq; by apply prefix_cons).
      rewrite (IH q _ _ E Hq').
      destruct (ents !! c); [done|]. apply lookup_in_empty.
      intros ->. apply Hq'. apply prefix_nil.
    + by rewrite lookup_insert_ne.
Qed.


Lemma is_dir_prefix p q t :
  FS.is_dir (p ++ q) t = true → FS.is_dir p t = true.
Proof.
  unfold FS.is_dir. rewrite lookup_app.
  destruct (FS.lookup p t) as [[|ents]|]; cbn; [|done|done].
  by destruct q.
Qed.



Section NewSession.
Context {W : Type}.




End NewSession.

(** ** Apply, then restore *)







(** ** The log explains the file system *)



Section Replay.
Context {W : Type} (api : os_api W) (cfg : config).





End Replay.

(** Directories made below [session] leave everything else alone. *)
Lemma mkdir_p_keeps_dir p q t t' :
  FS.mkdir_p p t = Ok t' → FS.is_dir q t = true → FS.is_dir q t' = true.
Proof.
  intros Hmk Hq. destruct (decide (q `prefix_of` p)) as [[k ->]|Hn].
  - apply mkdir_p_is_dir in Hmk. by eapply is_dir_prefix.
  - unfold FS.is_dir in *. by rewrite (lookup_mkdir_p_other _ _ _ _ Hmk Hn).
Qed.






